(** * Slack ETL-notification loader: a shallow embedding and its properties

    The development follows [scripts/slack-etl-load.py] (the chunked
    fetch-and-parse pipeline with its cache) and
    [archive/scripts/etl-analysis-2024.py] (the summary statistics).

    Conventions of the embedding.
    - A Python [str] is a Rocq [string]; a character is a code point in
      [0, 255], and the classes [\w], [\d], [\s] are Python 3's Unicode
      classes restricted to that range.
    - A naive [datetime] is the integer number of microseconds on the
      proleptic Gregorian scale on which [date.toordinal] counts days;
      [timedelta] arithmetic is integer addition.  The bounds of Python's
      [datetime] type (years 1 to 9999) are checked where a date is built
      from its fields and where the chunk loop adds a week to one
      ([OverflowError]).  [datetime.timestamp()] is a partial function of
      the platform and its time zone: it raises where they cannot
      convert.
    - Python's [int] is [Z]; a column of the data frame holds the integers
      as they are, the 64-bit width of the library's integer columns being
      left out.
    - Effects are explicit: the messaging API is a state machine over an
      abstract [World]; printing, sleeping and API requests are recorded in
      an [event] trace; the file system is a map from paths to files; the
      [all_rows] list, which the source mutates in place, is threaded
      through the loops so that rows appended before an exception survive
      it. *)

From Stdlib Require Import String Ascii ZArith NArith Bool Lia List.
From Stdlib Require Import Permutation Sorted Orders Mergesort QArith.
Import ListNotations.

#[local] Open Scope Z_scope.
#[local] Open Scope string_scope.
#[local] Open Scope list_scope.

(** ** Text: character classes and the three regular expressions *)

Module Text.

(** Code point of a character. *)
Definition code (c : ascii) : N := N_of_ascii c.

Definition in_range (lo hi : N) (c : ascii) : bool :=
  (N.leb lo (code c) && N.leb (code c) hi)%bool.

(** [\d]: the decimal digits.  Below 256 these are ['0'..'9']. *)
Definition is_digit (c : ascii) : bool := in_range 48 57 c.

(** [\w]: alphanumerics and the underscore.  Below 256 Python 3 counts,
    besides [0-9A-Za-z_], the Latin-1 letters and numerics. *)
Definition is_word (c : ascii) : bool :=
  (in_range 48 57 c || in_range 65 90 c || in_range 95 95 c
   || in_range 97 122 c || in_range 170 170 c || in_range 178 179 c
   || in_range 181 181 c || in_range 185 186 c || in_range 188 190 c
   || in_range 192 214 c || in_range 216 246 c || in_range 248 255 c)%bool.

(** [\s]: whitespace.  Below 256: TAB..CR, FS..US and space, NEL, NBSP. *)
Definition is_space (c : ascii) : bool :=
  (in_range 9 13 c || in_range 28 32 c || in_range 133 133 c
   || in_range 160 160 c)%bool.

(** The class [[\w\.]] of the table pattern. *)
Definition is_table_char (c : ascii) : bool :=
  (is_word c || Ascii.eqb c ".")%bool.

(** [.] matches every character but the line feed (no DOTALL flag). *)
Definition newline : ascii := ascii_of_N 10.

(** A literal at the head of [s]: the rest of [s] behind it. *)
Fixpoint strip_prefix (lit s : string) : option string :=
  match lit with
  | EmptyString => Some s
  | String a lit' =>
      match s with
      | String b s' => if Ascii.eqb a b then strip_prefix lit' s' else None
      | EmptyString => None
      end
  end.

(** The lazy group [(.*?)] followed by the literal [delim]: the shortest
    run of characters other than line feeds after which [delim] stands. *)
Fixpoint lazy_until (delim s : string) : option string :=
  match strip_prefix delim s with
  | Some _ => Some EmptyString
  | None =>
      match s with
      | EmptyString => None
      | String c s' =>
          if Ascii.eqb c newline then None
          else option_map (String c) (lazy_until delim s')
      end
  end.

(** [re.search] of the pattern [lit(.*?)delim], returning group 1: the
    leftmost position at which the pattern matches wins. *)
Fixpoint search_between (lit delim s : string) : option string :=
  let here :=
    match strip_prefix lit s with
    | Some rest => lazy_until delim rest
    | None => None
    end in
  match here with
  | Some g => Some g
  | None =>
      match s with
      | EmptyString => None
      | String _ s' => search_between lit delim s'
      end
  end.

(** [re.search(r'loaded: (.*?) \(', text)], group 1. *)
Definition filename_match (text : string) : option string :=
  search_between "loaded: " " (" text.

(** [re.search(r'into (.*?):', text)], group 1. *)
Definition dest_match (text : string) : option string :=
  search_between "into " ":" text.

(** The longest prefix of [s] inside the class [p], and what follows. *)
Fixpoint span (p : ascii -> bool) (s : string) : string * string :=
  match s with
  | EmptyString => (EmptyString, EmptyString)
  | String c s' =>
      if p c then let (a, b) := span p s' in (String c a, b)
      else (EmptyString, s)
  end.

Definition is_empty (s : string) : bool :=
  match s with EmptyString => true | _ => false end.

(** The pattern [([\w\.]+):\s*(\d+)\s*rows] matched at the head of [s]:
    both groups and the number of characters matched.  Every greedy run is
    followed by a character outside its class ([:] after [[\w\.]+], a digit
    after [\s*], [r] or whitespace after [\d+], [r] after [\s*]), so giving
    characters back never helps and the longest runs decide the match. *)
Definition match_table_at (s : string) : option (string * string * nat) :=
  let (tbl, r1) := span is_table_char s in
  if is_empty tbl then None else
  match strip_prefix ":" r1 with
  | None => None
  | Some r2 =>
      let (ws1, r3) := span is_space r2 in
      let (digits, r4) := span is_digit r3 in
      if is_empty digits then None else
      let (ws2, r5) := span is_space r4 in
      match strip_prefix "rows" r5 with
      | None => None
      | Some _ =>
          Some (tbl, digits,
                (String.length tbl + 1 + String.length ws1
                 + String.length digits + String.length ws2 + 4)%nat)
      end
  end.

(** [re.findall] of the table pattern: matches are taken left to right and
    do not overlap; [skip] counts the characters of the last match that the
    scan still has to step over. *)
Fixpoint findall_from (skip : nat) (s : string) : list (string * string) :=
  match s with
  | EmptyString => []
  | String _ s' =>
      match skip with
      | S k => findall_from k s'
      | O =>
          match match_table_at s with
          | Some (tbl, digits, n) => (tbl, digits) :: findall_from (n - 1) s'
          | None => findall_from 0 s'
          end
      end
  end.

(** [re.findall(r'([\w\.]+):\s*(\d+)\s*rows', text)]. *)
Definition table_data (text : string) : list (string * string) :=
  findall_from 0 text.

(** Every character of [s] is in the class [p]. *)
Fixpoint all_chars (p : ascii -> bool) (s : string) : bool :=
  match s with
  | EmptyString => true
  | String c s' => (p c && all_chars p s')%bool
  end.

(** The literal [lit] stands somewhere in [s]. *)
Fixpoint occurs (lit s : string) : bool :=
  match strip_prefix lit s with
  | Some _ => true
  | None =>
      match s with
      | EmptyString => false
      | String _ s' => occurs lit s'
      end
  end.

(** [int(row_count)] on a string of decimal digits.  The interpreter's
    configurable cap on the length of such a string is a setting of the
    runtime and is left out. *)
Definition digit_value (c : ascii) : Z := Z.of_N (code c) - 48.

Fixpoint int_acc (acc : Z) (s : string) : Z :=
  match s with
  | EmptyString => acc
  | String c s' => int_acc (acc * 10 + digit_value c) s'
  end.

Definition int (s : string) : Z := int_acc 0 s.

(** *** The table pattern as the regular expression words it *)

(** The pattern [([\w\.]+):\s*(\d+)\s*rows] matches at the head of [s]
    with the groups [tbl] and [digits], and [rest] is what follows the
    match: a non-empty run of the class [[\w\.]], a colon, whitespace, a
    non-empty run of digits, whitespace, and "rows". *)
Definition pattern_matches (s tbl digits rest : string) : Prop :=
  exists ws1 ws2,
    s = ((tbl ++ ":" ++ ws1 ++ digits ++ ws2 ++ "rows") ++ rest)%string
    /\ is_empty tbl = false /\ all_chars is_table_char tbl = true
    /\ all_chars is_space ws1 = true
    /\ is_empty digits = false /\ all_chars is_digit digits = true
    /\ all_chars is_space ws2 = true.

(** [re.findall] as its documentation words it: the text is scanned from
    left to right; a place at which the pattern does not match is passed
    over; after a match the scan goes on behind it, so that the matches
    do not overlap; the pairs of groups come in the order found. *)
Inductive findall_spec : string -> list (string * string) -> Prop :=
| scan_end : findall_spec EmptyString []
| scan_pass (c : ascii) (s : string) (pairs : list (string * string)) :
    (forall tbl digits rest,
       ~ pattern_matches (String c s) tbl digits rest) ->
    findall_spec s pairs ->
    findall_spec (String c s) pairs
| scan_match (s tbl digits rest : string)
    (pairs : list (string * string)) :
    pattern_matches s tbl digits rest ->
    findall_spec rest pairs ->
    findall_spec s ((tbl, digits) :: pairs).

End Text.

(** ** Data model *)

(** A naive [datetime], in microseconds. *)
Definition datetime := Z.

(** One row of the result: the dict appended to [all_rows]. *)
Record LoadRecord := mkLoad {
  timestamp : datetime;
  filename : string;
  destination : string;
  table : string;
  rows : Z
}.

(** A Slack attachment and message, with the keys the loader reads; [None]
    is an absent key. *)
Record attachment := mkAttachment {
  pretext : option string;
  text : option string
}.

Record message := mkMessage {
  ts : option string;
  attachments : option (list attachment)
}.

(** Exceptions the loader can meet. *)
Inductive exn :=
| KeyError (key : string)
| ValueError (what : string)
| OverflowError (what : string)
| SlackApiError (what : string).

(** How a block of statements ended. *)
Inductive status :=
| Normal
| Raised (e : exn).

(** A Python [for] loop over [xs] whose body updates [all_rows] in place:
    an exception leaves the loop at once, with the rows appended so far. *)
Fixpoint for_each {A : Type}
    (body : list LoadRecord -> A -> list LoadRecord * status)
    (xs : list A) (all_rows : list LoadRecord) : list LoadRecord * status :=
  match xs with
  | [] => (all_rows, Normal)
  | x :: xs' =>
      match body all_rows x with
      | (rows', Normal) => for_each body xs' rows'
      | (rows', Raised e) => (rows', Raised e)
      end
  end.

(** A loop body that only ever appends to [all_rows]. *)
Definition appends {A : Type}
    (body : list LoadRecord -> A -> list LoadRecord * status) : Prop :=
  forall all_rows x,
    body all_rows x = (all_rows ++ fst (body [] x), snd (body [] x)).

(** ** RecordExtractor: lines 32-54 of [fetch_slack_chunk] *)

Section Extractor.

(** [datetime.fromtimestamp(float(s))]: the local time of a Slack
    timestamp string; [None] when either conversion raises. *)
Variable fromtimestamp_float : string -> option datetime.

(** [attachment.get("pretext") == "ETL Notification"]. *)
Definition is_etl_notification (a : attachment) : bool :=
  match pretext a with
  | Some p => String.eqb p "ETL Notification"
  | None => false
  end.

(** [attachment.get("text", "")]. *)
Definition text_of (a : attachment) : string :=
  match text a with Some t => t | None => "" end.

Definition filename_of (txt : string) : string :=
  match Text.filename_match txt with Some g => g | None => "Unknown" end.

Definition destination_of (txt : string) : string :=
  match Text.dest_match txt with Some g => g | None => "Unknown" end.

(** The inner loop, lines 47-54: one append per pair of [table_data]. *)
Definition append_rows (t : datetime) (fname dest : string)
    (pairs : list (string * string)) (all_rows : list LoadRecord)
    : list LoadRecord :=
  fold_left
    (fun acc (p : string * string) =>
       acc ++ [mkLoad t fname dest (fst p) (Text.int (snd p))])
    pairs all_rows.

(** Lines 35-54, the body of the loop over attachments. *)
Definition process_attachment (msg : message)
    (all_rows : list LoadRecord) (a : attachment)
    : list LoadRecord * status :=
  if is_etl_notification a then
    match ts msg with
    | None => (all_rows, Raised (KeyError "ts"))
    | Some s =>
        match fromtimestamp_float s with
        | None => (all_rows, Raised (ValueError s))
        | Some t =>
            let txt := text_of a in
            (append_rows t (filename_of txt) (destination_of txt)
               (Text.table_data txt) all_rows, Normal)
        end
    end
  else (all_rows, Normal).

(** Lines 33-54, the body of the loop over messages. *)
Definition process_message (all_rows : list LoadRecord) (msg : message)
    : list LoadRecord * status :=
  match attachments msg with
  | None => (all_rows, Normal)
  | Some atts => for_each (process_attachment msg) atts all_rows
  end.

(** Lines 32-54. *)
Definition process_messages (msgs : list message)
    (all_rows : list LoadRecord) : list LoadRecord * status :=
  for_each process_message msgs all_rows.

(** Whether a message has an attachment with the marker pretext. *)
Definition carries_marker (msg : message) : bool :=
  match attachments msg with
  | Some atts => existsb is_etl_notification atts
  | None => false
  end.

(** The extractor as the specification words it: the records of one
    notification text, one per [(table, row_count)] pair, sharing the
    message's timestamp and the text's file name and destination. *)
Definition spec_records_of_text (t : datetime) (txt : string)
    : list LoadRecord :=
  map (fun p : string * string =>
         mkLoad t (filename_of txt) (destination_of txt)
                (fst p) (Text.int (snd p)))
      (Text.table_data txt).

(** The records a message contributes according to the specification:
    those of its attachments that carry the marker pretext. *)
Definition spec_records_of_message (t : datetime) (msg : message)
    : list LoadRecord :=
  match attachments msg with
  | None => []
  | Some atts =>
      flat_map
        (fun a => if is_etl_notification a
                  then spec_records_of_text t (text_of a) else [])
        atts
  end.

End Extractor.

(** ** MessageFetcher: [fetch_slack_chunk] *)

(** A POSIX timestamp, in microseconds; the source holds it as a float
    number of seconds. *)
Definition posix := Z.

(** One page of [conversations_history], with the keys the loader reads:
    [messages] (absent reads as the empty list), the [next_cursor] of
    [response_metadata] and [has_more] (absent reads as [False]). *)
Record response := mkResponse {
  messages : list message;
  next_cursor : option string;
  has_more : bool
}.

(** The lines the program prints. *)
Inductive output :=
| ErrorInBatch (e : exn)
| FetchedRecords (n : nat) (oldest latest : posix)
| LoadingCached
| FetchingHistory (start_time end_time : datetime)
| NoDataFound
| CachingTo (cache_file : string)
| TotalRecords (n : nat)
| DeletedCache.

(** What the program does to the outside, in order. *)
Inductive event :=
| Request (channel : string) (oldest latest : posix) (limit : Z)
          (cursor : option string)
| Sleep (seconds : Z)
| Print (line : output).

(** Truth value of [cursor]: a non-empty string. *)
Definition truthy (cursor : option string) : bool :=
  match cursor with
  | Some c => negb (Text.is_empty c)
  | None => false
  end.

Section Fetcher.

Variable fromtimestamp_float : string -> option datetime.

(** The messaging API: a request either returns a page or raises, and
    moves the outside world on. *)
Variable World : Type.
Variable conversations_history :
  World -> string -> posix -> posix -> Z -> option string ->
  (response + exn) * World.

(** The [while has_more] loop, lines 20-66.  [fuel] bounds the number of
    requests; [None] means the bound was reached with the API still
    offering pages.  An exception in the [try] block, from the request or
    from processing the page, is printed and ends the loop; [all_rows]
    keeps what was appended before it. *)
Fixpoint pagination (fuel : nat) (w : World) (channel : string)
    (oldest latest : posix) (cursor : option string)
    (all_rows : list LoadRecord)
    : option (World * list LoadRecord * list event) :=
  match fuel with
  | O => None
  | S fuel' =>
      let request := Request channel oldest latest 1000 cursor in
      match conversations_history w channel oldest latest 1000 cursor with
      | (inr e, w') =>
          Some (w', all_rows, [request; Print (ErrorInBatch e); Sleep 2])
      | (inl result, w') =>
          match process_messages fromtimestamp_float
                  (messages result) all_rows with
          | (rows', Raised e) =>
              Some (w', rows', [request; Print (ErrorInBatch e); Sleep 2])
          | (rows', Normal) =>
              let cursor' := next_cursor result in
              if (truthy cursor' && has_more result)%bool then
                match pagination fuel' w' channel oldest latest
                        cursor' rows' with
                | Some (w'', rows'', evs) =>
                    Some (w'', rows'', request :: Sleep 2 :: evs)
                | None => None
                end
              else Some (w', rows', [request])
          end
      end
  end.

(** [fetch_slack_chunk(client, channel, oldest, latest)].  Nothing
    outside the inner [try] raises in this model, so the outer handler,
    which would return the empty list, is never entered. *)
Definition fetch_slack_chunk (fuel : nat) (w : World) (channel : string)
    (oldest latest : posix)
    : option (World * list LoadRecord * list event) :=
  match pagination fuel w channel oldest latest None [] with
  | Some (w', all_rows, evs) =>
      Some (w', all_rows,
            evs ++ [Print (FetchedRecords (length all_rows) oldest latest)])
  | None => None
  end.

(** The records one page adds to [all_rows]. *)
Definition page_records (r : response) : list LoadRecord :=
  fst (process_messages fromtimestamp_float (messages r) []).

(** A run of the API for one chunk in which the pages [pages] are served
    one after the other from [cursor] on, each one processed without an
    exception and each one announcing a next page, and in which the
    request after the last of them raises [e]. *)
Inductive pages_then_error (channel : string) (oldest latest : posix)
    : World -> option string -> list response -> exn -> World -> Prop :=
| run_error w cursor e w' :
    conversations_history w channel oldest latest 1000 cursor
    = (inr e, w') ->
    pages_then_error channel oldest latest w cursor [] e w'
| run_page w cursor r w1 pages e w' :
    conversations_history w channel oldest latest 1000 cursor
    = (inl r, w1) ->
    snd (process_messages fromtimestamp_float (messages r) []) = Normal ->
    (truthy (next_cursor r) && has_more r)%bool = true ->
    pages_then_error channel oldest latest w1 (next_cursor r) pages e w' ->
    pages_then_error channel oldest latest w cursor (r :: pages) e w'.

(** What such a run shows to the outside: one request per page, a pause
    before each further request, and, after the request that fails, the
    printed error and a pause. *)
Fixpoint run_trace (channel : string) (oldest latest : posix)
    (cursor : option string) (pages : list response) (e : exn)
    : list event :=
  match pages with
  | [] =>
      [Request channel oldest latest 1000 cursor;
       Print (ErrorInBatch e); Sleep 2]
  | r :: pages' =>
      Request channel oldest latest 1000 cursor :: Sleep 2
        :: run_trace channel oldest latest (next_cursor r) pages' e
  end.

End Fetcher.

(** The requests in a trace. *)
Definition requests (evs : list event) : list event :=
  filter (fun ev => match ev with Request _ _ _ _ _ => true | _ => false end)
         evs.

(** ** Dates *)

Definition us_per_day : Z := 86400000000.

(** [timedelta(days=d)]. *)
Definition timedelta_days (d : Z) : Z := d * us_per_day.

Definition is_leap (y : Z) : bool :=
  (Z.eqb (y mod 4) 0
   && (negb (Z.eqb (y mod 100) 0) || Z.eqb (y mod 400) 0))%bool.

Definition days_before_year (y : Z) : Z :=
  let y1 := y - 1 in y1 * 365 + y1 / 4 - y1 / 100 + y1 / 400.

Definition month_lengths (y : Z) : list Z :=
  [31; if is_leap y then 29 else 28; 31; 30; 31; 30; 31; 31; 30; 31; 30; 31].

Definition days_in_month (y m : Z) : Z :=
  nth (Z.to_nat (m - 1)) (month_lengths y) 0.

Definition days_before_month (y m : Z) : Z :=
  fold_right Z.add 0 (firstn (Z.to_nat (m - 1)) (month_lengths y)).

(** The ordinal of a day, as [date.toordinal] counts: 1 for 0001-01-01. *)
Definition ymd2ord (y m d : Z) : Z :=
  days_before_year y + days_before_month y m + d.

(** Midnight at the start of a day. *)
Definition midnight (y m d : Z) : datetime := ymd2ord y m d * us_per_day.

(** [datetime.min] and [datetime.max]: the first instant of 0001-01-01 and
    the last microsecond of 9999-12-31. *)
Definition datetime_min : datetime := midnight 1 1 1.

Definition datetime_max : datetime := midnight 9999 12 31 + us_per_day - 1.

(** [t + delta] for a [timedelta] of [delta] microseconds: the sum, or the
    [OverflowError] of a sum that is no datetime. *)
Definition datetime_add (t : datetime) (delta : Z) : datetime + exn :=
  let sum := t + delta in
  if (Z.leb datetime_min sum && Z.leb sum datetime_max)%bool
  then inl sum
  else inr (OverflowError "date value out of range").

(** [datetime(y, m, d)]; [None] is the [ValueError] of a field out of
    range. *)
Definition datetime_of (y m d : Z) : option datetime :=
  if (Z.leb 1 y && Z.leb y 9999 && Z.leb 1 m && Z.leb m 12
      && Z.leb 1 d && Z.leb d (days_in_month y m))%bool
  then Some (midnight y m d)
  else None.

(** A date argument ['%Y-%m-%d'], given by the fields it spells. *)
Record ymd := mkYmd { year : Z; month : Z; day : Z }.

(** [datetime.strptime(s, '%Y-%m-%d')]. *)
Definition strptime (s : ymd) : option datetime :=
  datetime_of (year s) (month s) (day s).

(** ** The data frame and its sort *)

Definition DataFrame := list LoadRecord.

(** The order on integers is total; both sort instances below stand on it. *)
Definition Z_leb_total (a b : Z) : Z.leb a b = true \/ Z.leb b a = true :=
  match Z.le_ge_cases a b with
  | or_introl H => or_introl (proj2 (Z.leb_le a b) H)
  | or_intror H => or_intror (proj2 (Z.leb_le b a) H)
  end.

Module TimestampOrder <: TotalLeBool.
Definition t := LoadRecord.
Definition leb (x y : t) : bool := Z.leb (timestamp x) (timestamp y).
Definition leb_total (x y : t) : leb x y = true \/ leb y x = true :=
  Z_leb_total (timestamp x) (timestamp y).
End TimestampOrder.

Module FrameSort := Sort TimestampOrder.

(** [df.sort('timestamp')]: ascending.  The order the library gives to rows
    of equal timestamp is not fixed by its interface; the properties below
    use only that the result is ordered and has the same rows. *)
Definition sort_by_timestamp (df : DataFrame) : DataFrame := FrameSort.sort df.

(** Ascending order of timestamps. *)
Definition by_timestamp (x y : LoadRecord) : Prop :=
  timestamp x <= timestamp y.

(** ** The file system, as far as the cache is concerned *)

Definition FS := string -> option DataFrame.

(** [df.write_parquet(path)]: the file then holds the frame. *)
Definition write_parquet (fs : FS) (path : string) (df : DataFrame) : FS :=
  fun p => if String.eqb p path then Some df else fs p.

(** [os.remove(path)]. *)
Definition remove (fs : FS) (path : string) : FS :=
  fun p => if String.eqb p path then None else fs p.

(** [os.path.exists(path)]. *)
Definition path_exists (fs : FS) (path : string) : bool :=
  match fs path with Some _ => true | None => false end.

(** ** ChunkScheduler and the pipeline: [fetch_etl_history] *)

(** How a call ended: with a value ([None] is Python's [None]) or with an
    exception that nothing caught. *)
Inductive answer :=
| Returns (df : option DataFrame)
| Raises (e : exn).

Definition channel : string := "YOUR_SLACK_CHANNEL_ID".

(** Lines 118-133: flatten the chunk results; when there are none, report
    it and return [None]; otherwise build the frame, sort it, write the
    cache and return the frame. *)
Definition combine_and_cache (fs : FS) (cache_file : string)
    (chunk_results : list (list LoadRecord))
    : FS * list event * option DataFrame :=
  let all_rows := concat chunk_results in
  match all_rows with
  | [] => (fs, [Print NoDataFound], None)
  | _ :: _ =>
      let df := sort_by_timestamp all_rows in
      (write_parquet fs cache_file df,
       [Print (CachingTo cache_file);
        Print (TotalRecords (length all_rows))],
       Some df)
  end.

Section Scheduler.

Variable fromtimestamp_float : string -> option datetime.

(** [datetime.timestamp()], which reads a naive datetime in the local
    time zone, and raises for one that the platform cannot convert. *)
Variable to_posix : datetime -> posix + exn.

Variable World : Type.
Variable conversations_history :
  World -> string -> posix -> posix -> Z -> option string ->
  (response + exn) * World.

(** The loop of lines 100-105.  [fuel] bounds the number of windows;
    [None] means the bound was reached.  The loop ends with the list of
    pairs, or with the exception of the first statement that raises: the
    sum of line 103, which is taken before the minimum, or one of the two
    conversions of line 104, the one of [chunk_start] first. *)
Fixpoint chunk_loop (fuel : nat) (chunk_start end_time : datetime)
    {struct fuel} : option (list (posix * posix) + exn) :=
  if Z.ltb chunk_start end_time then
    match fuel with
    | O => None
    | S fuel' =>
        match datetime_add chunk_start (timedelta_days 7) with
        | inr e => Some (inr e)
        | inl week_later =>
            let chunk_end := Z.min week_later end_time in
            match to_posix chunk_start with
            | inr e => Some (inr e)
            | inl oldest =>
                match to_posix chunk_end with
                | inr e => Some (inr e)
                | inl latest =>
                    match chunk_loop fuel' chunk_end end_time with
                    | Some (inl time_chunks) =>
                        Some (inl ((oldest, latest) :: time_chunks))
                    | Some (inr e) => Some (inr e)
                    | None => None
                    end
                end
            end
        end
    end
  else Some (inl []).

(** Every pass but the last moves [chunk_start] on by seven days, so this
    many passes reach [end_time] (lemma [chunk_loop_ends]). *)
Definition chunk_fuel (start_time end_time : datetime) : nat :=
  S (Z.to_nat ((end_time - start_time) / timedelta_days 7)).

Definition time_chunks (start_time end_time : datetime)
    : option (list (posix * posix) + exn) :=
  chunk_loop (chunk_fuel start_time end_time) start_time end_time.

(** The worker pool.  Each task is one [fetch_slack_chunk]; [order] lists
    the task indices in the order in which the pool completes them, and
    the world is handed from each task to the next one in that order.  An
    index that names no task is passed over. *)
Fixpoint run_tasks (fuel : nat) (order : list nat)
    (chunks : list (posix * posix)) (w : World)
    : option (World * list (nat * list LoadRecord) * list event) :=
  match order with
  | [] => Some (w, [], [])
  | i :: order' =>
      match nth_error chunks i with
      | None => run_tasks fuel order' chunks w
      | Some (oldest, latest) =>
          match fetch_slack_chunk fromtimestamp_float World
                  conversations_history fuel w channel oldest latest with
          | None => None
          | Some (w1, all_rows, evs1) =>
              match run_tasks fuel order' chunks w1 with
              | None => None
              | Some (w2, done, evs2) =>
                  Some (w2, (i, all_rows) :: done, evs1 ++ evs2)
              end
          end
      end
  end.

(** The result of task [i] among the completed ones. *)
Definition result_of (done : list (nat * list LoadRecord)) (i : nat)
    : list LoadRecord :=
  match find (fun p => Nat.eqb (fst p) i) done with
  | Some p => snd p
  | None => []
  end.

(** [list(executor.map(...))], lines 110-116: whatever the completion
    order, the results come back in the order of [time_chunks]. *)
Definition executor_map (fuel : nat) (order : list nat)
    (chunks : list (posix * posix)) (w : World)
    : option (World * list (list LoadRecord) * list event) :=
  match run_tasks fuel order chunks w with
  | Some (w', done, evs) =>
      Some (w', map (result_of done) (seq 0 (length chunks)), evs)
  | None => None
  end.

(** Lines 88-97: the range of the fetch.  [now] is the value of
    [datetime.now()]; [None] is the [ValueError] of a date that does not
    exist. *)
Definition end_time_of (now : datetime) (end_date : option ymd)
    : option datetime :=
  match end_date with
  | None => Some now
  | Some s => strptime s
  end.

Definition start_time_of (start_date : option ymd) : option datetime :=
  match start_date with
  | None => datetime_of 2024 1 1
  | Some s => strptime s
  end.

(** [fetch_etl_history(cache_file, start_date, end_date)].  [schedule n]
    is the completion order the pool takes for [n] tasks. *)
Definition fetch_etl_history (fuel : nat) (schedule : nat -> list nat)
    (now : datetime) (w : World) (fs : FS) (cache_file : string)
    (start_date end_date : option ymd)
    : option (World * FS * list event * answer) :=
  match fs cache_file with
  | Some file => Some (w, fs, [Print LoadingCached], Returns (Some file))
  | None =>
      match end_time_of now end_date with
      | None => Some (w, fs, [], Raises (ValueError "end_date"))
      | Some end_time =>
          match start_time_of start_date with
          | None => Some (w, fs, [], Raises (ValueError "start_date"))
          | Some start_time =>
              match time_chunks start_time end_time with
              | None => None
              | Some (inr e) => Some (w, fs, [], Raises e)
              | Some (inl chunks) =>
                  match executor_map fuel
                          (schedule (length chunks)) chunks w with
                  | None => None
                  | Some (w', chunk_results, evs) =>
                      let '(fs', evs', df) :=
                        combine_and_cache fs cache_file chunk_results in
                      Some (w', fs',
                            Print (FetchingHistory start_time end_time)
                              :: evs ++ evs',
                            Returns df)
                  end
              end
          end
      end
  end.

(** The entry point, lines 164-174. *)
Definition main (fuel : nat) (schedule : nat -> list nat)
    (now : datetime) (w : World) (fs : FS)
    : option (World * FS * list event * answer) :=
  let cache_file := "etl_history_2024.parquet" in
  let '(fs1, evs0) :=
    if path_exists fs cache_file
    then (remove fs cache_file, [Print DeletedCache])
    else (fs, []) in
  let start_date := mkYmd 2024 1 1 in
  let end_date := mkYmd 2024 12 31 in
  match fetch_etl_history fuel schedule now w fs1 cache_file
          (Some start_date) (Some end_date) with
  | Some (w', fs', evs, df) => Some (w', fs', evs0 ++ evs, df)
  | None => None
  end.

End Scheduler.

(** ** StatsReporter: [calculate_favstats] of the analysis script *)

Module ZOrder <: TotalLeBool.
Definition t := Z.
Definition leb (x y : t) : bool := Z.leb x y.
Definition leb_total (x y : t) : leb x y = true \/ leb y x = true :=
  Z_leb_total x y.
End ZOrder.

Module ZSort := Sort ZOrder.

Module Analysis.

(** [dt.date()]: the day of a datetime. *)
Definition date_of (t : datetime) : Z := t / us_per_day.

(** One row of [daily_stats]: a day, the count of its records ([loads])
    and the sum of their row counts (the column named [rows]). *)
Record daily := mkDaily {
  date : Z;
  loads : Z;
  rows_of_day : Z
}.

(** One more record for day [d] with [r] rows. *)
Fixpoint add_to_group (d r : Z) (groups : list daily) : list daily :=
  match groups with
  | [] => [mkDaily d 1 r]
  | g :: gs =>
      if Z.eqb (date g) d
      then mkDaily d (loads g + 1) (rows_of_day g + r) :: gs
      else g :: add_to_group d r gs
  end.

(** [df.group_by(date).agg(count, sum rows)], lines 9-15.  The groups come
    in the order in which their days first appear; the library fixes no
    order, and the statistics below do not depend on one. *)
Definition daily_stats (df : DataFrame) : list daily :=
  fold_left
    (fun groups r => add_to_group (date_of (timestamp r)) (rows r) groups)
    df [].

(** A column of integers; [None] is a null. *)
Definition Series := list (option Z).

Definition column (f : daily -> Z) (ds : list daily) : Series :=
  map (fun g => Some (f g)) ds.

Definition non_null (data : Series) : list Z :=
  flat_map (fun x => match x with Some v => [v] | None => [] end) data.

(** [data.null_count()]. *)
Definition null_count (data : Series) : nat :=
  length (filter (fun x => match x with None => true | Some _ => false end)
            data).

(** [data.min()] and [data.max()]: over the values that are not null. *)
Definition series_min (data : Series) : option Z :=
  match non_null data with
  | [] => None
  | x :: xs => Some (fold_left Z.min xs x)
  end.

Definition series_max (data : Series) : option Z :=
  match non_null data with
  | [] => None
  | x :: xs => Some (fold_left Z.max xs x)
  end.

Definition sum_Z (xs : list Z) : Z := fold_left Z.add xs 0.

Definition sum_Q (xs : list Q) : Q := fold_left Qplus xs (inject_Z 0).

(** [data.mean()]. *)
Definition series_mean (data : Series) : option Q :=
  match non_null data with
  | [] => None
  | xs => Some (Qdiv (inject_Z (sum_Z xs)) (inject_Z (Z.of_nat (length xs))))
  end.

(** The square of [data.std()], the sample deviation (one degree of freedom
    taken off); the root itself is not a rational number. *)
Definition series_var (data : Series) : option Q :=
  match series_mean data with
  | None => None
  | Some m =>
      let xs := non_null data in
      if Nat.leb (length xs) 1 then None
      else
        let sq := map (fun x => let d := Qminus (inject_Z x) m in Qmult d d)
                      xs in
        Some (Qdiv (sum_Q sq) (inject_Z (Z.of_nat (length xs) - 1)))
  end.

(** The array numpy makes of the column; a null leaves it without a
    number to report for any statistic ([None]). *)
Fixpoint np_array (data : Series) : option (list Z) :=
  match data with
  | [] => Some []
  | Some v :: data' =>
      match np_array data' with
      | Some vs => Some (v :: vs)
      | None => None
      end
  | None :: _ => None
  end.

(** [np.percentile(a, q)] with the default linear interpolation between
    the closest ranks: the value at the virtual index [(n - 1) * q / 100]
    of the ordered array. *)
Definition percentile (a : list Z) (q : Z) : option Q :=
  match a with
  | [] => None
  | _ :: _ =>
      let sorted := ZSort.sort a in
      let k := (Z.of_nat (length a) - 1) * q in
      let i := Z.to_nat (k / 100) in
      let lo := nth i sorted 0 in
      let hi := nth (S i) sorted lo in
      Some (Qplus (inject_Z lo)
              (Qmult (Qmake (k mod 100) 100) (inject_Z (hi - lo))))
  end.

(** [np.median(a)]: the middle value of the ordered array, or the mean of
    the two middle values. *)
Definition median (a : list Z) : option Q :=
  match a with
  | [] => None
  | _ :: _ =>
      let sorted := ZSort.sort a in
      let n := length a in
      if Nat.even n
      then Some (Qdiv (inject_Z (nth (n / 2 - 1) sorted 0
                                 + nth (n / 2) sorted 0))
                      (inject_Z 2))
      else Some (inject_Z (nth (n / 2) sorted 0))
  end.

Definition np_percentile (data : Series) (q : Z) : option Q :=
  match np_array data with
  | Some a => percentile a q
  | None => None
  end.

Definition np_median (data : Series) : option Q :=
  match np_array data with
  | Some a => median a
  | None => None
  end.

(** The dict that [get_stats] returns, with the square of ['sd']. *)
Record favstats := mkStats {
  st_min : option Z;
  st_q1 : option Q;
  st_median : option Q;
  st_q3 : option Q;
  st_max : option Z;
  st_mean : option Q;
  st_sd_squared : option Q;
  st_n : nat;
  st_missing : nat
}.

(** [get_stats(column)], lines 18-32, on the column's data. *)
Definition get_stats (data : Series) : favstats :=
  let q1 := np_percentile data 25 in
  let q3 := np_percentile data 75 in
  mkStats (series_min data) q1 (np_median data) q3 (series_max data)
          (series_mean data) (series_var data) (length data)
          (null_count data).

(** [calculate_favstats(df)], up to the layout of the printed table: the
    statistics of the two columns. *)
Definition calculate_favstats (df : DataFrame) : favstats * favstats :=
  let ds := daily_stats df in
  (get_stats (column loads ds), get_stats (column rows_of_day ds)).

End Analysis.

(** ** Windows as intervals *)

(** A window of datetimes [lo, hi), and the pair of timestamps that the
    scheduler stores for it. *)
Definition window := (datetime * datetime)%type.

Definition stored (stamp : datetime -> posix) (w : window)
    : posix * posix :=
  (stamp (fst w), stamp (snd w)).

Definition inside (t : datetime) (w : window) : Prop :=
  fst w <= t < snd w.

(** The windows [ws] lead from [a] to [e] without a gap: the first starts
    at [a], each one is non-empty and ends where the next one starts, and
    the last ends at [e]. *)
Fixpoint contiguous (a e : datetime) (ws : list window) : Prop :=
  match ws with
  | [] => a = e
  | w :: ws' => fst w = a /\ fst w < snd w /\ contiguous (snd w) e ws'
  end.

(** On the datetimes from [a] to [e] the platform converts, and [stamp]
    is the timestamp it gives. *)
Definition converts (to_posix : datetime -> posix + exn)
    (stamp : datetime -> posix) (a e : datetime) : Prop :=
  forall t, a <= t <= e -> to_posix t = inl (stamp t).

(** The pair [c] holds the timestamps of the bounds of the window [w]. *)
Definition converted (to_posix : datetime -> posix + exn) (w : window)
    (c : posix * posix) : Prop :=
  to_posix (fst w) = inl (fst c) /\ to_posix (snd w) = inl (snd c).

(** [a] is a datetime from which some whole number of weeks reaches [e]
    and is still a datetime: every sum that the loop over [a, e) takes
    stays in range. *)
Definition weeks_fit (a e : datetime) : Prop :=
  datetime_min <= a
  /\ exists k, e <= a + k * timedelta_days 7 <= datetime_max.

(** ** Sample data *)

Module Sample.

(** The notification text of the specification's example. *)
Definition notification : string :=
  "ETL Notification ... loaded: foo.csv (bar) into warehouse: orders: 150 rows, customers: 30 rows".

(** A Slack timestamp and the local time it stands for in a zone that
    keeps UTC: 100 microseconds into 2024-01-01. *)
Definition slack_ts : string := "1704067200.000100".

Definition new_year_2024 : datetime := ymd2ord 2024 1 1 * us_per_day + 100.

(** A later one: the first instant of 2024-01-05. *)
Definition later_ts : string := "1704412800.000000".

Definition clock (s : string) : option datetime :=
  if String.eqb s slack_ts then Some new_year_2024
  else if String.eqb s later_ts then Some (midnight 2024 1 5)
  else None.

Definition etl_message (txt : string) : message :=
  mkMessage (Some slack_ts)
    (Some [mkAttachment (Some "ETL Notification") (Some txt)]).

(** An API that serves one page, with the example notification and the
    announcement of a second page, and then fails; the world counts the
    requests made. *)
Definition first_page : response :=
  mkResponse [etl_message notification] (Some "bmV4dA==") true.

(** An API with nothing to report: every request returns an empty last
    page. *)
Definition silent_api (w : unit) (channel : string) (oldest latest : posix)
    (limit : Z) (cursor : option string) : (response + exn) * unit :=
  (inl (mkResponse [] None false), tt).

(** A time zone that keeps UTC, on a platform that converts every
    datetime: the timestamp counts from 1970-01-01. *)
Definition utc_stamp (t : datetime) : posix := t - midnight 1970 1 1.

Definition utc (t : datetime) : posix + exn := inl (utc_stamp t).

(** An API with two notifications in the first week of 2024, which it
    lists with the newest first, and none in other weeks. *)
Definition first_week_api (w : unit) (channel : string)
    (oldest latest : posix) (limit : Z) (cursor : option string)
    : (response + exn) * unit :=
  if Z.eqb oldest (utc_stamp (midnight 2024 1 1))
  then (inl (mkResponse
               [mkMessage (Some later_ts)
                  (Some [mkAttachment (Some "ETL Notification")
                           (Some notification)]);
                etl_message notification]
               None false), tt)
  else (inl (mkResponse [] None false), tt).

(** The pool completing its tasks from the last to the first. *)
Definition backwards (n : nat) : list nat := rev (seq 0 n).

Definition no_files : FS := fun _ => None.

(** Fifteen loads on the first five days of 2024: two on the second day,
    one on the first, three, four and five on the following ones. *)
Definition load_on (d : Z) : LoadRecord :=
  mkLoad (midnight 2024 1 d + 3600000000) "foo.csv" "warehouse" "orders" 150.

Definition five_days : DataFrame :=
  repeat (load_on 2) 2 ++ repeat (load_on 1) 1 ++ repeat (load_on 3) 3
  ++ repeat (load_on 4) 4 ++ repeat (load_on 5) 5.

Definition flaky_api (w : nat) (channel : string) (oldest latest : posix)
    (limit : Z) (cursor : option string) : (response + exn) * nat :=
  match w with
  | O => (inl first_page, 1%nat)
  | S _ => (inr (SlackApiError "ratelimited"), S w)
  end.

End Sample.


(** * Further definitions: what the properties of the second part speak of *)

(** A text without a line feed. *)
Definition one_line (s : string) : bool :=
  Text.all_chars (fun c => negb (Ascii.eqb c Text.newline)) s.

(** What every record that the extractor builds looks like: a count that
    is not negative, a table name that is a non-empty run of [[\w\.]], and
    a file name and a destination that stay on one line and stop before
    the delimiter of their pattern. *)
Definition well_formed (r : LoadRecord) : Prop :=
  0 <= rows r
  /\ Text.is_empty (table r) = false
  /\ Text.all_chars Text.is_table_char (table r) = true
  /\ one_line (filename r) = true
  /\ Text.occurs " (" (filename r) = false
  /\ one_line (destination r) = true
  /\ Text.occurs ":" (destination r) = false.


Section FetcherRuns.

Variable fromtimestamp_float : string -> option datetime.
Variable World : Type.
Variable conversations_history :
  World -> string -> posix -> posix -> Z -> option string ->
  (response + exn) * World.

(** A run of the API for one chunk in which the pages [pages] are served
    one after the other from [cursor] on, each one processed without an
    exception, every one but the last announcing a next page and the last
    one not. *)
Inductive pages_served (channel : string) (oldest latest : posix)
    : World -> option string -> list response -> World -> Prop :=
| served_last w cursor r w' :
    conversations_history w channel oldest latest 1000 cursor
    = (inl r, w') ->
    snd (process_messages fromtimestamp_float (messages r) []) = Normal ->
    (truthy (next_cursor r) && has_more r)%bool = false ->
    pages_served channel oldest latest w cursor [r] w'
| served_more w cursor r w1 pages w' :
    conversations_history w channel oldest latest 1000 cursor
    = (inl r, w1) ->
    snd (process_messages fromtimestamp_float (messages r) []) = Normal ->
    (truthy (next_cursor r) && has_more r)%bool = true ->
    pages_served channel oldest latest w1 (next_cursor r) pages w' ->
    pages_served channel oldest latest w cursor (r :: pages) w'.

(** What such a run shows to the outside: one request per page, each with
    the cursor of the page before, and a pause between two requests. *)
Fixpoint served_trace (channel : string) (oldest latest : posix)
    (cursor : option string) (pages : list response) : list event :=
  match pages with
  | [] => []
  | [r] => [Request channel oldest latest 1000 cursor]
  | r :: pages' =>
      Request channel oldest latest 1000 cursor :: Sleep 2
        :: served_trace channel oldest latest (next_cursor r) pages'
  end.

End FetcherRuns.

(** In the trace [evs], read after the event [prev], every request is the
    first event or comes right after a pause of two seconds. *)
Fixpoint paced (prev : option event) (evs : list event) : Prop :=
  match evs with
  | [] => True
  | ev :: evs' =>
      match ev with
      | Request _ _ _ _ _ => prev = None \/ prev = Some (Sleep 2)
      | _ => True
      end
      /\ paced (Some ev) evs'
  end.

(** Data for the examples of the second part. *)
Module Cases.

(** A message with the marker whose "ts" key is missing. *)
Definition broken_message : message :=
  mkMessage None
    (Some [mkAttachment (Some "ETL Notification")
             (Some Sample.notification)]).

(** An API whose first page holds a good message, the broken one and
    another good one, and announces a second page. *)
Definition broken_page : response :=
  mkResponse [Sample.etl_message Sample.notification; broken_message;
              Sample.etl_message Sample.notification]
             (Some "bmV4dA==") true.

Definition broken_api (w : nat) (chan : string) (oldest latest : posix)
    (limit : Z) (cursor : option string) : (response + exn) * nat :=
  (inl broken_page, S w).

(** An API that serves two pages: the second under the cursor that the
    first one hands out. *)
Definition second_page : response :=
  mkResponse [Sample.etl_message "late.orders: 7 rows"] None false.

Definition two_page_api (w : nat) (chan : string) (oldest latest : posix)
    (limit : Z) (cursor : option string) : (response + exn) * nat :=
  match cursor with
  | None => (inl Sample.first_page, S w)
  | Some _ => (inl second_page, S w)
  end.

End Cases.


(** The windows of the scheduler as intervals of datetimes: the loop of
    lines 100-105 without the conversion to timestamps. *)
Definition windows (start_time end_time : datetime)
    : option (list window + exn) :=
  time_chunks (fun t => inl t) start_time end_time.


(** An event that, if it is a request, is one for the window from [oldest]
    to [latest] on the channel [chan], with the page size of the loader. *)
Definition request_for (chan : string) (oldest latest : posix)
    (ev : event) : Prop :=
  match ev with
  | Request chan' oldest' latest' limit _ =>
      chan' = chan /\ oldest' = oldest /\ latest' = latest /\ limit = 1000
  | _ => True
  end.


(** An API whose answer to a request depends on the request alone, and not
    on what was asked before. *)
Definition stateless {World : Type}
    (api : World -> string -> posix -> posix -> Z -> option string ->
           (response + exn) * World) : Prop :=
  forall w1 w2 chan oldest latest limit cursor,
    fst (api w1 chan oldest latest limit cursor)
    = fst (api w2 chan oldest latest limit cursor).

(** What a fetch of one chunk shows: its rows and its trace. *)
Definition seen {World : Type}
    (r : World * list LoadRecord * list event)
    : list LoadRecord * list event :=
  (snd (fst r), snd r).

(** The events of the fetch of one chunk: requests for its window, pauses
    of two seconds, and the two lines that [fetch_slack_chunk] prints. *)
Definition chunk_event (ev : event) : Prop :=
  match ev with
  | Request _ _ _ _ _ => True
  | Sleep seconds => seconds = 2
  | Print (ErrorInBatch _) => True
  | Print (FetchedRecords _ _ _) => True
  | Print _ => False
  end.


(** The value at the virtual index [k / 100] of an ordered list, times
    100: the interpolation between the closest ranks that [percentile]
    makes, kept in integers. *)
Definition rank_value (sorted : list Z) (k : Z) : Z :=
  let i := Z.to_nat (k / 100) in
  let lo := nth i sorted 0 in
  let hi := nth (S i) sorted lo in
  100 * lo + (k mod 100) * (hi - lo).

(** A summary whose numbers are all there and in order: minimum, first
    quartile, median, third quartile and maximum ascend, and the mean lies
    between the minimum and the maximum. *)
Definition ordered_summary (s : Analysis.favstats) : Prop :=
  exists mn q1 md q3 mx mean,
    Analysis.st_min s = Some mn /\ Analysis.st_q1 s = Some q1
    /\ Analysis.st_median s = Some md /\ Analysis.st_q3 s = Some q3
    /\ Analysis.st_max s = Some mx /\ Analysis.st_mean s = Some mean
    /\ Qle (inject_Z mn) q1 /\ Qle q1 md /\ Qle md q3
    /\ Qle q3 (inject_Z mx)
    /\ Qle (inject_Z mn) mean /\ Qle mean (inject_Z mx).


(** ** [analyze_data] of the loader, and the entry point of the analysis
    script *)

Module DailyOrder <: TotalLeBool.
Definition t := Analysis.daily.
Definition leb (x y : t) : bool := Z.leb (Analysis.date x) (Analysis.date y).
Definition leb_total (x y : t) : leb x y = true \/ leb y x = true :=
  Z_leb_total (Analysis.date x) (Analysis.date y).
End DailyOrder.

Module DailySort := Sort DailyOrder.

Module Summary.

(** The lines that [analyze_data] prints, each with the values it shows;
    an average is the exact number that the line shows rounded. *)
Inductive line :=
| DataSummary
| DateRange (first last : option datetime)
| TotalRecordsOf (height : nat)
| DailyStatistics
| AverageDailyLoads (mean : Q)
| AverageRowsPerDay (mean : Q)
| FirstNotification (day : option Z)
| LastNotification (day : option Z).

(** How [analyze_data] ends: it returns, or the format of lines 157-158,
    which takes a number, meets the [None] that the mean of an empty column
    is. *)
Inductive ending :=
| Finished
| TypeError.

(** The column [df['timestamp']]. *)
Definition timestamps (df : DataFrame) : Analysis.Series :=
  map (fun r => Some (timestamp r)) df.

(** [analyze_data(df)], lines 135-162. *)
Definition analyze_data (df : option DataFrame) : list line * ending :=
  match df with
  | None => ([], Finished)
  | Some df =>
      let head :=
        [DataSummary;
         DateRange (Analysis.series_min (timestamps df))
                   (Analysis.series_max (timestamps df));
         TotalRecordsOf (length df)] in
      let daily_stats := DailySort.sort (Analysis.daily_stats df) in
      let number_of_loads := Analysis.column Analysis.loads daily_stats in
      let total_rows := Analysis.column Analysis.rows_of_day daily_stats in
      let days := Analysis.column Analysis.date daily_stats in
      match Analysis.series_mean number_of_loads with
      | None => (head ++ [DailyStatistics], TypeError)
      | Some loads_mean =>
          match Analysis.series_mean total_rows with
          | None =>
              (head ++ [DailyStatistics; AverageDailyLoads loads_mean],
               TypeError)
          | Some rows_mean =>
              (head ++ [DailyStatistics; AverageDailyLoads loads_mean;
                        AverageRowsPerDay rows_mean;
                        FirstNotification (Analysis.series_min days);
                        LastNotification (Analysis.series_max days)],
               Finished)
          end
      end
  end.

End Summary.

(** The entry point of the analysis script, lines 62-67: the statistics of
    the frame in the cache file; [None] is the error of [read_parquet] when
    there is no such file. *)
Definition analysis_main (fs : FS)
    : option (Analysis.favstats * Analysis.favstats) :=
  match fs "etl_history_2024.parquet" with
  | Some df => Some (Analysis.calculate_favstats df)
  | None => None
  end.


(** An API that never runs out of pages: every answer is an empty page
    that hands out a cursor and announces more. *)
Definition endless_page : response := mkResponse [] (Some "bW9yZQ==") true.

Definition endless_api (w : nat) (chan : string) (oldest latest : posix)
    (limit : Z) (cursor : option string) : (response + exn) * nat :=
  (inl endless_page, S w).

(** * Properties *)

(** ** The patterns and the calendar on concrete inputs *)

Example filename_match_notification :
  Text.filename_match Sample.notification = Some "foo.csv".
Proof. reflexivity. Qed.

(** The lazy group does not run over the end of a line: the first
    "loaded: " is given up and the second one matches. *)
Example filename_match_second_line :
  Text.filename_match (String.append "loaded: a"
                         (String Text.newline "loaded: b (c)"))
  = Some "b".
Proof. reflexivity. Qed.

Example dest_match_notification :
  Text.dest_match Sample.notification = Some "warehouse".
Proof. reflexivity. Qed.

(** The first "into " decides the destination. *)
Example dest_match_first_into :
  Text.dest_match "put into box, then into X: 5 rows"
  = Some "box, then into X".
Proof. reflexivity. Qed.

Example table_data_notification :
  Text.table_data Sample.notification
  = [("orders", "150"); ("customers", "30")].
Proof. reflexivity. Qed.

(** Matches do not overlap, and a match may start inside a word. *)
Example table_data_adjacent :
  Text.table_data "t1: 5 rows t2:6 rowsx: 7 rows"
  = [("t1", "5"); ("t2", "6"); ("x", "7")].
Proof. reflexivity. Qed.

Example table_data_partial_lines :
  Text.table_data "a.b_c:  12  rows; d: rows; e: 3 row" = [("a.b_c", "12")].
Proof. reflexivity. Qed.

Example ordinal_of_new_year_2024 : ymd2ord 2024 1 1 = 738886.
Proof. reflexivity. Qed.

Example no_30th_of_february : strptime (mkYmd 2024 2 30) = None.
Proof. reflexivity. Qed.

(** ** The extractor *)

Section ExtractorFacts.

Variable fromtimestamp_float : string -> option datetime.

Lemma append_rows_app (t : datetime) (fname dest : string)
    (pairs : list (string * string)) (all_rows : list LoadRecord) :
  append_rows t fname dest pairs all_rows
  = all_rows
    ++ map (fun p => mkLoad t fname dest (fst p) (Text.int (snd p))) pairs.
Proof.
  unfold append_rows. revert all_rows.
  induction pairs as [|p pairs IH]; intros all_rows; simpl.
  - now rewrite app_nil_r.
  - rewrite IH, <- app_assoc. reflexivity.
Qed.

(** An attachment without the marker leaves [all_rows] alone, whatever
    the message's timestamp is. *)
Lemma process_attachment_other (msg : message) (all_rows : list LoadRecord)
    (a : attachment) :
  is_etl_notification a = false ->
  process_attachment fromtimestamp_float msg all_rows a
  = (all_rows, Normal).
Proof. intros H. unfold process_attachment. now rewrite H. Qed.

Lemma process_attachment_ok (msg : message) (s : string) (t : datetime)
    (all_rows : list LoadRecord) (a : attachment) :
  ts msg = Some s -> fromtimestamp_float s = Some t ->
  process_attachment fromtimestamp_float msg all_rows a
  = (all_rows
     ++ (if is_etl_notification a
         then spec_records_of_text t (text_of a) else []),
     Normal).
Proof.
  intros Hs Ht. unfold process_attachment.
  destruct (is_etl_notification a).
  - rewrite Hs, Ht. now rewrite append_rows_app.
  - now rewrite app_nil_r.
Qed.

Lemma attachments_loop_other (msg : message) (atts : list attachment)
    (all_rows : list LoadRecord) :
  existsb is_etl_notification atts = false ->
  for_each (process_attachment fromtimestamp_float msg) atts all_rows
  = (all_rows, Normal).
Proof.
  induction atts as [|a atts IH]; simpl; intros H; [reflexivity|].
  apply orb_false_iff in H as [Ha Hatts].
  rewrite (process_attachment_other _ _ _ Ha). now apply IH.
Qed.

Lemma attachments_loop_ok (msg : message) (s : string) (t : datetime)
    (atts : list attachment) (all_rows : list LoadRecord) :
  ts msg = Some s -> fromtimestamp_float s = Some t ->
  for_each (process_attachment fromtimestamp_float msg) atts all_rows
  = (all_rows
     ++ flat_map
          (fun a => if is_etl_notification a
                    then spec_records_of_text t (text_of a) else [])
          atts,
     Normal).
Proof.
  intros Hs Ht. revert all_rows.
  induction atts as [|a atts IH]; intros all_rows; simpl.
  - now rewrite app_nil_r.
  - rewrite (process_attachment_ok _ _ _ _ _ Hs Ht), IH, <- app_assoc.
    reflexivity.
Qed.

Lemma process_message_other (msg : message) (all_rows : list LoadRecord) :
  carries_marker msg = false ->
  process_message fromtimestamp_float all_rows msg = (all_rows, Normal).
Proof.
  unfold carries_marker, process_message.
  destruct (attachments msg) as [atts|]; [|reflexivity].
  apply attachments_loop_other.
Qed.

Lemma process_message_ok (msg : message) (s : string) (t : datetime)
    (all_rows : list LoadRecord) :
  ts msg = Some s -> fromtimestamp_float s = Some t ->
  process_message fromtimestamp_float all_rows msg
  = (all_rows ++ spec_records_of_message t msg, Normal).
Proof.
  intros Hs Ht. unfold process_message, spec_records_of_message.
  destruct (attachments msg) as [atts|].
  - now apply attachments_loop_ok with (s := s).
  - now rewrite app_nil_r.
Qed.

Lemma spec_records_without_marker (t : datetime) (msg : message) :
  carries_marker msg = false -> spec_records_of_message t msg = [].
Proof.
  unfold carries_marker, spec_records_of_message.
  destruct (attachments msg) as [atts|]; [|reflexivity].
  induction atts as [|a atts IH]; simpl; [reflexivity|].
  intros H. apply orb_false_iff in H as [Ha Hatts].
  rewrite Ha. now apply IH.
Qed.

End ExtractorFacts.

(** C2.  A message whose attachment carries the marker pretext and the
    text "ETL Notification ... loaded: foo.csv (bar) into warehouse:
    orders: 150 rows, customers: 30 rows" adds exactly two records,
    (orders, 150) and (customers, 30), both with file name "foo.csv" and
    destination "warehouse" and with the message's timestamp. *)
Theorem extractor_example
    (fromtimestamp_float : string -> option datetime)
    (s : string) (t : datetime) (all_rows : list LoadRecord) :
  fromtimestamp_float s = Some t ->
  process_message fromtimestamp_float all_rows
    (mkMessage (Some s)
       (Some [mkAttachment (Some "ETL Notification")
                (Some Sample.notification)]))
  = (all_rows ++ [mkLoad t "foo.csv" "warehouse" "orders" 150;
                  mkLoad t "foo.csv" "warehouse" "customers" 30],
     Normal).
Proof.
  intros Ht.
  rewrite process_message_ok with (s := s) (t := t) by (reflexivity || exact Ht).
  reflexivity.
Qed.

Lemma extractor_example_witness :
  Sample.clock Sample.slack_ts = Some Sample.new_year_2024
  /\ process_message Sample.clock [] (Sample.etl_message Sample.notification)
     = ([] ++ [mkLoad Sample.new_year_2024 "foo.csv" "warehouse" "orders" 150;
               mkLoad Sample.new_year_2024 "foo.csv" "warehouse"
                      "customers" 30],
        Normal).
Proof.
  split; [reflexivity|].
  apply (extractor_example Sample.clock Sample.slack_ts Sample.new_year_2024 []).
  reflexivity.
Defined.

(** ** The destination read as a table *)

Module TextFacts.
Import Text.
#[local] Open Scope string_scope.

Lemma string_length_app (a b : string) :
  String.length (a ++ b) = (String.length a + String.length b)%nat.
Proof. induction a as [|c a IH]; simpl; [reflexivity | now rewrite IH]. Qed.

Lemma string_app_assoc (a b c : string) : (a ++ b) ++ c = a ++ b ++ c.
Proof. induction a as [|x a IH]; simpl; [reflexivity | now rewrite IH]. Qed.

Lemma word_is_table_char (c : ascii) :
  is_word c = true -> is_table_char c = true.
Proof. unfold is_table_char. now intros ->. Qed.

(** A word character is neither the colon nor the line feed. *)
Lemma word_not_delimiter (c : ascii) :
  is_word c = true ->
  Ascii.eqb ":" c = false /\ Ascii.eqb c newline = false.
Proof.
  destruct c as [[] [] [] [] [] [] [] []]; vm_compute; intros H;
    (discriminate H || (split; reflexivity)).
Qed.

Lemma digit_not_space (c : ascii) : is_digit c = true -> is_space c = false.
Proof.
  destruct c as [[] [] [] [] [] [] [] []]; vm_compute; intros H;
    (discriminate H || reflexivity).
Qed.

Lemma all_chars_impl (p q : ascii -> bool) (s : string) :
  (forall c, p c = true -> q c = true) ->
  all_chars p s = true -> all_chars q s = true.
Proof.
  intros Hpq. induction s as [|c s IH]; simpl; [reflexivity|].
  intros H. apply andb_true_iff in H as [Hc Hs].
  now rewrite (Hpq c Hc), IH.
Qed.

(** *** [span] and concatenation *)

Lemma span_all (p : ascii -> bool) (x : string) (c : ascii) (r : string) :
  all_chars p x = true -> p c = false ->
  span p (x ++ String c r) = (x, String c r).
Proof.
  intros Hx Hc. induction x as [|a x IH]; simpl in *.
  - now rewrite Hc.
  - apply andb_true_iff in Hx as [Ha Hx]. now rewrite Ha, IH.
Qed.

(** When the run cannot go on into [t], appending [t] changes nothing. *)
Lemma span_app_keep (p : ascii -> bool) (s t : string) :
  span p t = (EmptyString, t) ->
  span p (s ++ t) = (fst (span p s), snd (span p s) ++ t).
Proof.
  intros Ht. induction s as [|c s IH]; simpl.
  - exact Ht.
  - destruct (p c); [|reflexivity].
    rewrite IH. now destruct (span p s).
Qed.

(** When the run ends inside [s], appending [t] changes nothing. *)
Lemma span_app_stop (p : ascii -> bool) (s t : string) :
  snd (span p s) <> EmptyString ->
  span p (s ++ t) = (fst (span p s), snd (span p s) ++ t).
Proof.
  induction s as [|c s IH]; simpl.
  - intros H. now contradiction H.
  - destruct (p c); [|reflexivity].
    destruct (span p s) as [a b] eqn:E. simpl in *.
    intros H. now rewrite (IH H).
Qed.

(** When the run takes all of [s], it goes on into [t]. *)
Lemma span_app_all (p : ascii -> bool) (s t : string) :
  snd (span p s) = EmptyString ->
  span p (s ++ t) = (s ++ fst (span p t), snd (span p t)).
Proof.
  induction s as [|c s IH]; simpl.
  - intros _. now destruct (span p t).
  - destruct (p c); [|discriminate].
    destruct (span p s) as [a b] eqn:E. simpl in *.
    intros H. now rewrite (IH H).
Qed.

Lemma is_empty_app_cons (s : string) (c : ascii) (t : string) :
  is_empty (s ++ String c t) = false.
Proof. now destruct s. Qed.

(** *** The table pattern in front of "into " *)

(** Decide the comparisons of characters in the goal: a comparison of two
    literals is evaluated, one with a variable is split in two cases. *)
Ltac char_cases :=
  repeat match goal with
         | |- context [Ascii.eqb ?a ?b] =>
             first [ is_var b; destruct (Ascii.eqb a b)
                   | let v := eval vm_compute in (Ascii.eqb a b) in
                     change (Ascii.eqb a b) with v ];
             cbv iota
         end.

(** A text that does not start with "rows" does not start with it either
    once a text in [i] is put behind it. *)
Lemma strip_rows_app (r : string) (t : string) :
  strip_prefix "rows" r = None ->
  strip_prefix "rows" (r ++ String "i" t) = None.
Proof.
  destruct r as [|c1 [|c2 [|c3 [|c4 r]]]]; cbn [strip_prefix append];
    char_cases; intros; (reflexivity || discriminate).
Qed.

Lemma strip_colon_cons (c : ascii) (r : string) :
  strip_prefix ":" (String c r)
  = if Ascii.eqb ":" c then Some r else None.
Proof. reflexivity. Qed.

(** A position at which the table pattern fails in [s] fails as well when
    [s] is followed by "into ...". *)
Lemma match_table_at_app (s y : string) :
  match_table_at s = None ->
  match_table_at (s ++ "into " ++ y) = None.
Proof.
  unfold match_table_at.
  destruct (span is_table_char s) as [tbl r1] eqn:E1.
  destruct r1 as [|c r1].
  - intros _.
    rewrite span_app_all by (rewrite E1; reflexivity).
    change (span is_table_char ("into " ++ y)) with ("into", String " " y).
    cbn [fst snd].
    rewrite is_empty_app_cons. reflexivity.
  - rewrite span_app_stop by (rewrite E1; cbn [snd]; discriminate).
    rewrite E1. cbn [fst snd].
    destruct (is_empty tbl); [reflexivity|].
    change (String c r1 ++ "into " ++ y)
      with (String c (r1 ++ "into " ++ y)).
    rewrite !strip_colon_cons.
    destruct (Ascii.eqb ":" c); [|reflexivity].
    rewrite span_app_keep by reflexivity.
    destruct (span is_space r1) as [ws1 r3]. cbn [fst snd].
    rewrite span_app_keep by reflexivity.
    destruct (span is_digit r3) as [digits r4]. cbn [fst snd].
    destruct (is_empty digits); [reflexivity|].
    rewrite span_app_keep by reflexivity.
    destruct (span is_space r4) as [ws2 r5]. cbn [fst snd].
    destruct (strip_prefix "rows" r5) eqn:E5; [intros H; discriminate H|].
    intros _. change ("into " ++ y) with (String "i" ("nto " ++ y)).
    now rewrite strip_rows_app.
Qed.

Lemma findall_skip_all (s : string) (k : nat) :
  (String.length s <= k)%nat -> findall_from k s = [].
Proof.
  revert k. induction s as [|c s IH]; intros k Hk; simpl in *; [reflexivity|].
  destruct k as [|k]; [lia|]. apply IH. lia.
Qed.

Lemma findall_nil_inv (c : ascii) (s : string) :
  findall_from 0 (String c s) = [] ->
  match_table_at (String c s) = None /\ findall_from 0 s = [].
Proof.
  simpl. destruct (match_table_at (String c s)) as [[[tbl digits] n]|].
  - discriminate.
  - now split.
Qed.

(** A prefix without table lines adds none in front of "into ...". *)
Lemma findall_prefix (pre y : string) :
  findall_from 0 pre = [] ->
  findall_from 0 (pre ++ "into " ++ y) = findall_from 0 ("into " ++ y).
Proof.
  induction pre as [|c pre IH]; intros H; [reflexivity|].
  apply findall_nil_inv in H as [Hm Hrest].
  change (String c pre ++ "into " ++ y)
    with (String c (pre ++ "into " ++ y)).
  cbn [findall_from].
  change (String c (pre ++ "into " ++ y))
    with (String c pre ++ "into " ++ y).
  rewrite (match_table_at_app _ y Hm). now apply IH.
Qed.

(** The pattern matched at "X: N rows". *)
Lemma match_table_at_line (x n : string) :
  is_empty x = false -> all_chars is_word x = true ->
  is_empty n = false -> all_chars is_digit n = true ->
  match_table_at (x ++ ": " ++ n ++ " rows")
  = Some (x, n, (String.length x + 1 + 1 + String.length n + 1 + 4)%nat).
Proof.
  intros Hx Hwx Hn Hdn. unfold match_table_at.
  change (x ++ ": " ++ n ++ " rows")
    with (x ++ String ":" (" " ++ n ++ " rows")).
  rewrite span_all;
    [| now apply all_chars_impl with (p := is_word);
         [apply word_is_table_char|] | reflexivity].
  rewrite Hx. simpl strip_prefix.
  change (" " ++ n ++ " rows") with (String " " (n ++ String " " "rows")).
  destruct n as [|d n]; [discriminate|].
  simpl in Hdn. apply andb_true_iff in Hdn as [Hd Hdn].
  assert (Hsp : span is_space (String " " (String d n ++ String " " "rows"))
                = (" ", String d n ++ String " " "rows")).
  { change (String d n ++ String " " "rows")
      with (String d (n ++ String " " "rows")).
    cbn [span]. change (is_space " ") with true. cbv iota.
    now rewrite (digit_not_space d Hd). }
  rewrite Hsp.
  rewrite span_all; [| simpl; now rewrite Hd | reflexivity].
  cbn [is_empty]. reflexivity.
Qed.

(** The table pattern on "... into X: N rows": the only match is the
    destination with the count. *)
Lemma table_data_destination (pre x n : string) :
  is_empty x = false -> all_chars is_word x = true ->
  is_empty n = false -> all_chars is_digit n = true ->
  table_data pre = [] ->
  table_data (pre ++ "into " ++ x ++ ": " ++ n ++ " rows") = [(x, n)].
Proof.
  intros Hx Hwx Hn Hdn Hpre. unfold table_data in *.
  rewrite (findall_prefix pre _ Hpre).
  set (line := x ++ ": " ++ n ++ " rows").
  assert (Hline : findall_from 0 line = [(x, n)]).
  { subst line. destruct x as [|c x]; [discriminate|].
    change (String c x ++ ": " ++ n ++ " rows")
      with (String c (x ++ ": " ++ n ++ " rows")).
    cbn [findall_from].
    change (String c (x ++ ": " ++ n ++ " rows"))
      with (String c x ++ ": " ++ n ++ " rows").
    rewrite (match_table_at_line _ _ Hx Hwx Hn Hdn).
    rewrite findall_skip_all; [reflexivity|].
    rewrite !string_length_app. simpl. lia. }
  change ("into " ++ line)
    with (String "i" (String "n" (String "t" (String "o" (String " " line))))).
  cbn [findall_from].
  change (match_table_at
            (String "i" (String "n" (String "t" (String "o" (String " " line))))))
    with (@None (string * string * nat)).
  change (match_table_at
            (String "n" (String "t" (String "o" (String " " line)))))
    with (@None (string * string * nat)).
  change (match_table_at (String "t" (String "o" (String " " line))))
    with (@None (string * string * nat)).
  change (match_table_at (String "o" (String " " line)))
    with (@None (string * string * nat)).
  change (match_table_at (String " " line))
    with (@None (string * string * nat)).
  cbv iota. exact Hline.
Qed.

(** *** The destination pattern *)

Lemma lazy_until_word (x r : string) :
  all_chars is_word x = true ->
  lazy_until ":" (x ++ String ":" r) = Some x.
Proof.
  induction x as [|c x IH]; intros H.
  - reflexivity.
  - cbn [all_chars] in H. apply andb_true_iff in H as [Hc Hx].
    destruct (word_not_delimiter c Hc) as [Hcolon Hnl].
    change (String c x ++ String ":" r) with (String c (x ++ String ":" r)).
    cbn [lazy_until]. rewrite strip_colon_cons, Hcolon, Hnl, (IH Hx).
    reflexivity.
Qed.

(** "into " cannot begin in a text and end in a following "into ...": an
    occurrence at the head of the whole is one at the head of the text. *)
Lemma strip_into_app (c : ascii) (p r : string) :
  strip_prefix "into " (String c p) = None ->
  strip_prefix "into " (String c p ++ "into " ++ r) = None.
Proof.
  destruct p as [|c2 [|c3 [|c4 [|c5 p]]]]; cbn [strip_prefix append];
    char_cases; intros; (reflexivity || discriminate).
Qed.

Lemma occurs_cons_false (lit : string) (c : ascii) (s : string) :
  occurs lit (String c s) = false ->
  strip_prefix lit (String c s) = None /\ occurs lit s = false.
Proof.
  cbn [occurs]. destruct (strip_prefix lit (String c s)).
  - discriminate.
  - now split.
Qed.

Lemma search_into_prefix (pre r : string) :
  occurs "into " pre = false ->
  search_between "into " ":" (pre ++ "into " ++ r)
  = search_between "into " ":" ("into " ++ r).
Proof.
  induction pre as [|c pre IH]; intros H; [reflexivity|].
  apply occurs_cons_false in H as [Hhead Hrest].
  change (String c pre ++ "into " ++ r)
    with (String c (pre ++ "into " ++ r)).
  cbn [search_between].
  change (String c (pre ++ "into " ++ r))
    with (String c pre ++ "into " ++ r).
  rewrite (strip_into_app c pre r Hhead). now apply IH.
Qed.

(** The destination pattern on "... into X: ...". *)
Lemma dest_match_destination (pre x r : string) :
  all_chars is_word x = true ->
  occurs "into " pre = false ->
  dest_match (pre ++ "into " ++ x ++ String ":" r) = Some x.
Proof.
  intros Hx Hpre. unfold dest_match.
  rewrite (search_into_prefix pre _ Hpre).
  change ("into " ++ x ++ String ":" r)
    with (String "i" ("nto " ++ x ++ String ":" r)).
  cbn [search_between].
  change (strip_prefix "into " (String "i" ("nto " ++ x ++ String ":" r)))
    with (Some (x ++ String ":" r)).
  cbv iota. now rewrite lazy_until_word.
Qed.

End TextFacts.

(** C10.  On a notification text "... into X: N rows", where X is a word
    of [\w] characters, N a number, and the part in front holds neither
    "into " nor a table line, the destination is X and the table pattern
    matches X with N: the message adds one record whose table equals its
    destination, and not zero records. *)
Theorem destination_read_as_table
    (fromtimestamp_float : string -> option datetime)
    (s : string) (t : datetime) (all_rows : list LoadRecord)
    (pre x n : string) :
  fromtimestamp_float s = Some t ->
  Text.is_empty x = false -> Text.all_chars Text.is_word x = true ->
  Text.is_empty n = false -> Text.all_chars Text.is_digit n = true ->
  Text.occurs "into " pre = false -> Text.table_data pre = [] ->
  let txt := (pre ++ "into " ++ x ++ ": " ++ n ++ " rows")%string in
  destination_of txt = x
  /\ Text.table_data txt = [(x, n)]
  /\ process_message fromtimestamp_float all_rows
       (mkMessage (Some s)
          (Some [mkAttachment (Some "ETL Notification") (Some txt)]))
     = (all_rows ++ [mkLoad t (filename_of txt) x x (Text.int n)], Normal).
Proof.
  intros Ht Hx Hwx Hn Hdn Hinto Hpre txt.
  assert (Hdest : destination_of txt = x).
  { unfold destination_of, txt.
    change (": " ++ n ++ " rows")%string
      with (String ":" (" " ++ n ++ " rows")%string).
    now rewrite TextFacts.dest_match_destination. }
  assert (Htab : Text.table_data txt = [(x, n)])
    by now apply TextFacts.table_data_destination.
  split; [exact Hdest|]. split; [exact Htab|].
  rewrite process_message_ok with (s := s) (t := t)
    by (reflexivity || exact Ht).
  unfold spec_records_of_message. cbn [attachments flat_map].
  change (is_etl_notification
            (mkAttachment (Some "ETL Notification") (Some txt))) with true.
  cbv iota. unfold spec_records_of_text.
  change (text_of (mkAttachment (Some "ETL Notification") (Some txt)))
    with txt.
  rewrite Htab, Hdest. reflexivity.
Qed.

Lemma destination_read_as_table_witness :
  let txt := "loaded: f.csv (x) into warehouse: 5 rows" in
  destination_of txt = "warehouse"
  /\ Text.table_data txt = [("warehouse", "5")]
  /\ process_message Sample.clock [] (Sample.etl_message txt)
     = ([] ++ [mkLoad Sample.new_year_2024 (filename_of txt)
                      "warehouse" "warehouse" (Text.int "5")], Normal).
Proof.
  apply (destination_read_as_table Sample.clock Sample.slack_ts
           Sample.new_year_2024 [] "loaded: f.csv (x) " "warehouse" "5");
    reflexivity.
Defined.

(** ** The fetcher under a failing request *)

Section FetcherFacts.

Variable fromtimestamp_float : string -> option datetime.
Variable World : Type.
Variable conversations_history :
  World -> string -> posix -> posix -> Z -> option string ->
  (response + exn) * World.

Lemma for_each_appends {A : Type}
    (body : list LoadRecord -> A -> list LoadRecord * status) :
  appends body ->
  forall xs all_rows,
    for_each body xs all_rows
    = (all_rows ++ fst (for_each body xs []), snd (for_each body xs [])).
Proof.
  intros Hbody. induction xs as [|x xs IH]; intros all_rows; simpl.
  - now rewrite app_nil_r.
  - rewrite (Hbody all_rows x).
    destruct (body [] x) as [r0 [|e]] eqn:E; simpl.
    + rewrite (IH (all_rows ++ r0)), (IH r0). cbn [fst snd].
      now rewrite app_assoc.
    + reflexivity.
Qed.

Lemma process_attachment_appends (msg : message) :
  appends (process_attachment fromtimestamp_float msg).
Proof.
  intros all_rows a. unfold process_attachment.
  destruct (is_etl_notification a); [|now rewrite app_nil_r].
  destruct (ts msg) as [s|]; [|now rewrite app_nil_r].
  destruct (fromtimestamp_float s) as [t|]; [|now rewrite app_nil_r].
  now rewrite !append_rows_app.
Qed.

Lemma process_message_appends :
  appends (process_message fromtimestamp_float).
Proof.
  intros all_rows msg. unfold process_message.
  destruct (attachments msg) as [atts|]; [|now rewrite app_nil_r].
  apply for_each_appends, process_attachment_appends.
Qed.

(** Processing a page appends its records to those gathered so far. *)
Lemma process_messages_appends (msgs : list message)
    (all_rows : list LoadRecord) :
  process_messages fromtimestamp_float msgs all_rows
  = (all_rows ++ fst (process_messages fromtimestamp_float msgs []),
     snd (process_messages fromtimestamp_float msgs [])).
Proof. apply for_each_appends, process_message_appends. Qed.

Lemma pagination_pages_then_error (channel : string) (oldest latest : posix)
    (w : World) (cursor : option string) (pages : list response) (e : exn)
    (w' : World) :
  pages_then_error fromtimestamp_float World conversations_history
    channel oldest latest w cursor pages e w' ->
  forall fuel all_rows,
    (length pages < fuel)%nat ->
    pagination fromtimestamp_float World conversations_history
      fuel w channel oldest latest cursor all_rows
    = Some (w',
            all_rows ++ flat_map (page_records fromtimestamp_float) pages,
            run_trace channel oldest latest cursor pages e).
Proof.
  induction 1 as [w cursor e w' Hreq
                 | w cursor r w1 pages e w' Hreq Hok Hmore _ IH];
    intros fuel all_rows Hfuel.
  - destruct fuel as [|fuel]; [simpl in Hfuel; lia|].
    simpl. rewrite Hreq. now rewrite app_nil_r.
  - destruct fuel as [|fuel]; [simpl in Hfuel; lia|].
    cbn [pagination]. rewrite Hreq.
    rewrite process_messages_appends, Hok, Hmore.
    rewrite (IH fuel) by (simpl in Hfuel; lia).
    cbn [flat_map run_trace]. unfold page_records at 2.
    now rewrite app_assoc.
Qed.

Lemma requests_run_trace (channel : string) (oldest latest : posix)
    (cursor : option string) (pages : list response) (e : exn) :
  length (requests (run_trace channel oldest latest cursor pages e))
  = S (length pages).
Proof.
  revert cursor. induction pages as [|r pages IH]; intros cursor.
  - reflexivity.
  - cbn. f_equal. apply IH.
Qed.

End FetcherFacts.

(** C3.  When the API serves some pages of a chunk and the next request
    raises, [fetch_slack_chunk] returns, with enough fuel for these
    requests, exactly the records of the pages served, which it does not
    discard; it prints the error; and it makes one request per page served
    and one for the request that failed, which it does not repeat. *)
Theorem fetch_keeps_rows_before_error
    (fromtimestamp_float : string -> option datetime) (World : Type)
    (conversations_history :
       World -> string -> posix -> posix -> Z -> option string ->
       (response + exn) * World)
    (channel : string) (oldest latest : posix) (w : World)
    (pages : list response) (e : exn) (w' : World) (fuel : nat) :
  pages <> [] ->
  pages_then_error fromtimestamp_float World conversations_history
    channel oldest latest w None pages e w' ->
  (length pages < fuel)%nat ->
  let all_rows := flat_map (page_records fromtimestamp_float) pages in
  let evs :=
    run_trace channel oldest latest None pages e
    ++ [Print (FetchedRecords (length all_rows) oldest latest)] in
  fetch_slack_chunk fromtimestamp_float World conversations_history
    fuel w channel oldest latest
  = Some (w', all_rows, evs)
  /\ In (Print (ErrorInBatch e)) evs
  /\ length (requests evs) = S (length pages).
Proof.
  intros _ Hrun Hfuel all_rows evs. subst all_rows evs.
  unfold fetch_slack_chunk.
  rewrite (pagination_pages_then_error _ _ _ _ _ _ _ _ _ _ _ Hrun fuel []
             Hfuel).
  cbn [app]. split; [reflexivity|]. split.
  - apply in_or_app. left. clear Hrun Hfuel.
    generalize (@None string) as cursor.
    induction pages as [|r pages IH]; intros cursor.
    + right. now left.
    + right. right. apply IH.
  - unfold requests. rewrite filter_app, length_app.
    change (filter _ (run_trace channel oldest latest None pages e))
      with (requests (run_trace channel oldest latest None pages e)).
    rewrite requests_run_trace. simpl. lia.
Qed.

Lemma fetch_keeps_rows_before_error_witness :
  let all_rows := flat_map (page_records Sample.clock) [Sample.first_page] in
  let evs :=
    run_trace channel 0 604800000000 None [Sample.first_page]
      (SlackApiError "ratelimited")
    ++ [Print (FetchedRecords (length all_rows) 0 604800000000)] in
  fetch_slack_chunk Sample.clock nat Sample.flaky_api 5 0%nat
    channel 0 604800000000
  = Some (2%nat, all_rows, evs)
  /\ In (Print (ErrorInBatch (SlackApiError "ratelimited"))) evs
  /\ length (requests evs) = S (length [Sample.first_page]).
Proof.
  apply (fetch_keeps_rows_before_error Sample.clock nat Sample.flaky_api
           channel 0 604800000000 0%nat [Sample.first_page]
           (SlackApiError "ratelimited") 2%nat 5).
  - discriminate.
  - eapply run_page; [reflexivity | reflexivity | reflexivity |].
    apply run_error. reflexivity.
  - simpl. lia.
Defined.

(** ** The windows of the scheduler *)

Section SchedulerFacts.

Variable to_posix : datetime -> posix + exn.

Lemma week_positive : 0 < timedelta_days 7.
Proof. reflexivity. Qed.

(** The sum of a datetime and a timedelta is returned when, and only
    when, it is a datetime. *)
Lemma datetime_add_inl (t delta sum : Z) :
  datetime_add t delta = inl sum
  <-> sum = t + delta /\ datetime_min <= t + delta <= datetime_max.
Proof.
  unfold datetime_add.
  destruct (Z.leb_spec datetime_min (t + delta)) as [Hlo|Hlo];
    destruct (Z.leb_spec (t + delta) datetime_max) as [Hhi|Hhi];
    cbn [andb]; split;
    try (intros [= <-]; split; [reflexivity|lia]);
    try (intros [-> _]; reflexivity);
    try discriminate; intros [_ H]; lia.
Qed.

Lemma datetime_add_inr (t delta : Z) (e : exn) :
  datetime_add t delta = inr e ->
  e = OverflowError "date value out of range"
  /\ ~ datetime_min <= t + delta <= datetime_max.
Proof.
  unfold datetime_add.
  destruct (Z.leb_spec datetime_min (t + delta)) as [Hlo|Hlo];
    destruct (Z.leb_spec (t + delta) datetime_max) as [Hhi|Hhi];
    cbn [andb]; try discriminate; intros [= <-]; split;
    (reflexivity || lia).
Qed.

(** Where weeks fit, the first sum of the loop stays in range, and weeks
    fit from there on. *)
Lemma weeks_fit_step (a e : datetime) :
  weeks_fit a e -> a < e ->
  datetime_min <= a + timedelta_days 7 <= datetime_max
  /\ (a + timedelta_days 7 < e -> weeks_fit (a + timedelta_days 7) e).
Proof.
  pose proof week_positive as Hweek.
  intros [Hmin [k [Hreach Hmax]]] Hlt.
  assert (Hk : 1 <= k) by nia.
  split; [nia|]. intros Hmore.
  split; [lia|]. exists (k - 1). lia.
Qed.

(** With fuel for the whole range, over a range in which weeks fit and
    which the platform converts, the loop returns windows that lead from
    [chunk_start] to [end_time]; an empty range gives none, whatever the
    platform. *)
Lemma chunk_loop_windows (stamp : datetime -> posix) (fuel : nat) :
  forall chunk_start end_time,
    end_time - chunk_start <= Z.of_nat fuel * timedelta_days 7 ->
    (chunk_start < end_time -> weeks_fit chunk_start end_time) ->
    converts to_posix stamp chunk_start end_time ->
    exists ws,
      chunk_loop to_posix fuel chunk_start end_time
      = Some (inl (map (stored stamp) ws))
      /\ (chunk_start < end_time -> contiguous chunk_start end_time ws)
      /\ (end_time <= chunk_start -> ws = []).
Proof.
  pose proof week_positive as Hweek.
  induction fuel as [|fuel IH]; intros chunk_start end_time Hfuel Hfit Hconv.
  - exists []. cbn [chunk_loop].
    destruct (Z.ltb_spec chunk_start end_time) as [Hlt|Hge]; [lia|].
    repeat split; (reflexivity || lia).
  - cbn [chunk_loop].
    destruct (Z.ltb_spec chunk_start end_time) as [Hlt|Hge].
    + destruct (weeks_fit_step _ _ (Hfit Hlt) Hlt) as [Hsum Hnext].
      rewrite (proj2 (datetime_add_inl chunk_start (timedelta_days 7) _)
                 (conj eq_refl Hsum)).
      set (chunk_end := Z.min (chunk_start + timedelta_days 7) end_time).
      rewrite (Hconv chunk_start) by lia.
      rewrite (Hconv chunk_end) by (subst chunk_end; lia).
      destruct (IH chunk_end end_time) as [ws [Hloop [Hcont Hnil]]].
      * subst chunk_end; lia.
      * intros Hmore.
        replace chunk_end with (chunk_start + timedelta_days 7)
          by (subst chunk_end; lia).
        apply Hnext. subst chunk_end. lia.
      * intros t Ht. apply Hconv. subst chunk_end. lia.
      * exists ((chunk_start, chunk_end) :: ws). rewrite Hloop.
        split; [reflexivity|]. split; [|lia].
        intros _. cbn [contiguous fst snd].
        split; [reflexivity|]. split; [subst chunk_end; lia|].
        destruct (Z.lt_ge_cases chunk_end end_time) as [Hmore|Hdone].
        -- now apply Hcont.
        -- rewrite (Hnil Hdone). cbn [contiguous]. subst chunk_end. lia.
    + exists []. repeat split; (reflexivity || lia).
Qed.

Lemma chunk_fuel_enough (start_time end_time : datetime) :
  end_time - start_time
  <= Z.of_nat (chunk_fuel start_time end_time) * timedelta_days 7.
Proof.
  pose proof week_positive as Hweek. unfold chunk_fuel.
  rewrite Nat2Z.inj_succ.
  destruct (Z.lt_ge_cases (end_time - start_time) 0) as [Hneg|Hpos].
  - assert (0 <= Z.of_nat
                    (Z.to_nat ((end_time - start_time) / timedelta_days 7)))
      by lia.
    nia.
  - rewrite Z2Nat.id by (apply Z.div_pos; lia).
    pose proof (Z.mul_succ_div_gt (end_time - start_time)
                  (timedelta_days 7) Hweek).
    lia.
Qed.

(** The loop of lines 100-105 returns its windows over a range in which
    weeks fit and which the platform converts. *)
Lemma chunk_loop_total (stamp : datetime -> posix)
    (start_time end_time : datetime) :
  (start_time < end_time -> weeks_fit start_time end_time) ->
  converts to_posix stamp start_time end_time ->
  exists ws,
    time_chunks to_posix start_time end_time
    = Some (inl (map (stored stamp) ws))
    /\ (start_time < end_time -> contiguous start_time end_time ws)
    /\ (end_time <= start_time -> ws = []).
Proof. apply chunk_loop_windows, chunk_fuel_enough. Qed.

(** With fuel for the whole range the loop ends, with windows or with an
    exception. *)
Lemma chunk_loop_ends (fuel : nat) :
  forall chunk_start end_time,
    end_time - chunk_start <= Z.of_nat fuel * timedelta_days 7 ->
    chunk_loop to_posix fuel chunk_start end_time <> None.
Proof.
  pose proof week_positive as Hweek.
  induction fuel as [|fuel IH]; intros chunk_start end_time Hfuel;
    cbn [chunk_loop];
    destruct (Z.ltb_spec chunk_start end_time) as [Hlt|Hge];
    try discriminate; [lia|].
  destruct (datetime_add chunk_start (timedelta_days 7))
    as [week_later|e] eqn:Hadd; [|discriminate].
  apply datetime_add_inl in Hadd as [-> _].
  destruct (to_posix chunk_start) as [oldest|e]; [|discriminate].
  destruct (to_posix (Z.min _ end_time)) as [latest|e]; [|discriminate].
  specialize (IH (Z.min (chunk_start + timedelta_days 7) end_time) end_time).
  destruct (chunk_loop to_posix fuel _ end_time) as [[chunks|e]|];
    try discriminate.
  exfalso. apply IH; [lia|reflexivity].
Qed.

(** The pairs that the loop returns are the timestamps of the windows that
    the same loop makes when nothing is converted. *)
Lemma chunk_loop_converted (fuel : nat) :
  forall chunk_start end_time chunks,
    chunk_loop to_posix fuel chunk_start end_time = Some (inl chunks) ->
    exists ws,
      chunk_loop (fun t => inl t) fuel chunk_start end_time
      = Some (inl ws)
      /\ Forall2 (converted to_posix) ws chunks.
Proof.
  induction fuel as [|fuel IH]; intros chunk_start end_time chunks;
    cbn [chunk_loop];
    destruct (Z.ltb chunk_start end_time); try discriminate;
    try (intros [= <-]; exists []; split; [reflexivity|constructor]).
  destruct (datetime_add chunk_start (timedelta_days 7))
    as [week_later|e]; [|discriminate].
  destruct (to_posix chunk_start) as [oldest|e] eqn:Hold; [|discriminate].
  destruct (to_posix (Z.min week_later end_time)) as [latest|e] eqn:Hlate;
    [|discriminate].
  destruct (chunk_loop to_posix fuel _ end_time) as [[rest|e]|] eqn:Hrest;
    try discriminate.
  intros [= <-].
  destruct (IH _ _ _ Hrest) as [ws [-> Hws]].
  exists ((chunk_start, Z.min week_later end_time) :: ws).
  split; [reflexivity|]. constructor; [|exact Hws]. now split.
Qed.

(** When the range starts at a datetime, is converted by the platform and
    weeks do not fit in it, the loop raises at the sum that leaves the
    datetimes. *)
Lemma chunk_loop_overflow (stamp : datetime -> posix) (fuel : nat) :
  forall chunk_start end_time,
    end_time - chunk_start <= Z.of_nat fuel * timedelta_days 7 ->
    chunk_start < end_time ->
    datetime_min <= chunk_start ->
    ~ weeks_fit chunk_start end_time ->
    converts to_posix stamp chunk_start end_time ->
    chunk_loop to_posix fuel chunk_start end_time
    = Some (inr (OverflowError "date value out of range")).
Proof.
  pose proof week_positive as Hweek.
  induction fuel as [|fuel IH];
    intros chunk_start end_time Hfuel Hlt Hmin Hnofit Hconv;
    cbn [chunk_loop];
    destruct (Z.ltb_spec chunk_start end_time) as [_|Hge]; try lia.
  destruct (datetime_add chunk_start (timedelta_days 7))
    as [week_later|e] eqn:Hadd.
  - apply datetime_add_inl in Hadd as [-> Hsum].
    destruct (Z.le_gt_cases end_time (chunk_start + timedelta_days 7))
      as [Hlast|Hmore].
    + exfalso. apply Hnofit. split; [exact Hmin|]. exists 1. lia.
    + replace (Z.min (chunk_start + timedelta_days 7) end_time)
        with (chunk_start + timedelta_days 7) by lia.
      rewrite (Hconv chunk_start) by lia.
      rewrite (Hconv (chunk_start + timedelta_days 7)) by lia.
      rewrite (IH (chunk_start + timedelta_days 7) end_time);
        [reflexivity | lia | exact Hmore | lia | | ].
      * intros [_ [k Hk]]. apply Hnofit. split; [exact Hmin|].
        exists (k + 1). lia.
      * intros t Ht. apply Hconv. lia.
  - apply datetime_add_inr in Hadd as [-> _]. reflexivity.
Qed.

(** Over a range that the platform converts, the loop returns the
    timestamps of the windows of the same loop without conversion, or
    raises as that loop does. *)
Lemma chunk_loop_stored (stamp : datetime -> posix) (fuel : nat) :
  forall chunk_start end_time,
    converts to_posix stamp chunk_start end_time ->
    chunk_loop to_posix fuel chunk_start end_time
    = match chunk_loop (fun t => inl t) fuel chunk_start end_time with
      | Some (inl ws) => Some (inl (map (stored stamp) ws))
      | Some (inr e) => Some (inr e)
      | None => None
      end.
Proof.
  pose proof week_positive as Hweek.
  induction fuel as [|fuel IH]; intros chunk_start end_time Hconv;
    cbn [chunk_loop];
    destruct (Z.ltb_spec chunk_start end_time) as [Hlt|Hge];
    try reflexivity.
  destruct (datetime_add chunk_start (timedelta_days 7))
    as [week_later|e] eqn:Hadd; [|reflexivity].
  apply datetime_add_inl in Hadd as [-> _].
  set (chunk_end := Z.min (chunk_start + timedelta_days 7) end_time).
  rewrite (Hconv chunk_start) by lia.
  rewrite (Hconv chunk_end) by (subst chunk_end; lia).
  rewrite (IH chunk_end end_time)
    by (intros t Ht; apply Hconv; subst chunk_end; lia).
  now destruct (chunk_loop (fun t => inl t) fuel chunk_end end_time)
    as [[ws|e]|].
Qed.

Lemma time_chunks_stored (stamp : datetime -> posix)
    (start_time end_time : datetime) :
  converts to_posix stamp start_time end_time ->
  time_chunks to_posix start_time end_time
  = match windows start_time end_time with
    | Some (inl ws) => Some (inl (map (stored stamp) ws))
    | Some (inr e) => Some (inr e)
    | None => None
    end.
Proof. apply chunk_loop_stored. Qed.

(** Whatever the platform, pairs that the loop returns are the timestamps
    of windows that lead from the start to the end. *)
Lemma time_chunks_converted (start_time end_time : datetime)
    (chunks : list (posix * posix)) :
  time_chunks to_posix start_time end_time = Some (inl chunks) ->
  exists ws,
    windows start_time end_time = Some (inl ws)
    /\ Forall2 (converted to_posix) ws chunks.
Proof. apply chunk_loop_converted. Qed.

End SchedulerFacts.

(** The windows that the loop makes, as datetimes: they lead from the
    start to the end, none is longer than seven days, every one but the
    one that ends at [end_time] is exactly seven days long, and there are
    as many as weeks begun. *)
Lemma chunk_loop_weeks (fuel : nat) :
  forall chunk_start end_time ws,
    chunk_loop (fun t => inl t) fuel chunk_start end_time
    = Some (inl ws) ->
    (chunk_start < end_time -> contiguous chunk_start end_time ws)
    /\ (end_time <= chunk_start -> ws = [])
    /\ (forall win, In win ws ->
          snd win - fst win <= timedelta_days 7
          /\ (snd win <> end_time -> snd win - fst win = timedelta_days 7))
    /\ Z.of_nat (length ws)
       = Z.max 0 ((end_time - chunk_start + timedelta_days 7 - 1)
                  / timedelta_days 7).
Proof.
  pose proof week_positive as Hweek.
  assert (Hnone : forall a e, e <= a ->
            (e - a + timedelta_days 7 - 1) / timedelta_days 7 <= 0).
  { intros a e Hae. apply Z.lt_succ_r, Z.div_lt_upper_bound; lia. }
  induction fuel as [|fuel IH]; intros chunk_start end_time ws;
    cbn [chunk_loop];
    destruct (Z.ltb_spec chunk_start end_time) as [Hlt|Hge];
    try discriminate;
    try (intros [= <-]; specialize (Hnone _ _ Hge);
         split; [lia|]; split; [reflexivity|];
         split; [intros win []|]; cbn [length]; lia).
  destruct (datetime_add chunk_start (timedelta_days 7))
    as [week_later|e] eqn:Hadd; [|discriminate].
  apply datetime_add_inl in Hadd as [-> _].
  set (chunk_end := Z.min (chunk_start + timedelta_days 7) end_time).
  destruct (chunk_loop (fun t => inl t) fuel chunk_end end_time)
    as [[ws'|e]|] eqn:E; try discriminate.
  intros [= <-].
  destruct (IH _ _ _ E) as [Hcont [Hnil [Hsizes Hcount]]].
  split; [|split; [lia|split]].
  - intros _. cbn [contiguous fst snd].
    split; [reflexivity|]. split; [subst chunk_end; lia|].
    destruct (Z.lt_ge_cases chunk_end end_time) as [Hmore|Hdone].
    + now apply Hcont.
    + rewrite (Hnil Hdone). cbn [contiguous]. subst chunk_end. lia.
  - intros win [<-|Hwin]; [|now apply Hsizes].
    cbn [fst snd]. subst chunk_end. lia.
  - cbn [length]. rewrite Nat2Z.inj_succ, Hcount.
    destruct (Z.le_gt_cases end_time (chunk_start + timedelta_days 7))
      as [Hlast|Hmore].
    + replace chunk_end with end_time by (subst chunk_end; lia).
      replace (end_time - end_time + timedelta_days 7 - 1)
        with (timedelta_days 7 - 1) by lia.
      rewrite (Z.div_small (timedelta_days 7 - 1)) by lia.
      assert ((end_time - chunk_start + timedelta_days 7 - 1)
              / timedelta_days 7 = 1); [|lia].
      symmetry. apply (Z.div_unique _ _ 1 (end_time - chunk_start - 1));
        lia.
    + replace chunk_end with (chunk_start + timedelta_days 7)
        by (subst chunk_end; lia).
      replace (end_time - chunk_start + timedelta_days 7 - 1)
        with (end_time - (chunk_start + timedelta_days 7)
              + timedelta_days 7 - 1 + 1 * timedelta_days 7) by lia.
      rewrite Z.div_add by lia.
      assert (0 <= (end_time - (chunk_start + timedelta_days 7)
                    + timedelta_days 7 - 1) / timedelta_days 7)
        by (apply Z.div_pos; lia).
      lia.
Qed.

(** Windows without a gap lie inside their range. *)
Lemma contiguous_bounds (ws : list window) :
  forall a e, contiguous a e ws ->
    a <= e /\ forall w, In w ws -> a <= fst w /\ fst w < snd w /\ snd w <= e.
Proof.
  induction ws as [|w ws IH]; intros a e H; cbn [contiguous] in H.
  - split; [lia|]. intros w [].
  - destruct H as [Ha [Hw Hrest]].
    destruct (IH _ _ Hrest) as [Hle Hin].
    split; [lia|]. intros w' [<-|Hw']; [lia|].
    specialize (Hin w' Hw'). lia.
Qed.

(** Their union is the range. *)
Lemma contiguous_cover (ws : list window) :
  forall a e, contiguous a e ws ->
    forall t, a <= t < e <-> exists w, In w ws /\ inside t w.
Proof.
  induction ws as [|w ws IH]; intros a e H t; cbn [contiguous] in H.
  - split; [lia|]. intros [w [[] _]].
  - destruct H as [Ha [Hw Hrest]].
    destruct (contiguous_bounds _ _ _ Hrest) as [Hle _].
    specialize (IH _ _ Hrest t). split.
    + intros Ht. destruct (Z.lt_ge_cases t (snd w)) as [Hin|Hout].
      * exists w. split; [now left|]. unfold inside. lia.
      * destruct (proj1 IH) as [w' [Hw' Hin']]; [lia|].
        exists w'. split; [now right|exact Hin'].
    + intros [w' [[<-|Hw'] Hin']].
      * unfold inside in Hin'. lia.
      * assert (snd w <= t < e) by (apply IH; now exists w'). lia.
Qed.

(** An earlier window ends before a later one starts. *)
Lemma contiguous_ordered (ws : list window) :
  forall a e, contiguous a e ws ->
    forall i j wi wj, (i < j)%nat ->
      nth_error ws i = Some wi -> nth_error ws j = Some wj ->
      snd wi <= fst wj.
Proof.
  induction ws as [|w ws IH]; intros a e H i j wi wj Hij Hi Hj.
  - now destruct i.
  - cbn [contiguous] in H. destruct H as [Ha [Hw Hrest]].
    destruct j as [|j]; [lia|]. cbn [nth_error] in Hj.
    destruct i as [|i]; cbn [nth_error] in Hi.
    + injection Hi as <-.
      destruct (contiguous_bounds _ _ _ Hrest) as [_ Hin].
      apply nth_error_In in Hj. specialize (Hin wj Hj). lia.
    + apply (IH _ _ Hrest i j); (assumption || lia).
Qed.

(** C4, amended.  On a platform that converts the datetimes of the range,
    the range from 2024-01-01 to 2024-01-20 is cut into the three windows
    [01-01, 01-08), [01-08, 01-15), [01-15, 01-20).  For every start
    before end: pairs that the loop returns are the timestamps of windows
    that lead from start to end without a gap, that do not overlap (an
    earlier one ends no later than a later one starts), and whose union
    is [start, end); the loop returns them when the start is a datetime
    from which whole weeks reach the end within the datetimes and the
    platform converts the datetimes of the range; and when the platform
    converts them but weeks do not fit, the loop raises [OverflowError]
    and makes no window. *)
Theorem time_chunks_partition (to_posix : datetime -> posix + exn)
    (stamp : datetime -> posix) :
  (converts to_posix stamp (midnight 2024 1 1) (midnight 2024 1 20) ->
   time_chunks to_posix (midnight 2024 1 1) (midnight 2024 1 20)
   = Some (inl [(stamp (midnight 2024 1 1), stamp (midnight 2024 1 8));
                (stamp (midnight 2024 1 8), stamp (midnight 2024 1 15));
                (stamp (midnight 2024 1 15), stamp (midnight 2024 1 20))]))
  /\ forall start_time end_time,
       start_time < end_time ->
       (forall chunks,
          time_chunks to_posix start_time end_time = Some (inl chunks) ->
          exists ws,
            Forall2 (converted to_posix) ws chunks
            /\ contiguous start_time end_time ws
            /\ (forall i j wi wj, (i < j)%nat ->
                  nth_error ws i = Some wi -> nth_error ws j = Some wj ->
                  snd wi <= fst wj)
            /\ (forall t, start_time <= t < end_time
                          <-> exists w, In w ws /\ inside t w))
       /\ (weeks_fit start_time end_time ->
           converts to_posix stamp start_time end_time ->
           exists ws,
             time_chunks to_posix start_time end_time
             = Some (inl (map (stored stamp) ws))
             /\ contiguous start_time end_time ws
             /\ (forall i j wi wj, (i < j)%nat ->
                   nth_error ws i = Some wi -> nth_error ws j = Some wj ->
                   snd wi <= fst wj)
             /\ (forall t, start_time <= t < end_time
                           <-> exists w, In w ws /\ inside t w))
       /\ (datetime_min <= start_time ->
           ~ weeks_fit start_time end_time ->
           converts to_posix stamp start_time end_time ->
           time_chunks to_posix start_time end_time
           = Some (inr (OverflowError "date value out of range"))).
Proof.
  split.
  - intros Hconv. rewrite (time_chunks_stored to_posix stamp _ _ Hconv).
    reflexivity.
  - intros start_time end_time Hlt. split; [|split].
    + intros chunks Hchunks.
      destruct (time_chunks_converted _ _ _ _ Hchunks) as [ws [Hws Hconv]].
      destruct (chunk_loop_weeks _ _ _ _ Hws) as [Hcont _].
      specialize (Hcont Hlt). exists ws.
      split; [exact Hconv|]. split; [exact Hcont|]. split.
      * now apply contiguous_ordered with (a := start_time) (e := end_time).
      * now apply contiguous_cover.
    + intros Hfit Hconv.
      destruct (chunk_loop_total to_posix stamp start_time end_time
                  (fun _ => Hfit) Hconv) as [ws [Hloop [Hcont _]]].
      specialize (Hcont Hlt). exists ws.
      split; [exact Hloop|]. split; [exact Hcont|]. split.
      * now apply contiguous_ordered with (a := start_time) (e := end_time).
      * now apply contiguous_cover.
    + intros Hmin Hnofit Hconv.
      apply (chunk_loop_overflow to_posix stamp); try assumption.
      apply chunk_fuel_enough.
Qed.

Lemma time_chunks_partition_witness :
  converts Sample.utc Sample.utc_stamp (midnight 2024 1 1) (midnight 2024 1 20)
  /\ weeks_fit (midnight 2024 1 1) (midnight 2024 1 20)
  /\ time_chunks Sample.utc (midnight 2024 1 1) (midnight 2024 1 20)
     = Some (inl [(Sample.utc_stamp (midnight 2024 1 1),
                   Sample.utc_stamp (midnight 2024 1 8));
                  (Sample.utc_stamp (midnight 2024 1 8),
                   Sample.utc_stamp (midnight 2024 1 15));
                  (Sample.utc_stamp (midnight 2024 1 15),
                   Sample.utc_stamp (midnight 2024 1 20))])
  /\ exists ws,
       time_chunks Sample.utc (midnight 2024 1 1) (midnight 2024 1 20)
       = Some (inl (map (stored Sample.utc_stamp) ws))
       /\ contiguous (midnight 2024 1 1) (midnight 2024 1 20) ws
       /\ (forall i j wi wj, (i < j)%nat ->
             nth_error ws i = Some wi -> nth_error ws j = Some wj ->
             snd wi <= fst wj)
       /\ (forall t, midnight 2024 1 1 <= t < midnight 2024 1 20
                     <-> exists w, In w ws /\ inside t w).
Proof.
  assert (Hconv : converts Sample.utc Sample.utc_stamp
                    (midnight 2024 1 1) (midnight 2024 1 20))
    by (intros t _; reflexivity).
  assert (Hfit : weeks_fit (midnight 2024 1 1) (midnight 2024 1 20)).
  { split; [vm_compute; discriminate|]. exists 3.
    split; vm_compute; discriminate. }
  split; [exact Hconv|]. split; [exact Hfit|]. split.
  - exact (proj1 (time_chunks_partition Sample.utc Sample.utc_stamp) Hconv).
  - exact (proj1 (proj2 (proj2 (time_chunks_partition Sample.utc
                                  Sample.utc_stamp)
                           (midnight 2024 1 1) (midnight 2024 1 20)
                           eq_refl))
             Hfit Hconv).
Defined.

(** The claim as it stands fails in the last week of the datetimes: from
    9999-12-28 to 9999-12-31 the start is before the end, and the sum of
    line 103 raises before any window is made. *)
Lemma time_chunks_overflow_in_last_week :
  midnight 9999 12 28 < midnight 9999 12 31
  /\ time_chunks Sample.utc (midnight 9999 12 28) (midnight 9999 12 31)
     = Some (inr (OverflowError "date value out of range"))
  /\ ~ exists chunks,
         time_chunks Sample.utc (midnight 9999 12 28) (midnight 9999 12 31)
         = Some (inl chunks).
Proof.
  split; [reflexivity|].
  assert (Hraise : time_chunks Sample.utc (midnight 9999 12 28)
                     (midnight 9999 12 31)
                   = Some (inr (OverflowError "date value out of range")))
    by (vm_compute; reflexivity).
  split; [exact Hraise|].
  intros [chunks Hchunks]. rewrite Hraise in Hchunks. discriminate Hchunks.
Qed.

(** ** Merging, sorting and the cache *)

Lemma StronglySorted_weaken {A : Type} (R R' : A -> A -> Prop) (l : list A) :
  (forall x y, R x y -> R' x y) ->
  StronglySorted R l -> StronglySorted R' l.
Proof.
  intros HR. induction 1 as [|a l _ IH Hall]; constructor.
  - exact IH.
  - apply Forall_forall. intros x Hx.
    apply HR. now apply (proj1 (Forall_forall _ _) Hall).
Qed.

Lemma sort_by_timestamp_sorted (df : DataFrame) :
  StronglySorted by_timestamp (sort_by_timestamp df).
Proof.
  apply StronglySorted_weaken
    with (R := fun x y => is_true (TimestampOrder.leb x y)).
  - intros x y H. apply Z.leb_le. exact H.
  - apply FrameSort.StronglySorted_sort.
    intros x y z Hxy Hyz. unfold is_true, TimestampOrder.leb in *.
    apply Z.leb_le. apply Z.leb_le in Hxy, Hyz. lia.
Qed.

Lemma sort_by_timestamp_perm (df : DataFrame) :
  Permutation (sort_by_timestamp df) df.
Proof. apply Permutation_sym, FrameSort.Permuted_sort. Qed.

Lemma Permutation_concat {A : Type} (ls ls' : list (list A)) :
  Permutation ls ls' -> Permutation (concat ls) (concat ls').
Proof.
  induction 1 as [|l ls ls' _ IH|l1 l2 ls|ls1 ls2 ls3 _ IH1 _ IH2]; simpl.
  - constructor.
  - now apply Permutation_app_head.
  - rewrite !app_assoc. apply Permutation_app_tail, Permutation_app_comm.
  - now transitivity (concat ls2).
Qed.

(** Lines 121-123. *)
Lemma combine_and_cache_empty (fs : FS) (cache_file : string)
    (chunk_results : list (list LoadRecord)) :
  concat chunk_results = [] ->
  combine_and_cache fs cache_file chunk_results
  = (fs, [Print NoDataFound], None).
Proof. intros H. unfold combine_and_cache. now rewrite H. Qed.

(** Lines 125-133. *)
Lemma combine_and_cache_rows (fs : FS) (cache_file : string)
    (chunk_results : list (list LoadRecord)) :
  concat chunk_results <> [] ->
  combine_and_cache fs cache_file chunk_results
  = (write_parquet fs cache_file (sort_by_timestamp (concat chunk_results)),
     [Print (CachingTo cache_file);
      Print (TotalRecords (length (concat chunk_results)))],
     Some (sort_by_timestamp (concat chunk_results))).
Proof.
  intros H. unfold combine_and_cache.
  destruct (concat chunk_results); [now contradiction H | reflexivity].
Qed.

Lemma combine_and_cache_frame (fs : FS) (cache_file : string)
    (chunk_results : list (list LoadRecord)) (df : DataFrame) :
  snd (combine_and_cache fs cache_file chunk_results) = Some df ->
  df = sort_by_timestamp (concat chunk_results).
Proof.
  unfold combine_and_cache.
  destruct (concat chunk_results); cbn [snd]; intros H;
    [discriminate H | now injection H].
Qed.

Lemma write_then_read (fs : FS) (path : string) (df : DataFrame) :
  write_parquet fs path df path = Some df.
Proof. unfold write_parquet. now rewrite String.eqb_refl. Qed.

Section PipelineFacts.

Variable fromtimestamp_float : string -> option datetime.
Variable to_posix : datetime -> posix + exn.
Variable World : Type.
Variable conversations_history :
  World -> string -> posix -> posix -> Z -> option string ->
  (response + exn) * World.

Let pipeline :=
  fetch_etl_history fromtimestamp_float to_posix World conversations_history.

(** Lines 80-82: with the cache file in place nothing is fetched. *)
Lemma fetch_etl_history_cached (fuel : nat) (schedule : nat -> list nat)
    (now : datetime) (w : World) (fs : FS) (cache_file : string)
    (start_date end_date : option ymd) (file : DataFrame) :
  fs cache_file = Some file ->
  pipeline fuel schedule now w fs cache_file start_date end_date
  = Some (w, fs, [Print LoadingCached], Returns (Some file)).
Proof.
  intros H. unfold pipeline, fetch_etl_history. now rewrite H.
Qed.

(** Lines 84-133: without the cache file, once the range is known and the
    pool has returned. *)
Lemma fetch_etl_history_fresh (fuel : nat) (schedule : nat -> list nat)
    (now : datetime) (w : World) (fs : FS) (cache_file : string)
    (start_date end_date : option ymd) (start_time end_time : datetime)
    (chunks : list (posix * posix)) (w' : World)
    (chunk_results : list (list LoadRecord)) (evs : list event) :
  fs cache_file = None ->
  end_time_of now end_date = Some end_time ->
  start_time_of start_date = Some start_time ->
  time_chunks to_posix start_time end_time = Some (inl chunks) ->
  executor_map fromtimestamp_float World conversations_history fuel
    (schedule (length chunks)) chunks w
  = Some (w', chunk_results, evs) ->
  pipeline fuel schedule now w fs cache_file start_date end_date
  = Some (w',
          fst (fst (combine_and_cache fs cache_file chunk_results)),
          Print (FetchingHistory start_time end_time)
            :: evs ++ snd (fst (combine_and_cache fs cache_file
                                  chunk_results)),
          Returns (snd (combine_and_cache fs cache_file chunk_results))).
Proof.
  intros Hfs Hend Hstart Hchunks Hpool.
  unfold pipeline, fetch_etl_history.
  rewrite Hfs, Hend, Hstart, Hchunks, Hpool.
  now destruct (combine_and_cache fs cache_file chunk_results) as [[? ?] ?].
Qed.

(** A frame that a fresh fetch returns is the sorted merge of some chunk
    results. *)
Lemma fetch_etl_history_returns_merge (fuel : nat)
    (schedule : nat -> list nat) (now : datetime) (w : World) (fs : FS)
    (cache_file : string) (start_date end_date : option ymd)
    (w' : World) (fs' : FS) (evs : list event) (df : DataFrame) :
  fs cache_file = None ->
  pipeline fuel schedule now w fs cache_file start_date end_date
  = Some (w', fs', evs, Returns (Some df)) ->
  exists chunk_results, df = sort_by_timestamp (concat chunk_results).
Proof.
  intros Hfs. unfold pipeline, fetch_etl_history. rewrite Hfs.
  destruct (end_time_of now end_date) as [end_time|]; [|discriminate].
  destruct (start_time_of start_date) as [start_time|]; [|discriminate].
  destruct (time_chunks to_posix start_time end_time) as [[chunks|e]|];
    try discriminate.
  destruct (executor_map _ _ _ _ _ _ _) as [[[w1 chunk_results] evs1]|];
    [|discriminate].
  destruct (combine_and_cache fs cache_file chunk_results)
    as [[fs1 evs2] ret] eqn:E.
  intros H. injection H as _ _ _ Hret. subst ret.
  exists chunk_results. apply combine_and_cache_frame with fs cache_file.
  now rewrite E.
Qed.

End PipelineFacts.

(** C5.  Whatever the chunk results are and in whatever order they come
    in, the frame made of them is in ascending order of timestamps and has
    the rows of the chunk results; and whatever completion order the pool
    takes, a frame that a fresh fetch returns is in ascending order of
    timestamps. *)
Theorem merged_frame_sorted
    (fromtimestamp_float : string -> option datetime)
    (to_posix : datetime -> posix + exn) (World : Type)
    (conversations_history :
       World -> string -> posix -> posix -> Z -> option string ->
       (response + exn) * World) :
  (forall fs cache_file chunk_results arrived df,
     Permutation arrived chunk_results ->
     snd (combine_and_cache fs cache_file arrived) = Some df ->
     StronglySorted by_timestamp df
     /\ Permutation df (concat chunk_results))
  /\ (forall fuel schedule now w fs cache_file start_date end_date
             w' fs' evs df,
        fs cache_file = None ->
        fetch_etl_history fromtimestamp_float to_posix World
          conversations_history fuel schedule now w fs cache_file
          start_date end_date
        = Some (w', fs', evs, Returns (Some df)) ->
        StronglySorted by_timestamp df).
Proof.
  split.
  - intros fs cache_file chunk_results arrived df Hperm Hdf.
    apply combine_and_cache_frame in Hdf. subst df. split.
    + apply sort_by_timestamp_sorted.
    + transitivity (concat arrived).
      * apply sort_by_timestamp_perm.
      * now apply Permutation_concat.
  - intros fuel schedule now w fs cache_file start_date end_date
           w' fs' evs df Hfs Hrun.
    destruct (fetch_etl_history_returns_merge _ _ _ _ _ _ _ _ _ _ _ _
                _ _ _ _ Hfs Hrun) as [chunk_results ->].
    apply sort_by_timestamp_sorted.
Qed.

Lemma merged_frame_sorted_witness :
  exists w' fs' evs df,
    fetch_etl_history Sample.clock Sample.utc unit Sample.first_week_api
      1 Sample.backwards 0 tt Sample.no_files "etl_history_2024.parquet"
      (Some (mkYmd 2024 1 1)) (Some (mkYmd 2024 1 20))
    = Some (w', fs', evs, Returns (Some df))
    /\ StronglySorted by_timestamp df.
Proof.
  eexists _, _, _, _. split.
  - vm_compute. reflexivity.
  - eapply (proj2 (merged_frame_sorted Sample.clock Sample.utc unit
                     Sample.first_week_api)
              1%nat Sample.backwards 0 tt Sample.no_files
              "etl_history_2024.parquet"
              (Some (mkYmd 2024 1 1)) (Some (mkYmd 2024 1 20))).
    + reflexivity.
    + vm_compute. reflexivity.
Defined.

(** C6.  A non-empty merge that is stored in the cache file is what a later
    call loads from it: the loaded frame has exactly the records of the
    merge (it is a rearrangement of them), and the call that loads it makes
    no request and leaves the world and the files as they are.  More
    generally, whenever the cache file exists the call returns its frame
    without fetching. *)
Theorem cache_round_trip
    (fromtimestamp_float : string -> option datetime)
    (to_posix : datetime -> posix + exn) (World : Type)
    (conversations_history :
       World -> string -> posix -> posix -> Z -> option string ->
       (response + exn) * World) :
  (forall fs cache_file chunk_results,
     concat chunk_results <> [] ->
     exists df,
       combine_and_cache fs cache_file chunk_results
       = (write_parquet fs cache_file df,
          [Print (CachingTo cache_file);
           Print (TotalRecords (length (concat chunk_results)))],
          Some df)
       /\ Permutation df (concat chunk_results)
       /\ (forall r, In r df <-> In r (concat chunk_results))
       /\ forall fuel schedule now w start_date end_date,
            fetch_etl_history fromtimestamp_float to_posix World
              conversations_history fuel schedule now w
              (write_parquet fs cache_file df) cache_file
              start_date end_date
            = Some (w, write_parquet fs cache_file df,
                    [Print LoadingCached], Returns (Some df)))
  /\ (forall fuel schedule now w fs cache_file start_date end_date file,
        fs cache_file = Some file ->
        fetch_etl_history fromtimestamp_float to_posix World
          conversations_history fuel schedule now w fs cache_file
          start_date end_date
        = Some (w, fs, [Print LoadingCached], Returns (Some file))).
Proof.
  split.
  - intros fs cache_file chunk_results Hrows.
    exists (sort_by_timestamp (concat chunk_results)).
    split; [now apply combine_and_cache_rows|].
    split; [apply sort_by_timestamp_perm|].
    split.
    + intros r. split; apply Permutation_in;
        [|apply Permutation_sym]; apply sort_by_timestamp_perm.
    + intros fuel schedule now w start_date end_date.
      apply fetch_etl_history_cached, write_then_read.
  - intros fuel schedule now w fs cache_file start_date end_date file Hfile.
    now apply fetch_etl_history_cached.
Qed.

Lemma cache_round_trip_witness :
  let later := mkLoad 20 "b.csv" "lake" "t2" 7 in
  let sooner := mkLoad 10 "a.csv" "lake" "t1" 3 in
  exists df,
    combine_and_cache Sample.no_files "etl_history_2024.parquet"
      [[later]; [sooner]]
    = (write_parquet Sample.no_files "etl_history_2024.parquet" df,
       [Print (CachingTo "etl_history_2024.parquet");
        Print (TotalRecords (length (concat [[later]; [sooner]])))],
       Some df)
    /\ Permutation df (concat [[later]; [sooner]])
    /\ (forall r, In r df <-> In r (concat [[later]; [sooner]]))
    /\ forall fuel schedule now w start_date end_date,
         fetch_etl_history Sample.clock Sample.utc unit Sample.silent_api
           fuel schedule now w
           (write_parquet Sample.no_files "etl_history_2024.parquet" df)
           "etl_history_2024.parquet" start_date end_date
         = Some (w, write_parquet Sample.no_files
                      "etl_history_2024.parquet" df,
                 [Print LoadingCached], Returns (Some df)).
Proof.
  intros later sooner.
  apply (proj1 (cache_round_trip Sample.clock Sample.utc unit
                  Sample.silent_api)
           Sample.no_files "etl_history_2024.parquet" [[later]; [sooner]]).
  discriminate.
Defined.

(** C8.  When the chunks together hold no record, a fetch without a cache
    file prints that no data was found and returns [None]; it raises
    nothing and leaves the files as they were, the cache file absent. *)
Theorem empty_result_returns_none
    (fromtimestamp_float : string -> option datetime)
    (to_posix : datetime -> posix + exn) (World : Type)
    (conversations_history :
       World -> string -> posix -> posix -> Z -> option string ->
       (response + exn) * World)
    (fuel : nat) (schedule : nat -> list nat) (now : datetime) (w : World)
    (fs : FS) (cache_file : string) (start_date end_date : option ymd)
    (start_time end_time : datetime) (chunks : list (posix * posix))
    (w' : World) (chunk_results : list (list LoadRecord))
    (evs : list event) :
  fs cache_file = None ->
  end_time_of now end_date = Some end_time ->
  start_time_of start_date = Some start_time ->
  time_chunks to_posix start_time end_time = Some (inl chunks) ->
  executor_map fromtimestamp_float World conversations_history fuel
    (schedule (length chunks)) chunks w
  = Some (w', chunk_results, evs) ->
  concat chunk_results = [] ->
  fetch_etl_history fromtimestamp_float to_posix World
    conversations_history fuel schedule now w fs cache_file
    start_date end_date
  = Some (w', fs,
          Print (FetchingHistory start_time end_time)
            :: evs ++ [Print NoDataFound],
          Returns None).
Proof.
  intros Hfs Hend Hstart Hchunks Hpool Hempty.
  rewrite (fetch_etl_history_fresh _ _ _ _ _ _ _ _ _ _ _ _ _ _ _ _ _ _
             Hfs Hend Hstart Hchunks Hpool).
  now rewrite (combine_and_cache_empty _ _ _ Hempty).
Qed.

Lemma empty_result_returns_none_witness :
  exists evs,
    fetch_etl_history Sample.clock Sample.utc unit Sample.silent_api
      1 Sample.backwards 0 tt Sample.no_files "etl_history_2024.parquet"
      (Some (mkYmd 2024 1 1)) (Some (mkYmd 2024 1 20))
    = Some (tt, Sample.no_files,
            Print (FetchingHistory (midnight 2024 1 1) (midnight 2024 1 20))
              :: evs ++ [Print NoDataFound],
            Returns None)
    /\ length (requests evs) = 3%nat.
Proof.
  eexists. split.
  - eapply (empty_result_returns_none Sample.clock Sample.utc unit
              Sample.silent_api 1 Sample.backwards 0 tt Sample.no_files
              "etl_history_2024.parquet"
              (Some (mkYmd 2024 1 1)) (Some (mkYmd 2024 1 20))
              (midnight 2024 1 1) (midnight 2024 1 20)).
    + reflexivity.
    + reflexivity.
    + reflexivity.
    + vm_compute. reflexivity.
    + vm_compute. reflexivity.
    + reflexivity.
  - reflexivity.
Defined.

(** C9.  The entry point removes the cache file when there is one, so that
    the fetch that follows finds none; but the range it fetches stops at
    the first instant of 2024-12-31: its 53 windows lead from 2024-01-01 to
    that instant, and noon of 2024-12-31, an instant of the year 2024, lies
    in none of them.  The pairs of timestamps that the loop stores are
    those of these windows, on every platform that converts the datetimes
    of the range. *)
Theorem main_range_stops_before_last_day
    (fromtimestamp_float : string -> option datetime)
    (to_posix : datetime -> posix + exn) (World : Type)
    (conversations_history :
       World -> string -> posix -> posix -> Z -> option string ->
       (response + exn) * World)
    (fuel : nat) (schedule : nat -> list nat) (now : datetime) (w : World)
    (fs : FS) :
  let cache_file := "etl_history_2024.parquet" in
  let fs1 := if path_exists fs cache_file then remove fs cache_file else fs in
  let evs0 := if path_exists fs cache_file then [Print DeletedCache] else [] in
  let noon := midnight 2024 12 31 + 43200000000 in
  fs1 cache_file = None
  /\ main fromtimestamp_float to_posix World conversations_history
       fuel schedule now w fs
     = match fetch_etl_history fromtimestamp_float to_posix World
               conversations_history fuel schedule now w fs1 cache_file
               (Some (mkYmd 2024 1 1)) (Some (mkYmd 2024 12 31)) with
       | Some (w', fs', evs, df) => Some (w', fs', evs0 ++ evs, df)
       | None => None
       end
  /\ start_time_of (Some (mkYmd 2024 1 1)) = Some (midnight 2024 1 1)
  /\ end_time_of now (Some (mkYmd 2024 12 31)) = Some (midnight 2024 12 31)
  /\ exists ws,
       windows (midnight 2024 1 1) (midnight 2024 12 31) = Some (inl ws)
       /\ (forall stamp,
             converts to_posix stamp (midnight 2024 1 1)
               (midnight 2024 12 31) ->
             time_chunks to_posix (midnight 2024 1 1) (midnight 2024 12 31)
             = Some (inl (map (stored stamp) ws)))
       /\ (forall chunks,
             time_chunks to_posix (midnight 2024 1 1) (midnight 2024 12 31)
             = Some (inl chunks) ->
             Forall2 (converted to_posix) ws chunks)
       /\ length ws = 53%nat
       /\ contiguous (midnight 2024 1 1) (midnight 2024 12 31) ws
       /\ midnight 2024 1 1 <= noon < midnight 2025 1 1
       /\ forall win, In win ws -> ~ inside noon win.
Proof.
  intros cache_file fs1 evs0 noon.
  split; [|split; [|split; [reflexivity|split; [reflexivity|]]]].
  - subst fs1. unfold path_exists.
    destruct (fs cache_file) eqn:E; [|exact E].
    unfold remove. now rewrite String.eqb_refl.
  - subst fs1 evs0. unfold main. fold cache_file.
    now destruct (path_exists fs cache_file).
  - destruct (windows (midnight 2024 1 1) (midnight 2024 12 31))
      as [[ws|e]|] eqn:Hws; try (vm_compute in Hws; discriminate Hws).
    destruct (chunk_loop_weeks _ _ _ _ Hws) as [Hcont [_ [_ Hcount]]].
    specialize (Hcont eq_refl). exists ws.
    split; [reflexivity|]. split; [|split; [|split; [|split;
      [exact Hcont|split]]]].
    + intros stamp Hconv.
      now rewrite (time_chunks_stored to_posix stamp _ _ Hconv), Hws.
    + intros chunks Hchunks.
      destruct (time_chunks_converted _ _ _ _ Hchunks) as [ws' [Hws' H]].
      rewrite Hws in Hws'. now injection Hws' as <-.
    + apply Nat2Z.inj. etransitivity; [exact Hcount|]. reflexivity.
    + subst noon. vm_compute. split; [discriminate|reflexivity].
    + intros win Hwin [_ Hhi].
      destruct (contiguous_bounds _ _ _ Hcont) as [_ Hin].
      specialize (Hin win Hwin). subst noon. lia.
Qed.

(** ** The statistics *)

Module AnalysisFacts.
Import Analysis.

Lemma non_null_perm (data data' : Series) :
  Permutation data data' -> Permutation (non_null data) (non_null data').
Proof. unfold non_null. apply Permutation_flat_map. Qed.

(** A column without nulls becomes the array of its values, and counts no
    missing value. *)
Lemma no_nulls (data : Series) :
  Forall (fun x => x <> None) data ->
  np_array data = Some (non_null data) /\ null_count data = 0%nat.
Proof.
  induction 1 as [|x data Hx _ [IHa IHn]]; [now split|].
  destruct x as [v|]; [|now contradiction Hx].
  cbn [np_array]. rewrite IHa. split; [reflexivity|exact IHn].
Qed.

Lemma fold_min_least (xs : list Z) :
  forall x,
    In (fold_left Z.min xs x) (x :: xs)
    /\ forall y, In y (x :: xs) -> fold_left Z.min xs x <= y.
Proof.
  induction xs as [|a xs IH]; intros x; cbn [fold_left].
  - split; [now left|]. intros y [<-|[]]. lia.
  - destruct (IH (Z.min x a)) as [Hin Hle]. split.
    + destruct Hin as [Hm|Hm].
      * rewrite <- Hm. destruct (Z.min_spec x a) as [[_ ->]|[_ ->]];
          [now left | right; now left].
      * right. now right.
    + pose proof (Hle (Z.min x a) (or_introl eq_refl)) as Hmin.
      intros y [<-|[<-|Hy]]; [lia | lia |].
      apply Hle. now right.
Qed.

Lemma fold_max_greatest (xs : list Z) :
  forall x,
    In (fold_left Z.max xs x) (x :: xs)
    /\ forall y, In y (x :: xs) -> y <= fold_left Z.max xs x.
Proof.
  induction xs as [|a xs IH]; intros x; cbn [fold_left].
  - split; [now left|]. intros y [<-|[]]. lia.
  - destruct (IH (Z.max x a)) as [Hin Hle]. split.
    + destruct Hin as [Hm|Hm].
      * rewrite <- Hm. destruct (Z.max_spec x a) as [[_ ->]|[_ ->]];
          [right; now left | now left].
      * right. now right.
    + pose proof (Hle (Z.max x a) (or_introl eq_refl)) as Hmax.
      intros y [<-|[<-|Hy]]; [lia | lia |].
      apply Hle. now right.
Qed.

Lemma sum_Z_fold_right (xs : list Z) : sum_Z xs = fold_right Z.add 0 xs.
Proof. unfold sum_Z. apply fold_symmetric; intros; lia. Qed.

Lemma sum_Z_perm (xs ys : list Z) :
  Permutation xs ys -> sum_Z xs = sum_Z ys.
Proof.
  rewrite !sum_Z_fold_right.
  induction 1; cbn [fold_right]; lia.
Qed.

(** Two ordered lists with the same elements are the same list. *)
Lemma sorted_perm_unique (l1 : list Z) :
  forall l2,
    StronglySorted Z.le l1 -> StronglySorted Z.le l2 ->
    Permutation l1 l2 -> l1 = l2.
Proof.
  induction l1 as [|a l1 IH]; intros l2 H1 H2 Hperm.
  - now apply Permutation_nil in Hperm.
  - destruct l2 as [|b l2];
      [now apply Permutation_sym, Permutation_nil in Hperm|].
    apply StronglySorted_inv in H1 as [H1 Ha].
    apply StronglySorted_inv in H2 as [H2 Hb].
    assert (Hab : a = b).
    { assert (Hin_a : In a (b :: l2))
        by (apply (Permutation_in a Hperm); now left).
      assert (Hin_b : In b (a :: l1))
        by (apply (Permutation_in b (Permutation_sym Hperm)); now left).
      rewrite Forall_forall in Ha, Hb.
      destruct Hin_a as [->|Hin_a]; [reflexivity|].
      destruct Hin_b as [->|Hin_b]; [reflexivity|].
      specialize (Ha b Hin_b). specialize (Hb a Hin_a). lia. }
    subst b. f_equal. apply IH; try assumption.
    now apply Permutation_cons_inv with a.
Qed.

Lemma sort_sorted (a : list Z) : StronglySorted Z.le (ZSort.sort a).
Proof.
  apply StronglySorted_weaken with (R := fun x y => is_true (ZOrder.leb x y)).
  - intros x y H. apply Z.leb_le. exact H.
  - apply ZSort.StronglySorted_sort.
    intros x y z Hxy Hyz. unfold is_true, ZOrder.leb in *.
    apply Z.leb_le. apply Z.leb_le in Hxy, Hyz. lia.
Qed.

(** Sorting an arrangement of an ordered list gives that list. *)
Lemma sort_of_perm (a sorted : list Z) :
  StronglySorted Z.le sorted -> Permutation a sorted ->
  ZSort.sort a = sorted.
Proof.
  intros Hsorted Hperm. apply sorted_perm_unique.
  - apply sort_sorted.
  - exact Hsorted.
  - transitivity a; [apply Permutation_sym, ZSort.Permuted_sort|exact Hperm].
Qed.

Lemma one_to_five_sorted : StronglySorted Z.le [1; 2; 3; 4; 5].
Proof. repeat constructor; lia. Qed.

End AnalysisFacts.

(** C7.  For records whose days have 1, 2, 3, 4 and 5 loads, in whatever
    order the days are listed, the statistics of the loads-per-day column
    are: minimum 1, maximum 5, median 3, mean 3, five values, none
    missing. *)
Theorem favstats_of_one_to_five (df : DataFrame) :
  Permutation (Analysis.column Analysis.loads (Analysis.daily_stats df))
    [Some 1; Some 2; Some 3; Some 4; Some 5] ->
  let stats := fst (Analysis.calculate_favstats df) in
  Analysis.st_min stats = Some 1
  /\ Analysis.st_max stats = Some 5
  /\ (exists m, Analysis.st_median stats = Some m /\ Qeq m (inject_Z 3))
  /\ (exists m, Analysis.st_mean stats = Some m /\ Qeq m (inject_Z 3))
  /\ Analysis.st_n stats = 5%nat
  /\ Analysis.st_missing stats = 0%nat.
Proof.
  intros Hperm stats. subst stats.
  unfold Analysis.calculate_favstats. cbn [fst].
  set (data := Analysis.column Analysis.loads (Analysis.daily_stats df)) in *.
  assert (Hvalues : Permutation (Analysis.non_null data) [1; 2; 3; 4; 5])
    by apply (AnalysisFacts.non_null_perm _ _ Hperm).
  assert (Hsome : Forall (fun x : option Z => x <> None) data).
  { apply (Permutation_Forall (Permutation_sym Hperm)).
    repeat constructor; discriminate. }
  destruct (AnalysisFacts.no_nulls data Hsome) as [Harray Hnulls].
  unfold Analysis.get_stats.
  cbn [Analysis.st_min Analysis.st_max Analysis.st_median Analysis.st_mean
       Analysis.st_n Analysis.st_missing].
  unfold Analysis.series_min, Analysis.series_max, Analysis.series_mean,
    Analysis.np_median.
  rewrite Harray.
  assert (Hlen : length (Analysis.non_null data) = 5%nat)
    by apply (Permutation_length Hvalues).
  assert (Hsum : Analysis.sum_Z (Analysis.non_null data) = 15)
    by apply (AnalysisFacts.sum_Z_perm _ _ Hvalues).
  assert (Hsort : ZSort.sort (Analysis.non_null data) = [1; 2; 3; 4; 5])
    by (apply AnalysisFacts.sort_of_perm;
        [apply AnalysisFacts.one_to_five_sorted | exact Hvalues]).
  unfold Analysis.median.
  destruct (Analysis.non_null data) as [|x xs] eqn:E;
    [discriminate Hlen|].
  cbv beta iota. rewrite Hsort, Hsum, Hlen.
  assert (Hin : forall y, In y (x :: xs) <-> In y [1; 2; 3; 4; 5]).
  { intros y. split; apply Permutation_in;
      [exact Hvalues | exact (Permutation_sym Hvalues)]. }
  destruct (AnalysisFacts.fold_min_least xs x) as [Hmin_in Hmin_le].
  destruct (AnalysisFacts.fold_max_greatest xs x) as [Hmax_in Hmax_ge].
  apply Hin in Hmin_in. apply Hin in Hmax_in.
  assert (H1 : fold_left Z.min xs x <= 1)
    by (apply Hmin_le, Hin; simpl; tauto).
  assert (H5 : 5 <= fold_left Z.max xs x)
    by (apply Hmax_ge, Hin; simpl; tauto).
  repeat split.
  - f_equal. simpl in Hmin_in. lia.
  - f_equal. simpl in Hmax_in. lia.
  - eexists. split; reflexivity.
  - eexists. split; reflexivity.
  - apply (Permutation_length Hperm).
  - exact Hnulls.
Qed.

Lemma favstats_of_one_to_five_witness :
  let stats := fst (Analysis.calculate_favstats Sample.five_days) in
  Analysis.st_min stats = Some 1
  /\ Analysis.st_max stats = Some 5
  /\ (exists m, Analysis.st_median stats = Some m /\ Qeq m (inject_Z 3))
  /\ (exists m, Analysis.st_mean stats = Some m /\ Qeq m (inject_Z 3))
  /\ Analysis.st_n stats = 5%nat
  /\ Analysis.st_missing stats = 0%nat.
Proof.
  apply (favstats_of_one_to_five Sample.five_days).
  apply perm_swap.
Defined.


(** * Further properties *)

(** ** What the patterns return *)

Module PatternFacts.
Import Text.
#[local] Open Scope string_scope.

Lemma strip_prefix_sound (lit : string) :
  forall s r, strip_prefix lit s = Some r -> s = lit ++ r.
Proof.
  induction lit as [|a lit IH]; intros s r; cbn [strip_prefix].
  - now intros [= ->].
  - destruct s as [|b s]; [discriminate|].
    destruct (Ascii.eqb_spec a b) as [->|_]; [|discriminate].
    intros H. cbn [append]. now rewrite (IH _ _ H).
Qed.

Lemma strip_prefix_app (lit : string) :
  forall s r t,
    strip_prefix lit s = Some r -> strip_prefix lit (s ++ t) = Some (r ++ t).
Proof.
  induction lit as [|a lit IH]; intros s r t; cbn [strip_prefix].
  - now intros [= ->].
  - destruct s as [|b s]; [discriminate|]. cbn [append].
    destruct (Ascii.eqb a b); [|discriminate]. apply IH.
Qed.

Lemma occurs_app_left (lit s t : string) :
  occurs lit (s ++ t) = false -> occurs lit s = false.
Proof.
  induction s as [|c s IH]; cbn [append].
  - intros H. cbn [occurs].
    destruct (strip_prefix lit "") as [r|] eqn:E; [|reflexivity].
    apply (strip_prefix_app lit "" r t) in E. cbn [append] in E.
    destruct t as [|c t]; cbn [occurs] in H; rewrite E in H; discriminate.
  - intros H. cbn [occurs] in *.
    destruct (strip_prefix lit (String c s)) as [r|] eqn:E.
    + apply (strip_prefix_app lit _ r t) in E. cbn [append] in E.
      rewrite E in H. discriminate.
    + destruct (strip_prefix lit (String c (s ++ t))); [discriminate|].
      now apply IH.
Qed.

(** The lazy group: what it returns stands in front of the delimiter, on
    one line, and the delimiter does not stand inside it. *)
Lemma lazy_until_sound (delim : string) :
  is_empty delim = false ->
  forall s g,
    lazy_until delim s = Some g ->
    (exists rest, s = g ++ delim ++ rest)
    /\ one_line g = true
    /\ occurs delim g = false.
Proof.
  intros Hdelim.
  assert (Hnil : occurs delim "" = false)
    by (destruct delim; [discriminate|reflexivity]).
  intros s. induction s as [|c s IH]; intros g; cbn [lazy_until].
  - destruct (strip_prefix delim "") as [r|] eqn:E; [|discriminate].
    intros [= <-]. apply strip_prefix_sound in E.
    split; [exists r; exact E|]. now split.
  - destruct (strip_prefix delim (String c s)) as [r|] eqn:E.
    + intros [= <-]. apply strip_prefix_sound in E.
      split; [exists r; exact E|]. now split.
    + destruct (Ascii.eqb c newline) eqn:Enl; [discriminate|].
      destruct (lazy_until delim s) as [g'|] eqn:Eg; [|discriminate].
      cbn [option_map]. intros [= <-].
      destruct (IH g' eq_refl) as [[rest Hs] [Hline Hocc]].
      split; [exists rest; cbn [append]; now rewrite <- Hs|].
      split.
      * unfold one_line in *. cbn [all_chars]. now rewrite Enl, Hline.
      * cbn [occurs]. rewrite Hocc.
        destruct (strip_prefix delim (String c g')) as [r|] eqn:E';
          [|reflexivity].
        apply (strip_prefix_app delim _ r (delim ++ rest)) in E'.
        cbn [append] in E'. rewrite <- Hs, E in E'. discriminate.
Qed.

(** [re.search]: the group it returns stands in the text between the
    literal and the delimiter. *)
Lemma search_between_sound (lit delim : string) :
  is_empty delim = false ->
  forall s g,
    search_between lit delim s = Some g ->
    (exists pre rest, s = pre ++ lit ++ g ++ delim ++ rest)
    /\ one_line g = true
    /\ occurs delim g = false.
Proof.
  intros Hdelim s. induction s as [|c s IH]; intros g; cbn [search_between].
  - destruct (strip_prefix lit "") as [r|] eqn:E.
    + destruct (lazy_until delim r) as [g'|] eqn:Eg; [|discriminate].
      intros [= <-]. apply strip_prefix_sound in E.
      destruct (lazy_until_sound delim Hdelim _ _ Eg) as [[rest ->] Hg].
      split; [exists "", rest; exact E | exact Hg].
    + discriminate.
  - destruct (match strip_prefix lit (String c s) with
              | Some rest => lazy_until delim rest
              | None => None
              end) as [g'|] eqn:Ehere.
    + intros [= <-].
      destruct (strip_prefix lit (String c s)) as [r|] eqn:E;
        [|discriminate].
      apply strip_prefix_sound in E.
      destruct (lazy_until_sound delim Hdelim _ _ Ehere) as [[rest ->] Hg].
      split; [exists "", rest; exact E | exact Hg].
    + intros H. destruct (IH g H) as [[pre [rest ->]] Hg].
      split; [now exists (String c pre), rest | exact Hg].
Qed.

(** Without the literal, or without the delimiter, nothing is found. *)
Lemma search_between_no_literal (lit delim s : string) :
  occurs lit s = false -> search_between lit delim s = None.
Proof.
  induction s as [|c s IH]; cbn [occurs search_between].
  - destruct (strip_prefix lit ""); [discriminate|reflexivity].
  - destruct (strip_prefix lit (String c s)); [discriminate|]. exact IH.
Qed.

Lemma lazy_until_no_delimiter (delim s : string) :
  occurs delim s = false -> lazy_until delim s = None.
Proof.
  induction s as [|c s IH]; cbn [occurs lazy_until].
  - destruct (strip_prefix delim ""); [discriminate|reflexivity].
  - destruct (strip_prefix delim (String c s)); [discriminate|].
    intros H. destruct (Ascii.eqb c newline); [reflexivity|].
    now rewrite (IH H).
Qed.

Lemma occurs_after_prefix (delim lit : string) :
  forall s r,
    strip_prefix lit s = Some r -> occurs delim s = false ->
    occurs delim r = false.
Proof.
  induction lit as [|a lit IH]; intros s r; cbn [strip_prefix].
  - now intros [= ->].
  - destruct s as [|b s]; [discriminate|].
    destruct (Ascii.eqb a b); [|discriminate].
    intros Hr Hocc. apply (IH s r Hr).
    cbn [occurs] in Hocc.
    now destruct (strip_prefix delim (String b s)).
Qed.

Lemma search_between_no_delimiter (lit delim s : string) :
  occurs delim s = false -> search_between lit delim s = None.
Proof.
  induction s as [|c s IH]; cbn [search_between]; intros Hocc.
  - destruct (strip_prefix lit "") as [r|] eqn:E; [|reflexivity].
    now rewrite (lazy_until_no_delimiter _ _
                   (occurs_after_prefix delim lit _ _ E Hocc)).
  - destruct (strip_prefix lit (String c s)) as [r|] eqn:E.
    + rewrite (lazy_until_no_delimiter _ _
                 (occurs_after_prefix delim lit _ _ E Hocc)).
      apply IH. cbn [occurs] in Hocc.
      now destruct (strip_prefix delim (String c s)).
    + apply IH. cbn [occurs] in Hocc.
      now destruct (strip_prefix delim (String c s)).
Qed.

End PatternFacts.


(** X1.  A file name that the file-name pattern finds stands in the text
    between "loaded: " and " (", on one line, and holds no " ("; a
    destination that the destination pattern finds stands between "into "
    and ":", on one line, and holds no colon. *)
Theorem extracted_names_stand_in_text (txt g : string) :
  (Text.filename_match txt = Some g ->
   (exists pre rest,
      txt = (pre ++ "loaded: " ++ g ++ " (" ++ rest)%string)
   /\ one_line g = true /\ Text.occurs " (" g = false)
  /\ (Text.dest_match txt = Some g ->
      (exists pre rest,
         txt = (pre ++ "into " ++ g ++ ":" ++ rest)%string)
      /\ one_line g = true /\ Text.occurs ":" g = false).
Proof.
  split; apply PatternFacts.search_between_sound; reflexivity.
Qed.

Lemma extracted_names_stand_in_text_witness :
  (exists pre rest,
     Sample.notification
     = (pre ++ "loaded: " ++ "foo.csv" ++ " (" ++ rest)%string)
  /\ one_line "foo.csv" = true /\ Text.occurs " (" "foo.csv" = false.
Proof.
  apply (proj1 (extracted_names_stand_in_text Sample.notification "foo.csv")).
  reflexivity.
Defined.

(** X2.  A text without "loaded: ", or without " (", gets the file name
    "Unknown"; a text without "into ", or without a colon, gets the
    destination "Unknown". *)
Theorem names_default_to_unknown (txt : string) :
  (Text.occurs "loaded: " txt = false \/ Text.occurs " (" txt = false ->
   filename_of txt = "Unknown")
  /\ (Text.occurs "into " txt = false \/ Text.occurs ":" txt = false ->
      destination_of txt = "Unknown").
Proof.
  unfold filename_of, destination_of, Text.filename_match, Text.dest_match.
  split; intros [H|H].
  - now rewrite PatternFacts.search_between_no_literal.
  - now rewrite PatternFacts.search_between_no_delimiter.
  - now rewrite PatternFacts.search_between_no_literal.
  - now rewrite PatternFacts.search_between_no_delimiter.
Qed.

Lemma names_default_to_unknown_witness :
  filename_of "orders: 150 rows" = "Unknown"
  /\ destination_of "loaded: foo.csv (bar) to warehouse" = "Unknown".
Proof.
  split.
  - apply (proj1 (names_default_to_unknown "orders: 150 rows")).
    left. reflexivity.
  - apply (proj2 (names_default_to_unknown
                    "loaded: foo.csv (bar) to warehouse")).
    left. reflexivity.
Defined.


Module TableFacts.
Import Text.
#[local] Open Scope string_scope.

Lemma span_sound (p : ascii -> bool) (s : string) :
  s = fst (span p s) ++ snd (span p s).
Proof.
  induction s as [|c s IH]; cbn [span]; [reflexivity|].
  destruct (p c); [|reflexivity].
  destruct (span p s) as [a b]. cbn [fst snd append] in *. now f_equal.
Qed.

Lemma span_fst_all (p : ascii -> bool) (s : string) :
  all_chars p (fst (span p s)) = true.
Proof.
  induction s as [|c s IH]; cbn [span]; [reflexivity|].
  destruct (p c) eqn:E; [|reflexivity].
  destruct (span p s) as [a b]. cbn [fst all_chars] in *. now rewrite E.
Qed.

(** A match of the table pattern: the text starts with the table name, a
    colon, whitespace, the digits, whitespace and "rows". *)
Lemma match_table_at_sound (s tbl digits : string) (n : nat) :
  match_table_at s = Some (tbl, digits, n) ->
  (exists ws1 ws2 rest,
     s = tbl ++ ":" ++ ws1 ++ digits ++ ws2 ++ "rows" ++ rest
     /\ all_chars is_space ws1 = true /\ all_chars is_space ws2 = true)
  /\ is_empty tbl = false /\ all_chars is_table_char tbl = true
  /\ is_empty digits = false /\ all_chars is_digit digits = true.
Proof.
  unfold match_table_at.
  pose proof (span_sound is_table_char s) as H1.
  pose proof (span_fst_all is_table_char s) as A1.
  destruct (span is_table_char s) as [tbl0 r1]. cbn [fst snd] in H1, A1.
  destruct (is_empty tbl0) eqn:Etbl; [discriminate|].
  destruct (strip_prefix ":" r1) as [r2|] eqn:E2; [|discriminate].
  apply PatternFacts.strip_prefix_sound in E2.
  pose proof (span_sound is_space r2) as H3.
  pose proof (span_fst_all is_space r2) as A3.
  destruct (span is_space r2) as [ws1 r3]. cbn [fst snd] in H3, A3.
  pose proof (span_sound is_digit r3) as H4.
  pose proof (span_fst_all is_digit r3) as A4.
  destruct (span is_digit r3) as [digits0 r4]. cbn [fst snd] in H4, A4.
  destruct (is_empty digits0) eqn:Edig; [discriminate|].
  pose proof (span_sound is_space r4) as H5.
  pose proof (span_fst_all is_space r4) as A5.
  destruct (span is_space r4) as [ws2 r5]. cbn [fst snd] in H5, A5.
  destruct (strip_prefix "rows" r5) as [rest|] eqn:E6; [|discriminate].
  apply PatternFacts.strip_prefix_sound in E6.
  intros [= <- <- _].
  split; [|now repeat split].
  exists ws1, ws2, rest. split; [|now split].
  rewrite H1, E2, H3, H4, H5, E6. reflexivity.
Qed.

(** Every pair that [findall] returns is a match at some place of the
    text. *)
Lemma findall_from_sound (s : string) :
  forall skip p,
    In p (findall_from skip s) ->
    exists pre suf n,
      s = pre ++ suf /\ match_table_at suf = Some (fst p, snd p, n).
Proof.
  induction s as [|c s IH]; intros skip p; cbn [findall_from].
  - intros [].
  - assert (Hlater : forall k, In p (findall_from k s) ->
                       exists pre suf n,
                         String c s = pre ++ suf
                         /\ match_table_at suf = Some (fst p, snd p, n)).
    { intros k Hk. destruct (IH k p Hk) as [pre [suf [n [-> Hm]]]].
      now exists (String c pre), suf, n. }
    destruct skip as [|k]; [|apply Hlater].
    destruct (match_table_at (String c s)) as [[[tbl digits] n]|] eqn:E;
      [|apply Hlater].
    intros [<-|Hp]; [|now apply Hlater in Hp].
    now exists "", (String c s), n.
Qed.

Lemma digit_value_range (c : ascii) :
  is_digit c = true -> 0 <= digit_value c <= 9.
Proof.
  unfold is_digit, in_range, digit_value. intros H.
  apply andb_true_iff in H as [Hlo Hhi].
  apply N.leb_le in Hlo, Hhi. lia.
Qed.

Lemma int_acc_nonneg (s : string) :
  forall acc, 0 <= acc -> all_chars is_digit s = true -> 0 <= int_acc acc s.
Proof.
  induction s as [|c s IH]; intros acc Hacc Hs; cbn [int_acc]; [exact Hacc|].
  cbn [all_chars] in Hs. apply andb_true_iff in Hs as [Hc Hs].
  pose proof (digit_value_range c Hc).
  apply IH; [lia | exact Hs].
Qed.

End TableFacts.

(** ** The table pattern against its regular expression *)

Module ScanFacts.
Import Text.
#[local] Open Scope string_scope.

Lemma span_none (p : ascii -> bool) (c : ascii) (r : string) :
  p c = false -> span p (String c r) = (EmptyString, String c r).
Proof. intros H. cbn [span]. now rewrite H. Qed.

(** A run inside the class, followed by a text that starts outside it, is
    what [span] takes. *)
Lemma span_run (p : ascii -> bool) (x y : string) :
  all_chars p x = true -> span p y = (EmptyString, y) ->
  span p (x ++ y) = (x, y).
Proof.
  intros Hx Hy. induction x as [|c x IH]; cbn [append span].
  - exact Hy.
  - cbn [all_chars] in Hx. apply andb_true_iff in Hx as [Hc Hx].
    now rewrite Hc, (IH Hx).
Qed.

Lemma space_not_digit (c : ascii) : is_space c = true -> is_digit c = false.
Proof.
  intros Hs. destruct (is_digit c) eqn:Hd; [|reflexivity].
  apply TextFacts.digit_not_space in Hd. congruence.
Qed.

(** Whitespace followed by "rows" starts outside the digits. *)
Lemma span_digit_stops (ws2 rest : string) :
  all_chars is_space ws2 = true ->
  span is_digit (ws2 ++ "rows" ++ rest)
  = (EmptyString, ws2 ++ "rows" ++ rest).
Proof.
  destruct ws2 as [|c ws2]; intros H.
  - reflexivity.
  - cbn [all_chars] in H. apply andb_true_iff in H as [Hc _].
    cbn [append]. apply span_none. now apply space_not_digit.
Qed.

(** Where the pattern matches as the regular expression words it, the
    matcher finds that match: its groups and its length. *)
Lemma match_table_at_complete (tbl ws1 digits ws2 rest : string) :
  is_empty tbl = false -> all_chars is_table_char tbl = true ->
  all_chars is_space ws1 = true ->
  is_empty digits = false -> all_chars is_digit digits = true ->
  all_chars is_space ws2 = true ->
  match_table_at ((tbl ++ ":" ++ ws1 ++ digits ++ ws2 ++ "rows") ++ rest)
  = Some (tbl, digits,
          String.length (tbl ++ ":" ++ ws1 ++ digits ++ ws2 ++ "rows")).
Proof.
  intros Htbl Hta Hw1 Hdig Hda Hw2.
  assert (Hshape :
    (tbl ++ ":" ++ ws1 ++ digits ++ ws2 ++ "rows") ++ rest
    = tbl ++ String ":" (ws1 ++ digits ++ ws2 ++ "rows" ++ rest)).
  { rewrite !TextFacts.string_app_assoc. reflexivity. }
  rewrite Hshape. unfold match_table_at.
  rewrite (span_run is_table_char tbl _ Hta)
    by (apply span_none; reflexivity).
  rewrite Htbl. rewrite TextFacts.strip_colon_cons.
  change (Ascii.eqb ":" ":") with true. cbv iota.
  assert (Hd1 : span is_space (digits ++ ws2 ++ "rows" ++ rest)
                = (EmptyString, digits ++ ws2 ++ "rows" ++ rest)).
  { destruct digits as [|d digits]; [discriminate Hdig|].
    cbn [all_chars] in Hda. apply andb_true_iff in Hda as [Hd _].
    cbn [append]. apply span_none. now apply TextFacts.digit_not_space. }
  rewrite (span_run is_space ws1 _ Hw1 Hd1).
  rewrite (span_run is_digit digits _ Hda (span_digit_stops ws2 rest Hw2)).
  rewrite Hdig.
  rewrite (span_run is_space ws2 ("rows" ++ rest) Hw2)
    by (apply span_none; reflexivity).
  change (strip_prefix "rows" ("rows" ++ rest)) with (Some rest).
  cbv iota. do 2 f_equal.
  rewrite !TextFacts.string_length_app. cbn [String.length]. lia.
Qed.

(** What the matcher finds is a match as the regular expression words
    it, and the length it reports is that of the match. *)
Lemma match_table_at_spec (s tbl digits : string) (n : nat) :
  match_table_at s = Some (tbl, digits, n) ->
  exists ws1 ws2 rest,
    s = (tbl ++ ":" ++ ws1 ++ digits ++ ws2 ++ "rows") ++ rest
    /\ n = String.length (tbl ++ ":" ++ ws1 ++ digits ++ ws2 ++ "rows")
    /\ pattern_matches s tbl digits rest.
Proof.
  intros Hm.
  destruct (TableFacts.match_table_at_sound _ _ _ _ Hm)
    as [[ws1 [ws2 [rest [Hs [Hw1 Hw2]]]]] [Ht [Hta [Hd Hda]]]].
  assert (Hshape :
    s = (tbl ++ ":" ++ ws1 ++ digits ++ ws2 ++ "rows") ++ rest).
  { rewrite Hs, !TextFacts.string_app_assoc. reflexivity. }
  exists ws1, ws2, rest. split; [exact Hshape|]. split.
  - pose proof (match_table_at_complete tbl ws1 digits ws2 rest
                  Ht Hta Hw1 Hd Hda Hw2) as Hc.
    rewrite <- Hshape, Hm in Hc. now injection Hc.
  - exists ws1, ws2. repeat split; assumption.
Qed.

Lemma pattern_matches_found (s tbl digits rest : string) :
  pattern_matches s tbl digits rest ->
  exists matched,
    s = matched ++ rest
    /\ match_table_at s = Some (tbl, digits, String.length matched)
    /\ (0 < String.length matched)%nat.
Proof.
  intros [ws1 [ws2 [-> [Ht [Hta [Hw1 [Hd [Hda Hw2]]]]]]]].
  exists (tbl ++ ":" ++ ws1 ++ digits ++ ws2 ++ "rows").
  split; [reflexivity|]. split.
  - now apply match_table_at_complete.
  - destruct tbl; [discriminate Ht|]. cbn [append String.length]. lia.
Qed.

(** Behind a match the scan goes on with what follows it. *)
Lemma findall_skip (matched rest : string) :
  findall_from (String.length matched) (matched ++ rest)
  = findall_from 0 rest.
Proof.
  induction matched as [|c matched IH]; cbn [String.length append].
  - now destruct rest.
  - cbn [findall_from]. exact IH.
Qed.

(** The pairs that the matcher returns are found by the scan that the
    documentation of [re.findall] describes. *)
Lemma findall_from_scan (n : nat) :
  forall s, (String.length s <= n)%nat -> findall_spec s (findall_from 0 s).
Proof.
  induction n as [|n IH]; intros s Hlen.
  - destruct s; [constructor|cbn [String.length] in Hlen; lia].
  - destruct s as [|c s]; [constructor|].
    cbn [String.length] in Hlen. cbn [findall_from].
    destruct (match_table_at (String c s)) as [[[tbl digits] k]|] eqn:Hm.
    + destruct (match_table_at_spec _ _ _ _ Hm)
        as [ws1 [ws2 [rest [Hs [Hk Hpm]]]]].
      apply scan_match with rest; [exact Hpm|].
      remember (tbl ++ ":" ++ ws1 ++ digits ++ ws2 ++ "rows") as matched
        eqn:Ematched.
      destruct matched as [|c' tail].
      { destruct tbl; [|discriminate Ematched].
        destruct Hpm as [_ [_ [_ [Hne _]]]]. discriminate Hne. }
      cbn [append] in Hs. injection Hs as -> ->.
      subst k.
      replace (String.length (String c' tail) - 1)%nat
        with (String.length tail) by (cbn [String.length]; lia).
      rewrite findall_skip. apply IH.
      rewrite TextFacts.string_length_app in Hlen. lia.
    + apply scan_pass; [|apply IH; lia].
      intros tbl digits rest Hpm.
      destruct (pattern_matches_found _ _ _ _ Hpm) as [m [_ [Hfound _]]].
      rewrite Hm in Hfound. discriminate Hfound.
Qed.

(** That scan has one result only. *)
Lemma findall_spec_unique (s : string) (pairs : list (string * string)) :
  findall_spec s pairs -> pairs = findall_from 0 s.
Proof.
  induction 1 as [|c s pairs Hnone _ IH|s tbl digits rest pairs Hpm _ IH].
  - reflexivity.
  - cbn [findall_from].
    destruct (match_table_at (String c s)) as [[[tbl digits] k]|] eqn:Hm;
      [|exact IH].
    destruct (match_table_at_spec _ _ _ _ Hm) as [_ [_ [rest [_ [_ Hpm]]]]].
    now destruct (Hnone _ _ _ Hpm).
  - destruct (pattern_matches_found _ _ _ _ Hpm)
      as [matched [-> [Hfound Hpos]]].
    destruct matched as [|c matched]; [cbn in Hpos; lia|].
    cbn [append] in *. cbn [findall_from]. rewrite Hfound.
    replace (String.length (String c matched) - 1)%nat
      with (String.length matched) by (cbn [String.length]; lia).
    rewrite findall_skip. now f_equal.
Qed.

(** The number that digits spell: each further digit multiplies what
    stands before it by ten. *)
Lemma int_snoc (digits : string) (c : ascii) :
  int (digits ++ String c EmptyString) = int digits * 10 + digit_value c.
Proof.
  unfold int. generalize 0 as acc.
  induction digits as [|d digits IH]; intros acc; cbn [append int_acc].
  - reflexivity.
  - apply IH.
Qed.

End ScanFacts.

(** C1.  A message without an attachment carrying the marker pretext
    contributes nothing.  A message whose timestamp converts contributes,
    for each attachment carrying the marker, one record per
    [table: N rows] pair matched in the attachment's text, in order; every
    such record has the message's timestamp and the file name and the
    destination extracted from that text; a text without pairs gives no
    record.  The matched pairs are those of the regular expression: the
    scan of the text from left to right, as [re.findall] is documented,
    has exactly one result, and the records of the text are one per pair
    of that result, with the pair's table name and the number that its
    digits spell. *)
Theorem extractor_one_record_per_pair
    (fromtimestamp_float : string -> option datetime)
    (msg : message) (all_rows : list LoadRecord) :
  (carries_marker msg = false ->
   process_message fromtimestamp_float all_rows msg = (all_rows, Normal))
  /\ (forall s t,
        ts msg = Some s -> fromtimestamp_float s = Some t ->
        process_message fromtimestamp_float all_rows msg
        = (all_rows ++ spec_records_of_message t msg, Normal)
        /\ (carries_marker msg = false -> spec_records_of_message t msg = [])
        /\ forall txt,
             length (spec_records_of_text t txt)
             = length (Text.table_data txt)
             /\ map (fun r => (table r, rows r)) (spec_records_of_text t txt)
                = map (fun p => (fst p, Text.int (snd p)))
                      (Text.table_data txt)
             /\ Forall (fun r => timestamp r = t
                                 /\ filename r = filename_of txt
                                 /\ destination r = destination_of txt)
                       (spec_records_of_text t txt)
             /\ (Text.table_data txt = [] -> spec_records_of_text t txt = [])
             /\ (exists pairs, Text.findall_spec txt pairs)
             /\ (forall pairs,
                   Text.findall_spec txt pairs ->
                   pairs = Text.table_data txt
                   /\ process_message fromtimestamp_float all_rows
                        (mkMessage (Some s)
                           (Some [mkAttachment (Some "ETL Notification")
                                    (Some txt)]))
                      = (all_rows
                         ++ map (fun p =>
                                   mkLoad t (filename_of txt)
                                     (destination_of txt)
                                     (fst p) (Text.int (snd p)))
                                pairs,
                         Normal)))
  /\ Text.int "" = 0
  /\ (forall digits c,
        Text.int (digits ++ String c "")
        = Text.int digits * 10 + Text.digit_value c).
Proof.
  split; [apply process_message_other|]. split.
  - intros s t Hs Ht. split; [|split].
    + now apply process_message_ok with (s := s).
    + apply spec_records_without_marker.
    + intros txt. unfold spec_records_of_text.
      split; [apply length_map|].
      split; [rewrite map_map; reflexivity|].
      split.
      { apply Forall_forall. intros r Hr.
        apply in_map_iff in Hr as [p [<- _]]. now simpl. }
      split; [intros ->; reflexivity|].
      split.
      { exists (Text.table_data txt).
        apply (ScanFacts.findall_from_scan (String.length txt)). lia. }
      intros pairs Hscan.
      apply ScanFacts.findall_spec_unique in Hscan.
      split; [exact Hscan|].
      rewrite (process_message_ok fromtimestamp_float _ s t all_rows)
        by (reflexivity || exact Ht).
      unfold spec_records_of_message, spec_records_of_text.
      cbn [attachments flat_map is_etl_notification pretext text_of text].
      change (String.eqb "ETL Notification" "ETL Notification") with true.
      cbv iota. rewrite app_nil_r. now rewrite Hscan.
  - split; [reflexivity|]. intros digits c. apply ScanFacts.int_snoc.
Qed.

Lemma extractor_one_record_per_pair_witness :
  ts (Sample.etl_message Sample.notification) = Some Sample.slack_ts
  /\ Sample.clock Sample.slack_ts = Some Sample.new_year_2024
  /\ Text.findall_spec Sample.notification
       [("orders", "150"); ("customers", "30")]
  /\ process_message Sample.clock [] (Sample.etl_message Sample.notification)
     = ([] ++ [mkLoad Sample.new_year_2024 "foo.csv" "warehouse"
                 "orders" 150;
               mkLoad Sample.new_year_2024 "foo.csv" "warehouse"
                 "customers" 30],
        Normal).
Proof.
  destruct (proj1 (proj2 (extractor_one_record_per_pair Sample.clock
                            (Sample.etl_message Sample.notification) []))
              Sample.slack_ts Sample.new_year_2024 eq_refl eq_refl)
    as [_ [_ Htxt]].
  destruct (Htxt Sample.notification)
    as [_ [_ [_ [_ [[pairs Hscan] Hpairs]]]]].
  destruct (Hpairs pairs Hscan) as [Heq Hrecords].
  assert (Hfound : pairs = [("orders", "150"); ("customers", "30")])
    by (rewrite Heq; vm_compute; reflexivity).
  subst pairs.
  split; [reflexivity|]. split; [reflexivity|]. split; [exact Hscan|].
  exact Hrecords.
Defined.

(** The fields that a pair of [table_data] gives to its record. *)
Lemma table_pair_fields (txt tbl digits : string) :
  In (tbl, digits) (Text.table_data txt) ->
  Text.is_empty tbl = false
  /\ Text.all_chars Text.is_table_char tbl = true
  /\ 0 <= Text.int digits.
Proof.
  intros Hin.
  destruct (TableFacts.findall_from_sound _ _ _ Hin) as [_ [suf [n [_ Hm]]]].
  destruct (TableFacts.match_table_at_sound _ _ _ _ Hm)
    as [_ [Ht [Hta [_ Hda]]]].
  repeat split; try assumption.
  now apply TableFacts.int_acc_nonneg.
Qed.

(** X3.  Every pair that the table pattern yields stands in the text: a
    non-empty run of [[\w\.]], a colon, whitespace, a non-empty run of
    digits, whitespace and "rows", in this order and with nothing in
    between; and the count read from the digits is not negative. *)
Theorem table_pairs_stand_in_text (txt tbl digits : string) :
  In (tbl, digits) (Text.table_data txt) ->
  (exists pre ws1 ws2 rest,
     txt = (pre ++ tbl ++ ":" ++ ws1 ++ digits ++ ws2 ++ "rows" ++ rest)%string
     /\ Text.all_chars Text.is_space ws1 = true
     /\ Text.all_chars Text.is_space ws2 = true)
  /\ Text.is_empty tbl = false
  /\ Text.all_chars Text.is_table_char tbl = true
  /\ Text.is_empty digits = false
  /\ Text.all_chars Text.is_digit digits = true
  /\ 0 <= Text.int digits.
Proof.
  intros Hin. unfold Text.table_data in Hin.
  destruct (TableFacts.findall_from_sound _ _ _ Hin)
    as [pre [suf [n [-> Hm]]]].
  cbn [fst snd] in Hm.
  destruct (TableFacts.match_table_at_sound _ _ _ _ Hm)
    as [[ws1 [ws2 [rest [-> [Hw1 Hw2]]]]] [Ht [Hta [Hd Hda]]]].
  split; [now exists pre, ws1, ws2, rest|].
  repeat split; try assumption.
  now apply TableFacts.int_acc_nonneg.
Qed.

Lemma table_pairs_stand_in_text_witness :
  (exists pre ws1 ws2 rest,
     Sample.notification
     = (pre ++ "customers" ++ ":" ++ ws1 ++ "30" ++ ws2 ++ "rows" ++ rest)%string
     /\ Text.all_chars Text.is_space ws1 = true
     /\ Text.all_chars Text.is_space ws2 = true)
  /\ Text.is_empty "customers" = false
  /\ Text.all_chars Text.is_table_char "customers" = true
  /\ Text.is_empty "30" = false
  /\ Text.all_chars Text.is_digit "30" = true
  /\ 0 <= Text.int "30".
Proof.
  apply (table_pairs_stand_in_text Sample.notification "customers" "30").
  right. left. reflexivity.
Defined.


(** ** The shape of the records *)

Lemma filename_of_shape (txt : string) :
  one_line (filename_of txt) = true
  /\ Text.occurs " (" (filename_of txt) = false.
Proof.
  unfold filename_of, Text.filename_match.
  destruct (Text.search_between "loaded: " " (" txt) as [g|] eqn:E.
  - now destruct (PatternFacts.search_between_sound "loaded: " " ("
                    eq_refl _ _ E) as [_ H].
  - now split.
Qed.

Lemma destination_of_shape (txt : string) :
  one_line (destination_of txt) = true
  /\ Text.occurs ":" (destination_of txt) = false.
Proof.
  unfold destination_of, Text.dest_match.
  destruct (Text.search_between "into " ":" txt) as [g|] eqn:E.
  - now destruct (PatternFacts.search_between_sound "into " ":"
                    eq_refl _ _ E) as [_ H].
  - now split.
Qed.

Lemma spec_records_of_text_well_formed (t : datetime) (txt : string) :
  Forall well_formed (spec_records_of_text t txt).
Proof.
  unfold spec_records_of_text. apply Forall_forall. intros r Hr.
  apply in_map_iff in Hr as [[tbl digits] [<- Hp]].
  destruct (table_pair_fields _ _ _ Hp) as [Ht [Hta Hint]].
  destruct (filename_of_shape txt) as [Hf1 Hf2].
  destruct (destination_of_shape txt) as [Hd1 Hd2].
  unfold well_formed. cbn. repeat split; assumption.
Qed.

(** A loop whose body keeps a property of [all_rows] keeps it. *)
Lemma for_each_keeps {A : Type} (P : LoadRecord -> Prop)
    (body : list LoadRecord -> A -> list LoadRecord * status) :
  (forall all_rows x, Forall P all_rows -> Forall P (fst (body all_rows x))) ->
  forall xs all_rows,
    Forall P all_rows -> Forall P (fst (for_each body xs all_rows)).
Proof.
  intros Hbody. induction xs as [|x xs IH]; intros all_rows Hrows;
    cbn [for_each]; [exact Hrows|].
  specialize (Hbody all_rows x Hrows).
  destruct (body all_rows x) as [rows' [|e]]; cbn [fst] in *.
  - now apply IH.
  - exact Hbody.
Qed.

Section RecordFacts.

Variable fromtimestamp_float : string -> option datetime.
Variable to_posix : datetime -> posix + exn.
Variable World : Type.
Variable conversations_history :
  World -> string -> posix -> posix -> Z -> option string ->
  (response + exn) * World.

Lemma process_messages_well_formed (msgs : list message)
    (all_rows : list LoadRecord) :
  Forall well_formed all_rows ->
  Forall well_formed
    (fst (process_messages fromtimestamp_float msgs all_rows)).
Proof.
  apply for_each_keeps. clear. intros all_rows msg Hrows.
  unfold process_message.
  destruct (attachments msg) as [atts|]; [|exact Hrows].
  revert all_rows Hrows. apply for_each_keeps.
  intros all_rows a Hrows. unfold process_attachment.
  destruct (is_etl_notification a); [|exact Hrows].
  destruct (ts msg) as [s|]; [|exact Hrows].
  destruct (fromtimestamp_float s) as [t|]; [|exact Hrows].
  cbn [fst]. rewrite append_rows_app.
  apply Forall_app. split; [exact Hrows|].
  apply spec_records_of_text_well_formed.
Qed.

Lemma pagination_well_formed (fuel : nat) :
  forall w channel oldest latest cursor all_rows w' rows' evs,
    Forall well_formed all_rows ->
    pagination fromtimestamp_float World conversations_history
      fuel w channel oldest latest cursor all_rows
    = Some (w', rows', evs) ->
    Forall well_formed rows'.
Proof.
  induction fuel as [|fuel IH];
    intros w channel oldest latest cursor all_rows w' rows' evs Hrows;
    cbn [pagination]; [discriminate|].
  destruct (conversations_history w channel oldest latest 1000 cursor)
    as [[r|e] w1].
  - pose proof (process_messages_well_formed (messages r) all_rows Hrows)
      as Hpage.
    destruct (process_messages fromtimestamp_float (messages r) all_rows)
      as [rows1 [|e]]; cbn [fst] in Hpage.
    + destruct (truthy (next_cursor r) && has_more r)%bool.
      * destruct (pagination fromtimestamp_float World conversations_history
                    fuel w1 channel oldest latest (next_cursor r) rows1)
          as [[[w2 rows2] evs2]|] eqn:E; [|discriminate].
        intros [= _ <- _]. exact (IH _ _ _ _ _ _ _ _ _ Hpage E).
      * now intros [= _ <- _].
    + now intros [= _ <- _].
  - now intros [= _ <- _].
Qed.

Lemma fetch_slack_chunk_well_formed (fuel : nat) (w : World)
    (channel : string) (oldest latest : posix) (w' : World)
    (all_rows : list LoadRecord) (evs : list event) :
  fetch_slack_chunk fromtimestamp_float World conversations_history
    fuel w channel oldest latest
  = Some (w', all_rows, evs) ->
  Forall well_formed all_rows.
Proof.
  unfold fetch_slack_chunk.
  destruct (pagination fromtimestamp_float World conversations_history
              fuel w channel oldest latest None [])
    as [[[w1 rows1] evs1]|] eqn:E; [|discriminate].
  intros [= _ <- _].
  exact (pagination_well_formed _ _ _ _ _ _ _ _ _ _ (Forall_nil _) E).
Qed.

Lemma run_tasks_well_formed (fuel : nat) (chunks : list (posix * posix))
    (order : list nat) :
  forall w w' done evs,
    run_tasks fromtimestamp_float World conversations_history
      fuel order chunks w
    = Some (w', done, evs) ->
    Forall (fun p => Forall well_formed (snd p)) done.
Proof.
  induction order as [|i order IH]; intros w w' done evs; cbn [run_tasks].
  - intros [= _ <- _]. constructor.
  - destruct (nth_error chunks i) as [[oldest latest]|]; [|apply IH].
    destruct (fetch_slack_chunk fromtimestamp_float World
                conversations_history fuel w channel oldest latest)
      as [[[w1 rows1] evs1]|] eqn:Efetch; [|discriminate].
    destruct (run_tasks fromtimestamp_float World conversations_history
                fuel order chunks w1)
      as [[[w2 done2] evs2]|] eqn:Erest; [|discriminate].
    intros [= _ <- _]. constructor.
    + exact (fetch_slack_chunk_well_formed _ _ _ _ _ _ _ _ Efetch).
    + exact (IH _ _ _ _ Erest).
Qed.

Lemma result_of_well_formed (done : list (nat * list LoadRecord)) (i : nat) :
  Forall (fun p => Forall well_formed (snd p)) done ->
  Forall well_formed (result_of done i).
Proof.
  intros Hdone. unfold result_of.
  destruct (find (fun p => Nat.eqb (fst p) i) done) as [p|] eqn:E;
    [|constructor].
  apply find_some in E as [Hin _].
  exact (proj1 (Forall_forall _ _) Hdone p Hin).
Qed.

Lemma executor_map_well_formed (fuel : nat) (order : list nat)
    (chunks : list (posix * posix)) (w w' : World)
    (chunk_results : list (list LoadRecord)) (evs : list event) :
  executor_map fromtimestamp_float World conversations_history
    fuel order chunks w
  = Some (w', chunk_results, evs) ->
  Forall well_formed (concat chunk_results).
Proof.
  unfold executor_map.
  destruct (run_tasks fromtimestamp_float World conversations_history
              fuel order chunks w)
    as [[[w1 done] evs1]|] eqn:E; [|discriminate].
  intros [= _ <- _]. apply run_tasks_well_formed in E.
  apply Forall_concat, Forall_forall. intros rows Hrows.
  apply in_map_iff in Hrows as [i [<- _]].
  now apply result_of_well_formed.
Qed.

End RecordFacts.

(** X4.  Every record that [fetch_slack_chunk] returns, and every record
    of a frame that a fetch without a cache file returns, is well formed:
    its row count is not negative, its table name is a non-empty run of
    [[\w\.]], and its file name and destination stay on one line and hold
    no " (" and no colon respectively. *)
Theorem fetched_records_well_formed
    (fromtimestamp_float : string -> option datetime)
    (to_posix : datetime -> posix + exn) (World : Type)
    (conversations_history :
       World -> string -> posix -> posix -> Z -> option string ->
       (response + exn) * World) :
  (forall fuel w chan oldest latest w' all_rows evs,
     fetch_slack_chunk fromtimestamp_float World conversations_history
       fuel w chan oldest latest
     = Some (w', all_rows, evs) ->
     Forall well_formed all_rows)
  /\ (forall fuel schedule now w fs cache_file start_date end_date
             w' fs' evs df,
        fs cache_file = None ->
        fetch_etl_history fromtimestamp_float to_posix World
          conversations_history fuel schedule now w fs cache_file
          start_date end_date
        = Some (w', fs', evs, Returns (Some df)) ->
        Forall well_formed df).
Proof.
  split.
  - intros fuel w chan oldest latest w' all_rows evs.
    apply fetch_slack_chunk_well_formed.
  - intros fuel schedule now w fs cache_file start_date end_date
           w' fs' evs df Hfs.
    unfold fetch_etl_history. rewrite Hfs.
    destruct (end_time_of now end_date) as [end_time|]; [|discriminate].
    destruct (start_time_of start_date) as [start_time|]; [|discriminate].
    destruct (time_chunks to_posix start_time end_time)
      as [[chunks|e]|]; try discriminate.
    destruct (executor_map _ _ _ _ _ _ _) as [[[w1 chunk_results] evs1]|]
      eqn:Epool; [|discriminate].
    apply executor_map_well_formed in Epool.
    destruct (combine_and_cache fs cache_file chunk_results)
      as [[fs1 evs2] ret] eqn:E.
    intros [= _ _ _ ->].
    assert (Hdf : df = sort_by_timestamp (concat chunk_results))
      by (apply combine_and_cache_frame with fs cache_file; now rewrite E).
    subst df.
    apply (Permutation_Forall
             (Permutation_sym (sort_by_timestamp_perm _))).
    exact Epool.
Qed.

Lemma fetched_records_well_formed_witness :
  Forall well_formed
    (flat_map (page_records Sample.clock) [Sample.first_page]).
Proof.
  eapply (proj1 (fetched_records_well_formed Sample.clock Sample.utc nat
                   Sample.flaky_api)
            5%nat 0%nat channel 0 604800000000).
  vm_compute. reflexivity.
Defined.


(** ** More on the fetcher *)

Section FetcherMore.

Variable fromtimestamp_float : string -> option datetime.
Variable World : Type.
Variable conversations_history :
  World -> string -> posix -> posix -> Z -> option string ->
  (response + exn) * World.

(** A message with the marker and no usable timestamp raises at line 36
    and adds nothing. *)
Lemma attachments_loop_raises (msg : message) (e : exn)
    (atts : list attachment) (all_rows : list LoadRecord) :
  (forall a all_rows', is_etl_notification a = true ->
     process_attachment fromtimestamp_float msg all_rows' a
     = (all_rows', Raised e)) ->
  existsb is_etl_notification atts = true ->
  for_each (process_attachment fromtimestamp_float msg) atts all_rows
  = (all_rows, Raised e).
Proof.
  intros Hraise. induction atts as [|a atts IH]; cbn [existsb for_each];
    [discriminate|].
  destruct (is_etl_notification a) eqn:Ea.
  - intros _. now rewrite (Hraise a all_rows Ea).
  - cbn [orb]. intros H.
    rewrite (process_attachment_other fromtimestamp_float _ _ _ Ea).
    now apply IH.
Qed.

Lemma process_message_raises (msg : message) (all_rows : list LoadRecord) :
  carries_marker msg = true ->
  (ts msg = None ->
   process_message fromtimestamp_float all_rows msg
   = (all_rows, Raised (KeyError "ts")))
  /\ (forall s, ts msg = Some s -> fromtimestamp_float s = None ->
      process_message fromtimestamp_float all_rows msg
      = (all_rows, Raised (ValueError s))).
Proof.
  unfold carries_marker, process_message.
  destruct (attachments msg) as [atts|]; [|discriminate].
  intros Hmark. split.
  - intros Hts. apply attachments_loop_raises; [|exact Hmark].
    intros a rows' Ha. unfold process_attachment. now rewrite Ha, Hts.
  - intros s Hts Hconv. apply attachments_loop_raises; [|exact Hmark].
    intros a rows' Ha. unfold process_attachment.
    now rewrite Ha, Hts, Hconv.
Qed.

(** The loop over the messages of a page stops at the first message that
    raises. *)
Lemma process_messages_stops (before after : list message) (bad : message)
    (e : exn) (all_rows : list LoadRecord) :
  snd (process_messages fromtimestamp_float before []) = Normal ->
  (forall rows', process_message fromtimestamp_float rows' bad
                 = (rows', Raised e)) ->
  process_messages fromtimestamp_float (before ++ bad :: after) all_rows
  = (all_rows ++ fst (process_messages fromtimestamp_float before []),
     Raised e).
Proof.
  intros Hbefore Hbad. unfold process_messages in *.
  revert all_rows Hbefore.
  induction before as [|m before IH]; intros all_rows Hbefore.
  - cbn [app for_each fst]. rewrite Hbad. now rewrite app_nil_r.
  - cbn [app for_each] in *.
    rewrite (process_message_appends fromtimestamp_float all_rows m).
    destruct (process_message fromtimestamp_float [] m) as [r0 [|e0]];
      cbn [fst snd] in *; [|discriminate Hbefore].
    rewrite (for_each_appends _
               (process_message_appends fromtimestamp_float) before r0)
      in Hbefore |- *.
    cbn [fst snd] in *.
    rewrite (IH (all_rows ++ r0) Hbefore).
    now rewrite app_assoc.
Qed.

Lemma pagination_pages_served (channel : string) (oldest latest : posix)
    (w : World) (cursor : option string) (pages : list response)
    (w' : World) :
  pages_served fromtimestamp_float World conversations_history
    channel oldest latest w cursor pages w' ->
  forall fuel all_rows,
    (length pages <= fuel)%nat ->
    pagination fromtimestamp_float World conversations_history
      fuel w channel oldest latest cursor all_rows
    = Some (w',
            all_rows ++ flat_map (page_records fromtimestamp_float) pages,
            served_trace channel oldest latest cursor pages).
Proof.
  induction 1 as [w cursor r w' Hreq Hok Hlast
                 | w cursor r w1 pages w' Hreq Hok Hmore Hrest IH];
    intros fuel all_rows Hfuel.
  - destruct fuel as [|fuel]; [simpl in Hfuel; lia|].
    cbn [pagination]. rewrite Hreq.
    rewrite process_messages_appends, Hok, Hlast.
    cbn [flat_map served_trace]. unfold page_records.
    now rewrite app_nil_r.
  - destruct fuel as [|fuel]; [simpl in Hfuel; lia|].
    cbn [pagination]. rewrite Hreq.
    rewrite process_messages_appends, Hok, Hmore.
    rewrite (IH fuel) by (simpl in Hfuel; lia).
    cbn [flat_map]. unfold page_records at 2.
    rewrite app_assoc.
    destruct pages as [|r' pages]; [inversion Hrest|]. reflexivity.
Qed.

Lemma requests_served_trace (channel : string) (oldest latest : posix)
    (pages : list response) :
  forall cursor,
    length (requests (served_trace channel oldest latest cursor pages))
    = length pages.
Proof.
  induction pages as [|r pages IH]; intros cursor; [reflexivity|].
  destruct pages as [|r' pages]; [reflexivity|].
  change (served_trace channel oldest latest cursor (r :: r' :: pages))
    with (Request channel oldest latest 1000 cursor :: Sleep 2
            :: served_trace channel oldest latest (next_cursor r)
                 (r' :: pages)).
  cbn [requests filter length]. f_equal. apply IH.
Qed.

(** The pause in front of every further request. *)
Lemma paced_after_pause (evs : list event) :
  paced None evs -> paced (Some (Sleep 2)) evs.
Proof.
  destruct evs as [|ev evs]; [trivial|].
  cbn [paced]. intros [_ Hrest]. split; [|exact Hrest].
  destruct ev; auto.
Qed.

Lemma pagination_paced (fuel : nat) :
  forall w channel oldest latest cursor all_rows w' rows' evs,
    pagination fromtimestamp_float World conversations_history
      fuel w channel oldest latest cursor all_rows
    = Some (w', rows', evs) ->
    paced None evs.
Proof.
  induction fuel as [|fuel IH];
    intros w channel oldest latest cursor all_rows w' rows' evs;
    cbn [pagination]; [discriminate|].
  destruct (conversations_history w channel oldest latest 1000 cursor)
    as [[r|e] w1].
  - destruct (process_messages fromtimestamp_float (messages r) all_rows)
      as [rows1 [|e]].
    + destruct (truthy (next_cursor r) && has_more r)%bool.
      * destruct (pagination fromtimestamp_float World conversations_history
                    fuel w1 channel oldest latest (next_cursor r) rows1)
          as [[[w2 rows2] evs2]|] eqn:E; [|discriminate].
        intros [= _ _ <-]. cbn [paced].
        split; [now left|]. split; [trivial|].
        apply paced_after_pause. exact (IH _ _ _ _ _ _ _ _ _ E).
      * intros [= _ _ <-]. cbn [paced]. auto.
    + intros [= _ _ <-]. cbn [paced]. auto.
  - intros [= _ _ <-]. cbn [paced]. auto.
Qed.

Lemma paced_app (evs evs' : list event) :
  forall prev,
    paced prev evs ->
    (forall ev, In ev evs' ->
       match ev with Request _ _ _ _ _ => False | _ => True end) ->
    paced prev (evs ++ evs').
Proof.
  induction evs as [|ev evs IH]; intros prev Hevs Hno; cbn [app].
  - clear Hevs. revert prev.
    induction evs' as [|ev' evs' IH']; intros prev; cbn [paced]; [trivial|].
    split.
    + specialize (Hno ev' (or_introl eq_refl)). now destruct ev'.
    + apply IH'. intros ev Hev. apply Hno. now right.
  - cbn [paced] in *. destruct Hevs as [Hhead Hrest].
    split; [exact Hhead|]. now apply IH.
Qed.

(** What [paced] says, read on two neighbours of the trace. *)
Lemma paced_neighbours (evs : list event) :
  forall prev, paced prev evs ->
    forall pre before chan oldest latest limit cursor post,
      evs = pre ++ before :: Request chan oldest latest limit cursor :: post ->
      before = Sleep 2.
Proof.
  induction evs as [|ev evs IH];
    intros prev Hpaced pre before chan oldest latest limit cursor post Hevs.
  - now destruct pre.
  - cbn [paced] in Hpaced. destruct Hpaced as [_ Hrest].
    destruct pre as [|p pre]; cbn [app] in Hevs.
    + injection Hevs as -> ->. cbn [paced] in Hrest.
      destruct Hrest as [[H|H] _]; [discriminate|now injection H].
    + injection Hevs as -> ->. exact (IH _ Hrest _ _ _ _ _ _ _ _ eq_refl).
Qed.

End FetcherMore.


(** X5.  When a page holds a message that carries the marker but whose
    "ts" key is missing, or whose timestamp does not convert, the fetch of
    the chunk keeps the records of the messages in front of it on that
    page and returns them; it loses the messages behind it and, even when
    the page announces more, asks for no further page; it prints the
    error. *)
Theorem fetch_stops_at_broken_message
    (fromtimestamp_float : string -> option datetime) (World : Type)
    (conversations_history :
       World -> string -> posix -> posix -> Z -> option string ->
       (response + exn) * World)
    (chan : string) (oldest latest : posix) (w w' : World) (r : response)
    (before after : list message) (bad : message) (fuel : nat) :
  conversations_history w chan oldest latest 1000 None = (inl r, w') ->
  messages r = before ++ bad :: after ->
  snd (process_messages fromtimestamp_float before []) = Normal ->
  carries_marker bad = true ->
  (forall s, ts bad = Some s -> fromtimestamp_float s = None) ->
  let kept := fst (process_messages fromtimestamp_float before []) in
  let e := match ts bad with
           | None => KeyError "ts"
           | Some s => ValueError s
           end in
  fetch_slack_chunk fromtimestamp_float World conversations_history
    (S fuel) w chan oldest latest
  = Some (w', kept,
          [Request chan oldest latest 1000 None; Print (ErrorInBatch e);
           Sleep 2; Print (FetchedRecords (length kept) oldest latest)]).
Proof.
  intros Hreq Hmsgs Hbefore Hmark Hconv kept e.
  assert (Hbad : forall rows',
             process_message fromtimestamp_float rows' bad
             = (rows', Raised e)).
  { intros rows'.
    destruct (process_message_raises fromtimestamp_float bad rows' Hmark)
      as [Hnone Hsome].
    subst e. destruct (ts bad) as [s|] eqn:Ets.
    - now apply Hsome, Hconv.
    - now apply Hnone. }
  unfold fetch_slack_chunk. cbn [pagination]. rewrite Hreq, Hmsgs.
  rewrite (process_messages_stops fromtimestamp_float before after bad e []
             Hbefore Hbad).
  reflexivity.
Qed.

Lemma fetch_stops_at_broken_message_witness :
  let kept :=
    fst (process_messages Sample.clock
           [Sample.etl_message Sample.notification] []) in
  fetch_slack_chunk Sample.clock nat Cases.broken_api 3 0%nat
    channel 0 604800000000
  = Some (1%nat, kept,
          [Request channel 0 604800000000 1000 None;
           Print (ErrorInBatch (KeyError "ts"));
           Sleep 2; Print (FetchedRecords (length kept) 0 604800000000)]).
Proof.
  apply (fetch_stops_at_broken_message Sample.clock nat Cases.broken_api
           channel 0 604800000000 0%nat 1%nat Cases.broken_page
           [Sample.etl_message Sample.notification]
           [Sample.etl_message Sample.notification]
           Cases.broken_message 2).
  - reflexivity.
  - reflexivity.
  - reflexivity.
  - reflexivity.
  - discriminate.
Defined.

(** X6.  When the API serves the pages of a chunk up to one that announces
    no further page, [fetch_slack_chunk] returns, with fuel for these
    requests, the records of all the pages in the order of the pages; it
    makes exactly one request per page, the first without a cursor and
    each further one with the cursor of the page before, and pauses
    between two requests. *)
Theorem fetch_collects_all_pages
    (fromtimestamp_float : string -> option datetime) (World : Type)
    (conversations_history :
       World -> string -> posix -> posix -> Z -> option string ->
       (response + exn) * World)
    (chan : string) (oldest latest : posix) (w w' : World)
    (pages : list response) (fuel : nat) :
  pages_served fromtimestamp_float World conversations_history
    chan oldest latest w None pages w' ->
  (length pages <= fuel)%nat ->
  let all_rows := flat_map (page_records fromtimestamp_float) pages in
  let evs :=
    served_trace chan oldest latest None pages
    ++ [Print (FetchedRecords (length all_rows) oldest latest)] in
  fetch_slack_chunk fromtimestamp_float World conversations_history
    fuel w chan oldest latest
  = Some (w', all_rows, evs)
  /\ length (requests evs) = length pages.
Proof.
  intros Hrun Hfuel all_rows evs. subst all_rows evs.
  unfold fetch_slack_chunk.
  rewrite (pagination_pages_served _ _ _ _ _ _ _ _ _ _ Hrun fuel [] Hfuel).
  cbn [app]. split; [reflexivity|].
  unfold requests. rewrite filter_app, length_app.
  change (filter _ (served_trace chan oldest latest None pages))
    with (requests (served_trace chan oldest latest None pages)).
  rewrite requests_served_trace. simpl. lia.
Qed.

Lemma fetch_collects_all_pages_witness :
  let pages := [Sample.first_page; Cases.second_page] in
  let all_rows := flat_map (page_records Sample.clock) pages in
  let evs :=
    served_trace channel 0 604800000000 None pages
    ++ [Print (FetchedRecords (length all_rows) 0 604800000000)] in
  fetch_slack_chunk Sample.clock nat Cases.two_page_api 2 0%nat
    channel 0 604800000000
  = Some (2%nat, all_rows, evs)
  /\ length (requests evs) = length pages.
Proof.
  apply (fetch_collects_all_pages Sample.clock nat Cases.two_page_api
           channel 0 604800000000 0%nat 2%nat
           [Sample.first_page; Cases.second_page] 2).
  - eapply served_more; [reflexivity | reflexivity | reflexivity |].
    apply served_last; reflexivity.
  - simpl. lia.
Defined.

(** X7.  In the trace of a fetch of one chunk, whatever comes right before
    a request is a pause of two seconds: no request follows another one,
    or a printed line, directly. *)
Theorem fetch_pauses_before_each_further_request
    (fromtimestamp_float : string -> option datetime) (World : Type)
    (conversations_history :
       World -> string -> posix -> posix -> Z -> option string ->
       (response + exn) * World)
    (fuel : nat) (w : World) (chan : string) (oldest latest : posix)
    (w' : World) (all_rows : list LoadRecord) (evs : list event) :
  fetch_slack_chunk fromtimestamp_float World conversations_history
    fuel w chan oldest latest
  = Some (w', all_rows, evs) ->
  forall pre before chan' oldest' latest' limit cursor post,
    evs = pre ++ before :: Request chan' oldest' latest' limit cursor :: post ->
    before = Sleep 2.
Proof.
  unfold fetch_slack_chunk.
  destruct (pagination fromtimestamp_float World conversations_history
              fuel w chan oldest latest None [])
    as [[[w1 rows1] evs1]|] eqn:E; [|discriminate].
  intros [= _ _ <-].
  apply (paced_neighbours _ None).
  apply paced_app.
  - exact (pagination_paced _ _ _ _ _ _ _ _ _ _ _ _ _ E).
  - intros ev [<-|[]]. exact I.
Qed.

Lemma fetch_pauses_before_each_further_request_witness :
  let evs :=
    served_trace channel 0 604800000000 None
      [Sample.first_page; Cases.second_page]
    ++ [Print (FetchedRecords 3 0 604800000000)] in
  let rows :=
    flat_map (page_records Sample.clock)
      [Sample.first_page; Cases.second_page] in
  fetch_slack_chunk Sample.clock nat Cases.two_page_api 2 0%nat
    channel 0 604800000000
  = Some (2%nat, rows, evs)
  /\ evs
     = [Request channel 0 604800000000 1000 None]
       ++ nth 1 evs (Print NoDataFound)
       :: Request channel 0 604800000000 1000
            (next_cursor Sample.first_page)
       :: [Print (FetchedRecords 3 0 604800000000)]
  /\ nth 1 evs (Print NoDataFound) = Sleep 2.
Proof.
  intros evs rows.
  assert (Hrun : fetch_slack_chunk Sample.clock nat Cases.two_page_api
                   2 0%nat channel 0 604800000000
                 = Some (2%nat, rows, evs))
    by (vm_compute; reflexivity).
  assert (Hevs : evs
                 = [Request channel 0 604800000000 1000 None]
                   ++ nth 1 evs (Print NoDataFound)
                   :: Request channel 0 604800000000 1000
                        (next_cursor Sample.first_page)
                   :: [Print (FetchedRecords 3 0 604800000000)])
    by (vm_compute; reflexivity).
  split; [exact Hrun|]. split; [exact Hevs|].
  exact (fetch_pauses_before_each_further_request Sample.clock nat
           Cases.two_page_api 2 0%nat channel 0 604800000000
           2%nat rows evs Hrun _ _ _ _ _ _ _ _ Hevs).
Defined.


(** ** More on the windows *)

(** X8.  The loop of lines 100-105 always ends, with its pairs or with an
    exception.  Pairs that it returns, on whatever platform, are the
    timestamps of windows of which every one is at most seven days long
    and every one but the one that ends at [end_time] is exactly seven
    days long, and of which there are as many as weeks begun between
    [start_time] and [end_time]: the quotient of their distance by seven
    days, rounded up, and none when [end_time] is not after [start_time].
    The loop returns them when the start is a datetime from which whole
    weeks reach the end within the datetimes and the platform converts
    the datetimes of the range. *)
Theorem windows_are_weeks (to_posix : datetime -> posix + exn)
    (stamp : datetime -> posix) (start_time end_time : datetime) :
  time_chunks to_posix start_time end_time <> None
  /\ (forall chunks,
        time_chunks to_posix start_time end_time = Some (inl chunks) ->
        exists ws,
          windows start_time end_time = Some (inl ws)
          /\ Forall2 (converted to_posix) ws chunks
          /\ (forall win, In win ws ->
                snd win - fst win <= timedelta_days 7
                /\ (snd win <> end_time ->
                    snd win - fst win = timedelta_days 7))
          /\ Z.of_nat (length ws)
             = Z.max 0 ((end_time - start_time + timedelta_days 7 - 1)
                        / timedelta_days 7))
  /\ ((start_time < end_time -> weeks_fit start_time end_time) ->
      converts to_posix stamp start_time end_time ->
      exists ws,
        windows start_time end_time = Some (inl ws)
        /\ time_chunks to_posix start_time end_time
           = Some (inl (map (stored stamp) ws))
        /\ (forall win, In win ws ->
              snd win - fst win <= timedelta_days 7
              /\ (snd win <> end_time ->
                  snd win - fst win = timedelta_days 7))
        /\ Z.of_nat (length ws)
           = Z.max 0 ((end_time - start_time + timedelta_days 7 - 1)
                      / timedelta_days 7)).
Proof.
  split; [apply chunk_loop_ends, chunk_fuel_enough|]. split.
  - intros chunks Hchunks.
    destruct (time_chunks_converted _ _ _ _ Hchunks) as [ws [Hws Hconv]].
    exists ws. split; [exact Hws|]. split; [exact Hconv|].
    exact (proj2 (proj2 (chunk_loop_weeks _ _ _ _ Hws))).
  - intros Hfit Hconv.
    destruct (chunk_loop_total to_posix stamp start_time end_time Hfit Hconv)
      as [ws0 [Hloop _]].
    rewrite (time_chunks_stored to_posix stamp _ _ Hconv) in Hloop |- *.
    destruct (windows start_time end_time) as [[ws|e]|] eqn:Hws;
      try discriminate Hloop.
    exists ws. split; [reflexivity|]. split; [reflexivity|].
    exact (proj2 (proj2 (chunk_loop_weeks _ _ _ _ Hws))).
Qed.

Lemma windows_are_weeks_witness :
  converts Sample.utc Sample.utc_stamp (midnight 2024 1 1) (midnight 2024 1 20)
  /\ weeks_fit (midnight 2024 1 1) (midnight 2024 1 20)
  /\ exists ws,
       windows (midnight 2024 1 1) (midnight 2024 1 20) = Some (inl ws)
       /\ time_chunks Sample.utc (midnight 2024 1 1) (midnight 2024 1 20)
          = Some (inl (map (stored Sample.utc_stamp) ws))
       /\ (forall win, In win ws ->
             snd win - fst win <= timedelta_days 7
             /\ (snd win <> midnight 2024 1 20 ->
                 snd win - fst win = timedelta_days 7))
       /\ Z.of_nat (length ws)
          = Z.max 0 ((midnight 2024 1 20 - midnight 2024 1 1
                      + timedelta_days 7 - 1) / timedelta_days 7).
Proof.
  assert (Hconv : converts Sample.utc Sample.utc_stamp
                    (midnight 2024 1 1) (midnight 2024 1 20))
    by (intros t _; reflexivity).
  assert (Hfit : weeks_fit (midnight 2024 1 1) (midnight 2024 1 20)).
  { split; [vm_compute; discriminate|]. exists 3.
    split; vm_compute; discriminate. }
  split; [exact Hconv|]. split; [exact Hfit|].
  exact (proj2 (proj2 (windows_are_weeks Sample.utc Sample.utc_stamp
                         (midnight 2024 1 1) (midnight 2024 1 20)))
           (fun _ => Hfit) Hconv).
Defined.

Lemma Forall2_in_right {A B : Type} (R : A -> B -> Prop) (xs : list A)
    (ys : list B) (y : B) :
  Forall2 R xs ys -> In y ys -> exists x, In x xs /\ R x y.
Proof.
  induction 1 as [|x y' xs ys Hxy _ IH]; intros Hin; [destruct Hin|].
  destruct Hin as [<-|Hin].
  - exists x. split; [now left|exact Hxy].
  - destruct (IH Hin) as [x' [Hx' HR]]. exists x'. split; [now right|exact HR].
Qed.

(** The windows that lie behind the pairs of a returned loop: they lead
    from the start to the end. *)
Lemma windows_total (to_posix : datetime -> posix + exn)
    (start_time end_time : datetime) (chunks : list (posix * posix)) :
  time_chunks to_posix start_time end_time = Some (inl chunks) ->
  exists ws,
    windows start_time end_time = Some (inl ws)
    /\ Forall2 (converted to_posix) ws chunks
    /\ (start_time < end_time -> contiguous start_time end_time ws)
    /\ (end_time <= start_time -> ws = []).
Proof.
  intros Hchunks.
  destruct (time_chunks_converted _ _ _ _ Hchunks) as [ws [Hws Hconv]].
  exists ws. split; [exact Hws|]. split; [exact Hconv|].
  destruct (chunk_loop_weeks _ _ _ _ Hws) as [Hcont [Hnil _]].
  now split.
Qed.

(** ** More on the pipeline *)

Section PipelineMore.

Variable fromtimestamp_float : string -> option datetime.
Variable to_posix : datetime -> posix + exn.
Variable World : Type.
Variable conversations_history :
  World -> string -> posix -> posix -> Z -> option string ->
  (response + exn) * World.

(** A pool without tasks does nothing. *)
Lemma run_tasks_no_chunks (fuel : nat) (order : list nat) (w : World) :
  run_tasks fromtimestamp_float World conversations_history fuel order [] w
  = Some (w, [], []).
Proof.
  induction order as [|i order IH]; cbn [run_tasks]; [reflexivity|].
  now destruct i.
Qed.

Lemma pagination_requests (fuel : nat) :
  forall w chan oldest latest cursor all_rows w' rows' evs,
    pagination fromtimestamp_float World conversations_history
      fuel w chan oldest latest cursor all_rows
    = Some (w', rows', evs) ->
    Forall (request_for chan oldest latest) evs.
Proof.
  induction fuel as [|fuel IH];
    intros w chan oldest latest cursor all_rows w' rows' evs;
    cbn [pagination]; [discriminate|].
  destruct (conversations_history w chan oldest latest 1000 cursor)
    as [[r|e] w1].
  - destruct (process_messages fromtimestamp_float (messages r) all_rows)
      as [rows1 [|e]].
    + destruct (truthy (next_cursor r) && has_more r)%bool.
      * destruct (pagination fromtimestamp_float World conversations_history
                    fuel w1 chan oldest latest (next_cursor r) rows1)
          as [[[w2 rows2] evs2]|] eqn:E; [|discriminate].
        intros [= _ _ <-]. repeat constructor.
        exact (IH _ _ _ _ _ _ _ _ _ E).
      * intros [= _ _ <-]. now repeat constructor.
    + intros [= _ _ <-]. now repeat constructor.
  - intros [= _ _ <-]. now repeat constructor.
Qed.

Lemma run_tasks_requests (fuel : nat) (chunks : list (posix * posix))
    (order : list nat) :
  forall w w' done evs,
    run_tasks fromtimestamp_float World conversations_history
      fuel order chunks w
    = Some (w', done, evs) ->
    Forall (fun ev => exists oldest latest,
                        In (oldest, latest) chunks
                        /\ request_for channel oldest latest ev) evs.
Proof.
  induction order as [|i order IH]; intros w w' done evs; cbn [run_tasks].
  - intros [= _ _ <-]. constructor.
  - destruct (nth_error chunks i) as [[oldest latest]|] eqn:Ei; [|apply IH].
    unfold fetch_slack_chunk.
    destruct (pagination fromtimestamp_float World conversations_history
                fuel w channel oldest latest None [])
      as [[[w1 rows1] evs1]|] eqn:Efetch; [|discriminate].
    destruct (run_tasks fromtimestamp_float World conversations_history
                fuel order chunks w1)
      as [[[w2 done2] evs2]|] eqn:Erest; [|discriminate].
    intros [= _ _ <-].
    apply Forall_app. split; [|exact (IH _ _ _ _ Erest)].
    apply Forall_app. split.
    + apply pagination_requests in Efetch.
      apply Forall_forall. intros ev Hev.
      exists oldest, latest. split; [now apply nth_error_In with i|].
      exact (proj1 (Forall_forall _ _) Efetch ev Hev).
    + repeat constructor. exists oldest, latest.
      split; [now apply nth_error_In with i | exact I].
Qed.

End PipelineMore.

(** X9.  When the end of the range is not after its start, a fetch without
    a cache file makes no request at all: it prints the range and that no
    data was found, returns [None], and leaves the world and the files as
    they are, whatever the fuel and the schedule. *)
Theorem empty_range_fetches_nothing
    (fromtimestamp_float : string -> option datetime)
    (to_posix : datetime -> posix + exn) (World : Type)
    (conversations_history :
       World -> string -> posix -> posix -> Z -> option string ->
       (response + exn) * World)
    (fuel : nat) (schedule : nat -> list nat) (now : datetime) (w : World)
    (fs : FS) (cache_file : string) (start_date end_date : option ymd)
    (start_time end_time : datetime) :
  fs cache_file = None ->
  end_time_of now end_date = Some end_time ->
  start_time_of start_date = Some start_time ->
  end_time <= start_time ->
  fetch_etl_history fromtimestamp_float to_posix World
    conversations_history fuel schedule now w fs cache_file
    start_date end_date
  = Some (w, fs,
          [Print (FetchingHistory start_time end_time); Print NoDataFound],
          Returns None).
Proof.
  intros Hfs Hend Hstart Hle.
  unfold fetch_etl_history. rewrite Hfs, Hend, Hstart.
  unfold time_chunks, chunk_fuel. cbn [chunk_loop].
  destruct (Z.ltb_spec start_time end_time) as [Hlt|_]; [lia|].
  unfold executor_map. cbn [length].
  now rewrite run_tasks_no_chunks.
Qed.

Lemma empty_range_fetches_nothing_witness :
  fetch_etl_history Sample.clock Sample.utc unit Sample.first_week_api
    0 Sample.backwards (midnight 2023 6 1) tt Sample.no_files
    "etl_history_2024.parquet" None None
  = Some (tt, Sample.no_files,
          [Print (FetchingHistory (midnight 2024 1 1) (midnight 2023 6 1));
           Print NoDataFound],
          Returns None).
Proof.
  apply (empty_range_fetches_nothing Sample.clock Sample.utc unit
           Sample.first_week_api 0 Sample.backwards (midnight 2023 6 1) tt
           Sample.no_files "etl_history_2024.parquet" None None
           (midnight 2024 1 1) (midnight 2023 6 1));
    [reflexivity | reflexivity | reflexivity | vm_compute; discriminate].
Defined.

(** X10.  Every request that a fetch makes goes to the configured channel,
    asks for at most 1000 messages, and asks for one of the windows: its
    bounds are the timestamps of a window that lies between the start and
    the end of the range and is at most seven days long.  A fetch that
    finds the cache file makes no request. *)
Theorem requests_stay_in_range
    (fromtimestamp_float : string -> option datetime)
    (to_posix : datetime -> posix + exn) (World : Type)
    (conversations_history :
       World -> string -> posix -> posix -> Z -> option string ->
       (response + exn) * World)
    (fuel : nat) (schedule : nat -> list nat) (now : datetime) (w : World)
    (fs : FS) (cache_file : string) (start_date end_date : option ymd)
    (w' : World) (fs' : FS) (evs : list event) (ans : answer)
    (chan : string) (oldest latest : posix) (limit : Z)
    (cursor : option string) :
  fetch_etl_history fromtimestamp_float to_posix World
    conversations_history fuel schedule now w fs cache_file
    start_date end_date
  = Some (w', fs', evs, ans) ->
  In (Request chan oldest latest limit cursor) evs ->
  chan = channel /\ limit = 1000 /\ fs cache_file = None
  /\ exists start_time end_time win,
       start_time_of start_date = Some start_time
       /\ end_time_of now end_date = Some end_time
       /\ to_posix (fst win) = inl oldest /\ to_posix (snd win) = inl latest
       /\ start_time <= fst win /\ fst win < snd win /\ snd win <= end_time
       /\ snd win - fst win <= timedelta_days 7.
Proof.
  unfold fetch_etl_history.
  destruct (fs cache_file) as [file|] eqn:Hfs.
  { intros [= _ _ <- _] [H|[]]. discriminate H. }
  destruct (end_time_of now end_date) as [end_time|];
    [|intros [= _ _ <- _] []].
  destruct (start_time_of start_date) as [start_time|];
    [|intros [= _ _ <- _] []].
  destruct (time_chunks to_posix start_time end_time)
    as [[chunks|e]|] eqn:Hchunks;
    [|intros [= _ _ <- _] []|discriminate].
  destruct (windows_total _ _ _ _ Hchunks)
    as [ws [Hws [Hconv [Hcont Hnil]]]].
  assert (Hsizes := proj1 (proj2 (proj2 (chunk_loop_weeks _ _ _ _ Hws)))).
  unfold executor_map.
  destruct (run_tasks _ _ _ _ _ _ _) as [[[w1 done] evs1]|] eqn:Erun;
    [|discriminate].
  destruct (combine_and_cache fs cache_file _) as [[fs1 evs2] ret] eqn:Ecomb.
  intros [= _ _ <- _] Hin.
  assert (Hin1 : In (Request chan oldest latest limit cursor) evs1).
  { destruct Hin as [H|Hin]; [discriminate H|].
    apply in_app_or in Hin as [Hin|Hin]; [exact Hin|].
    unfold combine_and_cache in Ecomb.
    destruct (concat _); injection Ecomb as _ <- _;
      repeat (destruct Hin as [H|Hin]; [discriminate H|]);
      now destruct Hin. }
  apply run_tasks_requests in Erun.
  destruct (proj1 (Forall_forall _ _) Erun _ Hin1)
    as [o [l [Hol [-> [-> [-> ->]]]]]].
  destruct (Forall2_in_right _ _ _ _ Hconv Hol) as [win [Hwin [Ho Hl]]].
  cbn [fst snd] in Ho, Hl.
  split; [reflexivity|]. split; [reflexivity|]. split; [reflexivity|].
  exists start_time, end_time, win.
  destruct (Z.lt_ge_cases start_time end_time) as [Hlt|Hge];
    [|rewrite (Hnil Hge) in Hwin; destruct Hwin].
  destruct (contiguous_bounds _ _ _ (Hcont Hlt)) as [_ Hbounds].
  specialize (Hbounds win Hwin). specialize (Hsizes win Hwin).
  repeat split; (reflexivity || assumption || exact (proj1 Hsizes) || lia).
Qed.

Lemma requests_stay_in_range_witness :
  channel = channel /\ 1000 = 1000 /\ Sample.no_files "c" = None
  /\ exists start_time end_time win,
       start_time_of (Some (mkYmd 2024 1 1)) = Some start_time
       /\ end_time_of 0 (Some (mkYmd 2024 1 20)) = Some end_time
       /\ Sample.utc (fst win) = inl (Sample.utc_stamp (midnight 2024 1 8))
       /\ Sample.utc (snd win) = inl (Sample.utc_stamp (midnight 2024 1 15))
       /\ start_time <= fst win /\ fst win < snd win /\ snd win <= end_time
       /\ snd win - fst win <= timedelta_days 7.
Proof.
  eapply (requests_stay_in_range Sample.clock Sample.utc unit
            Sample.silent_api 1 Sample.backwards 0 tt Sample.no_files "c"
            (Some (mkYmd 2024 1 1)) (Some (mkYmd 2024 1 20))).
  - vm_compute. reflexivity.
  - right. right. right. left. reflexivity.
Defined.


(** ** The order of completion, for an API without memory *)

Section Stateless.

Variable fromtimestamp_float : string -> option datetime.
Variable World : Type.
Variable conversations_history :
  World -> string -> posix -> posix -> Z -> option string ->
  (response + exn) * World.
Hypothesis api_stateless : stateless conversations_history.

Lemma pagination_stateless (fuel : nat) :
  forall w1 w2 chan oldest latest cursor all_rows,
    option_map seen
      (pagination fromtimestamp_float World conversations_history
         fuel w1 chan oldest latest cursor all_rows)
    = option_map seen
        (pagination fromtimestamp_float World conversations_history
           fuel w2 chan oldest latest cursor all_rows).
Proof.
  induction fuel as [|fuel IH];
    intros w1 w2 chan oldest latest cursor all_rows; cbn [pagination];
    [reflexivity|].
  pose proof (api_stateless w1 w2 chan oldest latest 1000 cursor) as Hsame.
  destruct (conversations_history w1 chan oldest latest 1000 cursor)
    as [a1 w1'].
  destruct (conversations_history w2 chan oldest latest 1000 cursor)
    as [a2 w2'].
  cbn [fst] in Hsame. subst a2. destruct a1 as [r|e]; [|reflexivity].
  destruct (process_messages fromtimestamp_float (messages r) all_rows)
    as [rows1 [|e]]; [|reflexivity].
  destruct (truthy (next_cursor r) && has_more r)%bool; [|reflexivity].
  specialize (IH w1' w2' chan oldest latest (next_cursor r) rows1).
  destruct (pagination fromtimestamp_float World conversations_history
              fuel w1' chan oldest latest (next_cursor r) rows1)
    as [[[u1 rows2] evs2]|];
    destruct (pagination fromtimestamp_float World conversations_history
                fuel w2' chan oldest latest (next_cursor r) rows1)
      as [[[u2 rows3] evs3]|];
    cbn [option_map seen fst snd] in *; try discriminate; [|reflexivity].
  now injection IH as -> ->.
Qed.

Lemma fetch_slack_chunk_stateless (fuel : nat) (w1 w2 : World)
    (chan : string) (oldest latest : posix) :
  option_map seen
    (fetch_slack_chunk fromtimestamp_float World conversations_history
       fuel w1 chan oldest latest)
  = option_map seen
      (fetch_slack_chunk fromtimestamp_float World conversations_history
         fuel w2 chan oldest latest).
Proof.
  unfold fetch_slack_chunk.
  pose proof (pagination_stateless fuel w1 w2 chan oldest latest None [])
    as H.
  destruct (pagination fromtimestamp_float World conversations_history
              fuel w1 chan oldest latest None []) as [[[u1 rows1] evs1]|];
    destruct (pagination fromtimestamp_float World conversations_history
                fuel w2 chan oldest latest None []) as [[[u2 rows2] evs2]|];
    cbn [option_map seen fst snd] in *; try discriminate; [|reflexivity].
  now injection H as -> ->.
Qed.

(** The rows of the fetch of a chunk, from whatever world it starts. *)
Lemma result_of_cons (i j : nat) (all_rows : list LoadRecord)
    (done : list (nat * list LoadRecord)) :
  result_of ((i, all_rows) :: done) j
  = if Nat.eqb i j then all_rows else result_of done j.
Proof.
  unfold result_of. cbn [find fst]. now destruct (Nat.eqb i j).
Qed.

Lemma run_tasks_results (fuel : nat) (chunks : list (posix * posix))
    (w0 : World) (order : list nat) :
  forall w w' done evs,
    run_tasks fromtimestamp_float World conversations_history
      fuel order chunks w
    = Some (w', done, evs) ->
    forall i c, In i order -> nth_error chunks i = Some c ->
      exists u evs_i,
        fetch_slack_chunk fromtimestamp_float World conversations_history
          fuel w0 channel (fst c) (snd c)
        = Some (u, result_of done i, evs_i).
Proof.
  induction order as [|j order IH]; intros w w' done evs; cbn [run_tasks];
    [intros _ i c []|].
  destruct (nth_error chunks j) as [[oldest latest]|] eqn:Ej.
  - destruct (fetch_slack_chunk fromtimestamp_float World
                conversations_history fuel w channel oldest latest)
      as [[[w1 rows1] evs1]|] eqn:Efetch; [|discriminate].
    destruct (run_tasks fromtimestamp_float World conversations_history
                fuel order chunks w1)
      as [[[w2 done2] evs2]|] eqn:Erest; [|discriminate].
    intros [= _ <- _] i c Hi Hc. rewrite result_of_cons.
    destruct (Nat.eqb_spec j i) as [->|Hji].
    + rewrite Ej in Hc. injection Hc as <-. cbn [fst snd].
      pose proof (fetch_slack_chunk_stateless fuel w0 w channel oldest latest)
        as Hsame.
      rewrite Efetch in Hsame.
      destruct (fetch_slack_chunk fromtimestamp_float World
                  conversations_history fuel w0 channel oldest latest)
        as [[[u rows0] evs0]|]; [|discriminate].
      cbn [option_map seen fst snd] in Hsame. injection Hsame as -> ->.
      now exists u, evs1.
    + destruct Hi as [Hi|Hi]; [contradiction|].
      exact (IH _ _ _ _ Erest i c Hi Hc).
  - intros Hrun i c Hi Hc.
    destruct Hi as [<-|Hi]; [rewrite Ej in Hc; discriminate|].
    exact (IH _ _ _ _ Hrun i c Hi Hc).
Qed.

Lemma run_tasks_terminates (fuel : nat) (chunks : list (posix * posix))
    (w0 : World) (order : list nat) :
  (forall i c, In i order -> nth_error chunks i = Some c ->
     fetch_slack_chunk fromtimestamp_float World conversations_history
       fuel w0 channel (fst c) (snd c) <> None) ->
  forall w, exists w' done evs,
    run_tasks fromtimestamp_float World conversations_history
      fuel order chunks w
    = Some (w', done, evs).
Proof.
  induction order as [|j order IH]; intros Hall w; cbn [run_tasks].
  - now exists w, [], [].
  - assert (Hrest : forall i c, In i order -> nth_error chunks i = Some c ->
              fetch_slack_chunk fromtimestamp_float World
                conversations_history fuel w0 channel (fst c) (snd c)
              <> None)
      by (intros i c Hi; apply Hall; now right).
    destruct (nth_error chunks j) as [[oldest latest]|] eqn:Ej;
      [|now apply IH].
    pose proof (Hall j (oldest, latest) (or_introl eq_refl) Ej) as Hj.
    cbn [fst snd] in Hj.
    pose proof (fetch_slack_chunk_stateless fuel w0 w channel oldest latest)
      as Hsame.
    destruct (fetch_slack_chunk fromtimestamp_float World
                conversations_history fuel w0 channel oldest latest)
      as [r0|]; [|contradiction].
    destruct (fetch_slack_chunk fromtimestamp_float World
                conversations_history fuel w channel oldest latest)
      as [[[w1 rows1] evs1]|]; [|discriminate].
    destruct (IH Hrest w1) as [w2 [done2 [evs2 ->]]].
    now exists w2, ((j, rows1) :: done2), (evs1 ++ evs2).
Qed.

(** Two completion orders of the same tasks give the same results. *)
Lemma executor_map_any_order (fuel : nat) (chunks : list (posix * posix))
    (order1 order2 : list nat) (w1 w2 w1' : World)
    (chunk_results : list (list LoadRecord)) (evs1 : list event) :
  Permutation order1 (seq 0 (length chunks)) ->
  Permutation order2 (seq 0 (length chunks)) ->
  executor_map fromtimestamp_float World conversations_history
    fuel order1 chunks w1
  = Some (w1', chunk_results, evs1) ->
  exists w2' evs2,
    executor_map fromtimestamp_float World conversations_history
      fuel order2 chunks w2
    = Some (w2', chunk_results, evs2).
Proof.
  intros Hp1 Hp2. unfold executor_map.
  destruct (run_tasks fromtimestamp_float World conversations_history
              fuel order1 chunks w1)
    as [[[u1 done1] e1]|] eqn:E1; [|discriminate].
  intros [= _ <- _].
  pose proof (run_tasks_results fuel chunks w1 order1 _ _ _ _ E1) as Hres1.
  assert (Hin : forall i, (i < length chunks)%nat ->
                  In i order1 /\ In i order2).
  { intros i Hi. split;
      [apply (Permutation_in i (Permutation_sym Hp1))
      |apply (Permutation_in i (Permutation_sym Hp2))];
      apply in_seq; lia. }
  assert (Hvalid : forall i c, nth_error chunks i = Some c ->
                     (i < length chunks)%nat).
  { intros i c Hc. apply nth_error_Some. now rewrite Hc. }
  destruct (run_tasks_terminates fuel chunks w1 order2) with (w := w2)
    as [u2 [done2 [e2 E2]]].
  { intros i c _ Hc.
    destruct (Hres1 i c (proj1 (Hin i (Hvalid i c Hc))) Hc) as [u [ev ->]].
    discriminate. }
  rewrite E2. exists u2, e2. do 3 f_equal.
  pose proof (run_tasks_results fuel chunks w1 order2 _ _ _ _ E2) as Hres2.
  apply map_ext_in. intros i Hi. apply in_seq in Hi.
  destruct (nth_error chunks i) as [c|] eqn:Ec;
    [|apply nth_error_None in Ec; lia].
  destruct (Hin i (Hvalid i c Ec)) as [Hi1 Hi2].
  destruct (Hres1 i c Hi1 Ec) as [a1 [b1 H1]].
  destruct (Hres2 i c Hi2 Ec) as [a2 [b2 H2]].
  rewrite H1 in H2. now injection H2.
Qed.

End Stateless.

(** X11.  For an API whose answers depend on the request alone, the
    outcome of a fetch does not depend on the order in which the pool
    completes its tasks, nor on the world it starts from: two schedules
    that complete every task once give the same returned frame and leave
    the same files. *)
Theorem schedule_does_not_matter
    (fromtimestamp_float : string -> option datetime)
    (to_posix : datetime -> posix + exn) (World : Type)
    (conversations_history :
       World -> string -> posix -> posix -> Z -> option string ->
       (response + exn) * World)
    (fuel : nat) (schedule1 schedule2 : nat -> list nat) (now : datetime)
    (w1 w2 w1' : World) (fs fs' : FS) (cache_file : string)
    (start_date end_date : option ymd) (evs1 : list event) (ans : answer) :
  stateless conversations_history ->
  (forall n, Permutation (schedule1 n) (seq 0 n)) ->
  (forall n, Permutation (schedule2 n) (seq 0 n)) ->
  fetch_etl_history fromtimestamp_float to_posix World
    conversations_history fuel schedule1 now w1 fs cache_file
    start_date end_date
  = Some (w1', fs', evs1, ans) ->
  exists w2' evs2,
    fetch_etl_history fromtimestamp_float to_posix World
      conversations_history fuel schedule2 now w2 fs cache_file
      start_date end_date
    = Some (w2', fs', evs2, ans).
Proof.
  intros Hapi Hs1 Hs2. unfold fetch_etl_history.
  destruct (fs cache_file) as [file|].
  { intros [= _ <- _ <-]. now exists w2, [Print LoadingCached]. }
  destruct (end_time_of now end_date) as [end_time|];
    [|intros [= _ <- _ <-]; now exists w2, []].
  destruct (start_time_of start_date) as [start_time|];
    [|intros [= _ <- _ <-]; now exists w2, []].
  destruct (time_chunks to_posix start_time end_time) as [[chunks|e]|];
    [|intros [= _ <- _ <-]; now exists w2, []|discriminate].
  destruct (executor_map fromtimestamp_float World conversations_history
              fuel (schedule1 (length chunks)) chunks w1)
    as [[[u1 chunk_results] e1]|] eqn:E1; [|discriminate].
  destruct (executor_map_any_order fromtimestamp_float World
              conversations_history Hapi fuel chunks
              (schedule1 (length chunks)) (schedule2 (length chunks))
              w1 w2 u1 chunk_results e1 (Hs1 _) (Hs2 _) E1)
    as [u2 [e2 ->]].
  destruct (combine_and_cache fs cache_file chunk_results)
    as [[fs1 evs'] ret].
  intros [= _ <- _ <-].
  now exists u2, (Print (FetchingHistory start_time end_time) :: e2 ++ evs').
Qed.

Lemma schedule_does_not_matter_witness :
  exists fs' evs1 ans w2' evs2,
    fetch_etl_history Sample.clock Sample.utc unit Sample.first_week_api
      1 Sample.backwards 0 tt Sample.no_files "c"
      (Some (mkYmd 2024 1 1)) (Some (mkYmd 2024 1 20))
    = Some (tt, fs', evs1, ans)
    /\ fetch_etl_history Sample.clock Sample.utc unit Sample.first_week_api
         1 (seq 0) 0 tt Sample.no_files "c"
         (Some (mkYmd 2024 1 1)) (Some (mkYmd 2024 1 20))
       = Some (w2', fs', evs2, ans).
Proof.
  eexists _, _, _.
  assert (Hrun : fetch_etl_history Sample.clock Sample.utc unit
                   Sample.first_week_api 1 Sample.backwards 0 tt
                   Sample.no_files "c"
                   (Some (mkYmd 2024 1 1)) (Some (mkYmd 2024 1 20))
                 = Some (tt, _, _, _))
    by (vm_compute; reflexivity).
  destruct (schedule_does_not_matter Sample.clock Sample.utc unit
              Sample.first_week_api 1 Sample.backwards (seq 0) 0 tt tt tt
              Sample.no_files _ "c"
              (Some (mkYmd 2024 1 1)) (Some (mkYmd 2024 1 20)) _ _
              (fun _ _ _ _ _ _ _ => eq_refl)
              (fun n => Permutation_sym (Permutation_rev (seq 0 n)))
              (fun n => Permutation_refl (seq 0 n))
              Hrun)
    as [w2' [evs2 H2]].
  exists w2', evs2. split; [exact Hrun | exact H2].
Defined.


(** ** The files, and the entry point *)

Lemma write_parquet_elsewhere (fs : FS) (path p : string) (df : DataFrame) :
  p <> path -> write_parquet fs path df p = fs p.
Proof.
  intros Hp. unfold write_parquet.
  destruct (String.eqb_spec p path); [contradiction|reflexivity].
Qed.

Lemma remove_elsewhere (fs : FS) (path p : string) :
  p <> path -> remove fs path p = fs p.
Proof.
  intros Hp. unfold remove.
  destruct (String.eqb_spec p path); [contradiction|reflexivity].
Qed.

(** What lines 118-133 leave behind, by what they return. *)
Lemma combine_and_cache_outcome (fs : FS) (cache_file : string)
    (chunk_results : list (list LoadRecord)) :
  (exists evs, combine_and_cache fs cache_file chunk_results
               = (fs, evs, None)
               /\ evs = [Print NoDataFound])
  \/ (exists df evs,
        combine_and_cache fs cache_file chunk_results
        = (write_parquet fs cache_file df, evs, Some df)
        /\ df <> [] /\ StronglySorted by_timestamp df
        /\ ~ In (Print LoadingCached) evs).
Proof.
  destruct (concat chunk_results) as [|r all_rows] eqn:E.
  - left. exists [Print NoDataFound]. split; [|reflexivity].
    now apply combine_and_cache_empty.
  - right. eexists _, _. split; [|split; [|split]].
    + apply combine_and_cache_rows. rewrite E. discriminate.
    + intros Hnil.
      pose proof (Permutation_length
                    (sort_by_timestamp_perm (concat chunk_results))) as Hlen.
      rewrite Hnil, E in Hlen. discriminate Hlen.
    + apply sort_by_timestamp_sorted.
    + intros [H|[H|[]]]; discriminate H.
Qed.

Section FilesFacts.

Variable fromtimestamp_float : string -> option datetime.
Variable to_posix : datetime -> posix + exn.
Variable World : Type.
Variable conversations_history :
  World -> string -> posix -> posix -> Z -> option string ->
  (response + exn) * World.

Lemma pagination_events (fuel : nat) :
  forall w chan oldest latest cursor all_rows w' rows' evs,
    pagination fromtimestamp_float World conversations_history
      fuel w chan oldest latest cursor all_rows
    = Some (w', rows', evs) ->
    Forall chunk_event evs.
Proof.
  induction fuel as [|fuel IH];
    intros w chan oldest latest cursor all_rows w' rows' evs;
    cbn [pagination]; [discriminate|].
  destruct (conversations_history w chan oldest latest 1000 cursor)
    as [[r|e] w1].
  - destruct (process_messages fromtimestamp_float (messages r) all_rows)
      as [rows1 [|e]].
    + destruct (truthy (next_cursor r) && has_more r)%bool.
      * destruct (pagination fromtimestamp_float World conversations_history
                    fuel w1 chan oldest latest (next_cursor r) rows1)
          as [[[w2 rows2] evs2]|] eqn:E; [|discriminate].
        intros [= _ _ <-]. repeat constructor.
        exact (IH _ _ _ _ _ _ _ _ _ E).
      * intros [= _ _ <-]. now repeat constructor.
    + intros [= _ _ <-]. now repeat constructor.
  - intros [= _ _ <-]. now repeat constructor.
Qed.

Lemma run_tasks_events (fuel : nat) (chunks : list (posix * posix))
    (order : list nat) :
  forall w w' done evs,
    run_tasks fromtimestamp_float World conversations_history
      fuel order chunks w
    = Some (w', done, evs) ->
    Forall chunk_event evs.
Proof.
  induction order as [|i order IH]; intros w w' done evs; cbn [run_tasks].
  - intros [= _ _ <-]. constructor.
  - destruct (nth_error chunks i) as [[oldest latest]|]; [|apply IH].
    unfold fetch_slack_chunk.
    destruct (pagination fromtimestamp_float World conversations_history
                fuel w channel oldest latest None [])
      as [[[w1 rows1] evs1]|] eqn:Efetch; [|discriminate].
    destruct (run_tasks fromtimestamp_float World conversations_history
                fuel order chunks w1)
      as [[[w2 done2] evs2]|] eqn:Erest; [|discriminate].
    intros [= _ _ <-].
    apply Forall_app. split; [|exact (IH _ _ _ _ Erest)].
    apply Forall_app. split; [|now repeat constructor].
    exact (pagination_events _ _ _ _ _ _ _ _ _ _ Efetch).
Qed.

(** A fetch that finds no cache file: what it returns and leaves. *)
Lemma fetch_etl_history_fresh_outcome (fuel : nat)
    (schedule : nat -> list nat) (now : datetime) (w : World) (fs : FS)
    (cache_file : string) (start_date end_date : option ymd)
    (w' : World) (fs' : FS) (evs : list event) (ans : answer) :
  fs cache_file = None ->
  fetch_etl_history fromtimestamp_float to_posix World
    conversations_history fuel schedule now w fs cache_file
    start_date end_date
  = Some (w', fs', evs, ans) ->
  ~ In (Print LoadingCached) evs
  /\ ((exists e, ans = Raises e /\ fs' = fs
                 /\ (end_time_of now end_date = None
                     \/ start_time_of start_date = None
                     \/ exists start_time end_time,
                          start_time_of start_date = Some start_time
                          /\ end_time_of now end_date = Some end_time
                          /\ time_chunks to_posix start_time end_time
                             = Some (inr e)))
      \/ (ans = Returns None /\ fs' = fs)
      \/ (exists df, ans = Returns (Some df)
                     /\ fs' = write_parquet fs cache_file df
                     /\ df <> [] /\ StronglySorted by_timestamp df)).
Proof.
  intros Hfs. unfold fetch_etl_history. rewrite Hfs.
  destruct (end_time_of now end_date) as [end_time|].
  2: { intros [= _ <- <- <-]. split; [intros []|].
       left. eexists. split; [reflexivity|]. split; [reflexivity|now left]. }
  destruct (start_time_of start_date) as [start_time|].
  2: { intros [= _ <- <- <-]. split; [intros []|].
       left. eexists. split; [reflexivity|]. split; [reflexivity|].
       right. now left. }
  destruct (time_chunks to_posix start_time end_time)
    as [[chunks|e]|] eqn:Hchunks; [| |discriminate].
  2: { intros [= _ <- <- <-]. split; [intros []|].
       left. exists e. split; [reflexivity|]. split; [reflexivity|].
       right. right. now exists start_time, end_time. }
  unfold executor_map.
  destruct (run_tasks _ _ _ _ _ _ _) as [[[w1 done] evs1]|] eqn:Erun;
    [|discriminate].
  apply run_tasks_events in Erun.
  destruct (combine_and_cache_outcome fs cache_file
              (map (result_of done) (seq 0 (length chunks))))
    as [[evs2 [-> ->]]|[df [evs2 [-> [Hdf [Hsorted Hno]]]]]];
    intros [= _ <- <- <-].
  - split.
    + intros [H|H]; [discriminate H|].
      apply in_app_or in H as [H|[H|[]]]; [|discriminate H].
      exact (proj1 (Forall_forall _ _) Erun _ H).
    + right. left. now split.
  - split.
    + intros [H|H]; [discriminate H|].
      apply in_app_or in H as [H|H]; [|now apply Hno].
      exact (proj1 (Forall_forall _ _) Erun _ H).
    + right. right. now exists df.
Qed.

End FilesFacts.

(** X12.  A fetch touches no file but the cache file.  When it returns a
    frame, the cache file holds that frame afterwards, and a second fetch,
    with whatever dates, returns the same frame without any request; when
    it returns [None] or raises, the files are as they were. *)
Theorem fetch_touches_only_the_cache_file
    (fromtimestamp_float : string -> option datetime)
    (to_posix : datetime -> posix + exn) (World : Type)
    (conversations_history :
       World -> string -> posix -> posix -> Z -> option string ->
       (response + exn) * World)
    (fuel : nat) (schedule : nat -> list nat) (now : datetime) (w : World)
    (fs : FS) (cache_file : string) (start_date end_date : option ymd)
    (w' : World) (fs' : FS) (evs : list event) (ans : answer) :
  fetch_etl_history fromtimestamp_float to_posix World
    conversations_history fuel schedule now w fs cache_file
    start_date end_date
  = Some (w', fs', evs, ans) ->
  (forall p, p <> cache_file -> fs' p = fs p)
  /\ (forall df, ans = Returns (Some df) ->
        fs' cache_file = Some df
        /\ forall fuel2 schedule2 now2 w2 start_date2 end_date2,
             fetch_etl_history fromtimestamp_float to_posix World
               conversations_history fuel2 schedule2 now2 w2 fs' cache_file
               start_date2 end_date2
             = Some (w2, fs', [Print LoadingCached], Returns (Some df)))
  /\ (ans = Returns None -> fs' = fs)
  /\ (forall e, ans = Raises e -> fs' = fs).
Proof.
  intros Hrun.
  assert (Hagain : forall df, fs' cache_file = Some df ->
            forall fuel2 schedule2 now2 w2 start_date2 end_date2,
              fetch_etl_history fromtimestamp_float to_posix World
                conversations_history fuel2 schedule2 now2 w2 fs' cache_file
                start_date2 end_date2
              = Some (w2, fs', [Print LoadingCached], Returns (Some df))).
  { intros df Hdf fuel2 schedule2 now2 w2 sd2 ed2.
    unfold fetch_etl_history. now rewrite Hdf. }
  destruct (fs cache_file) as [file|] eqn:Hfs.
  - unfold fetch_etl_history in Hrun. rewrite Hfs in Hrun.
    injection Hrun as _ <- _ <-.
    split; [reflexivity|]. split; [|split]; try discriminate.
    intros df [= <-]. split; [exact Hfs | now apply Hagain].
  - destruct (fetch_etl_history_fresh_outcome _ _ _ _ _ _ _ _ _ _ _ _ _ _ _ _
                Hfs Hrun)
      as [_ [[e [-> [-> _]]]|[[-> ->]|[df [-> [-> _]]]]]].
    + split; [reflexivity|]. split; [discriminate|]. now split.
    + split; [reflexivity|]. split; [discriminate|]. now split.
    + split; [intros p Hp; now apply write_parquet_elsewhere|].
      split; [|split; discriminate].
      intros df' [= <-]. pose proof (write_then_read fs cache_file df).
      split; [assumption | now apply Hagain].
Qed.

Lemma fetch_touches_only_the_cache_file_witness :
  exists fs' df,
    (forall p, p <> "c" -> fs' p = Sample.no_files p)
    /\ fs' "c" = Some df /\ df <> []
    /\ forall fuel2 schedule2 now2 w2 start_date2 end_date2,
         fetch_etl_history Sample.clock Sample.utc unit
           Sample.first_week_api fuel2 schedule2 now2 w2 fs' "c"
           start_date2 end_date2
         = Some (w2, fs', [Print LoadingCached], Returns (Some df)).
Proof.
  eexists _, _.
  assert (Hrun : fetch_etl_history Sample.clock Sample.utc unit
                   Sample.first_week_api 1 Sample.backwards 0 tt
                   Sample.no_files "c"
                   (Some (mkYmd 2024 1 1)) (Some (mkYmd 2024 1 20))
                 = Some (tt, _, _, Returns (Some _)))
    by (vm_compute; reflexivity).
  destruct (fetch_touches_only_the_cache_file _ _ _ _ _ _ _ _ _ _ _ _ _ _ _ _
              Hrun) as [Hother [Hframe _]].
  destruct (Hframe _ eq_refl) as [Hcache Hagain].
  split; [exact Hother|]. split; [exact Hcache|].
  split; [discriminate | exact Hagain].
Defined.

(** X13.  On a platform that converts the datetimes from 2024-01-01 to
    2024-12-31, the entry point never answers from the cache and never
    raises.  When it returns a frame, the frame is not empty, is in ascending order
    of timestamps, and is what the cache file holds afterwards; when it
    returns [None], there is no cache file afterwards, also if there was
    one before.  No other file is touched. *)
Theorem main_leaves_a_fresh_cache_or_none
    (fromtimestamp_float : string -> option datetime)
    (to_posix : datetime -> posix + exn) (World : Type)
    (conversations_history :
       World -> string -> posix -> posix -> Z -> option string ->
       (response + exn) * World)
    (fuel : nat) (schedule : nat -> list nat) (now : datetime) (w : World)
    (fs : FS) (w' : World) (fs' : FS) (evs : list event) (ans : answer)
    (stamp : datetime -> posix) :
  converts to_posix stamp (midnight 2024 1 1) (midnight 2024 12 31) ->
  main fromtimestamp_float to_posix World conversations_history
    fuel schedule now w fs
  = Some (w', fs', evs, ans) ->
  ~ In (Print LoadingCached) evs
  /\ (forall p, p <> "etl_history_2024.parquet" -> fs' p = fs p)
  /\ ((ans = Returns None /\ fs' "etl_history_2024.parquet" = None)
      \/ exists df,
           ans = Returns (Some df)
           /\ fs' "etl_history_2024.parquet" = Some df
           /\ df <> [] /\ StronglySorted by_timestamp df).
Proof.
  intros Hconv. unfold main.
  set (cache_file := "etl_history_2024.parquet").
  set (fs1 := if path_exists fs cache_file then remove fs cache_file else fs).
  assert (Hfs1 : fs1 cache_file = None).
  { subst fs1. unfold path_exists.
    destruct (fs cache_file) eqn:E; [|exact E].
    unfold remove. now rewrite String.eqb_refl. }
  assert (Hother : forall p, p <> cache_file -> fs1 p = fs p).
  { intros p Hp. subst fs1.
    destruct (path_exists fs cache_file); [|reflexivity].
    now apply remove_elsewhere. }
  assert (Hshape :
    (let '(fs0, evs0) :=
       if path_exists fs cache_file
       then (remove fs cache_file, [Print DeletedCache]) else (fs, []) in
     match fetch_etl_history fromtimestamp_float to_posix World
             conversations_history fuel schedule now w fs0 cache_file
             (Some (mkYmd 2024 1 1)) (Some (mkYmd 2024 12 31)) with
     | Some (w0, fs0', evs1, df) => Some (w0, fs0', evs0 ++ evs1, df)
     | None => None
     end)
    = match fetch_etl_history fromtimestamp_float to_posix World
              conversations_history fuel schedule now w fs1 cache_file
              (Some (mkYmd 2024 1 1)) (Some (mkYmd 2024 12 31)) with
      | Some (w0, fs0', evs1, df) =>
          Some (w0, fs0',
                (if path_exists fs cache_file
                 then [Print DeletedCache] else []) ++ evs1, df)
      | None => None
      end).
  { subst fs1. now destruct (path_exists fs cache_file). }
  rewrite Hshape. clear Hshape.
  destruct (fetch_etl_history fromtimestamp_float to_posix World
              conversations_history fuel schedule now w fs1 cache_file
              (Some (mkYmd 2024 1 1)) (Some (mkYmd 2024 12 31)))
    as [[[[w0 fs0'] evs1] a]|] eqn:Erun; [|discriminate].
  intros [= _ <- <- <-].
  destruct (fetch_etl_history_fresh_outcome _ _ _ _ _ _ _ _ _ _ _ _ _ _ _ _
              Hfs1 Erun) as [Hno Hcases].
  split.
  { intros H. apply in_app_or in H as [H|H]; [|now apply Hno].
    destruct (path_exists fs cache_file); [|destruct H].
    destruct H as [H|[]]. discriminate H. }
  destruct Hcases
    as [[e [_ [_ [H|[H|[start_time [end_time [Hstart [Hend H]]]]]]]]]
       |[[-> ->]|[df [-> [-> [Hdf Hs]]]]]].
  - discriminate H.
  - discriminate H.
  - exfalso. injection Hstart as <-. injection Hend as <-.
    rewrite (time_chunks_stored to_posix stamp _ _ Hconv) in H.
    destruct (windows (midnight 2024 1 1) (midnight 2024 12 31))
      as [[ws|e']|] eqn:Hws; try discriminate H.
    vm_compute in Hws. discriminate Hws.
  - split; [exact Hother|]. left. now split.
  - split.
    + intros p Hp. rewrite write_parquet_elsewhere by exact Hp.
      now apply Hother.
    + right. exists df. split; [reflexivity|].
      split; [apply write_then_read|]. now split.
Qed.

Lemma main_leaves_a_fresh_cache_or_none_witness :
  let stale : FS :=
    write_parquet Sample.no_files "etl_history_2024.parquet"
      Sample.five_days in
  exists fs' evs,
    main Sample.clock Sample.utc unit Sample.silent_api
      1 Sample.backwards 0 tt stale
    = Some (tt, fs', evs, Returns None)
    /\ ~ In (Print LoadingCached) evs
    /\ fs' "etl_history_2024.parquet" = None.
Proof.
  intros stale. eexists _, _.
  assert (Hrun : main Sample.clock Sample.utc unit Sample.silent_api
                   1 Sample.backwards 0 tt stale
                 = Some (tt, _, _, Returns None))
    by (vm_compute; reflexivity).
  destruct (main_leaves_a_fresh_cache_or_none _ _ _ _ _ _ _ _ _ _ _ _ _
              Sample.utc_stamp (fun t _ => eq_refl) Hrun)
    as [Hno [_ [[_ Hgone]|[df [H _]]]]];
    [|discriminate H].
  split; [exact Hrun|]. split; [exact Hno | exact Hgone].
Defined.


(** ** The daily aggregates *)

Module DailyFacts.
Import Analysis.

Lemma sum_Z_cons (x : Z) (xs : list Z) : sum_Z (x :: xs) = x + sum_Z xs.
Proof. now rewrite !AnalysisFacts.sum_Z_fold_right. Qed.

Lemma add_to_group_loads (d r : Z) (groups : list daily) :
  sum_Z (map loads (add_to_group d r groups))
  = sum_Z (map loads groups) + 1.
Proof.
  induction groups as [|g groups IH]; cbn [add_to_group].
  - reflexivity.
  - destruct (Z.eqb (date g) d); cbn [map loads]; rewrite !sum_Z_cons;
      [lia | rewrite IH; lia].
Qed.

Lemma add_to_group_rows (d r : Z) (groups : list daily) :
  sum_Z (map rows_of_day (add_to_group d r groups))
  = sum_Z (map rows_of_day groups) + r.
Proof.
  induction groups as [|g groups IH]; cbn [add_to_group].
  - cbn. lia.
  - destruct (Z.eqb (date g) d); cbn [map rows_of_day]; rewrite !sum_Z_cons;
      [lia | rewrite IH; lia].
Qed.

Lemma add_to_group_dates (d r : Z) (groups : list daily) (d' : Z) :
  In d' (map date (add_to_group d r groups))
  <-> d' = d \/ In d' (map date groups).
Proof.
  induction groups as [|g groups IH]; cbn [add_to_group].
  - cbn. intuition.
  - destruct (Z.eqb_spec (date g) d) as [Hd|Hd]; cbn [map In date].
    + rewrite Hd. intuition.
    + rewrite IH. intuition.
Qed.

Lemma add_to_group_nodup (d r : Z) (groups : list daily) :
  NoDup (map date groups) -> NoDup (map date (add_to_group d r groups)).
Proof.
  induction groups as [|g groups IH]; cbn [add_to_group]; intros Hnd.
  - repeat constructor. intros [].
  - cbn [map] in Hnd. apply NoDup_cons_iff in Hnd as [Hnotin Hnd].
    destruct (Z.eqb_spec (date g) d) as [Hd|Hd]; cbn [map date].
    + constructor; [now rewrite <- Hd | exact Hnd].
    + constructor; [|now apply IH].
      rewrite add_to_group_dates. intros [H|H]; [congruence|contradiction].
Qed.

Lemma add_to_group_positive (d r : Z) (groups : list daily) :
  Forall (fun g => 1 <= loads g) groups ->
  Forall (fun g => 1 <= loads g) (add_to_group d r groups).
Proof.
  induction 1 as [|g groups Hg Hgs IH]; cbn [add_to_group].
  - repeat constructor. cbn. lia.
  - destruct (Z.eqb (date g) d); constructor; try assumption.
    cbn [loads]. lia.
Qed.

(** The invariants of the grouping, from any groups on. *)
Lemma group_by_invariants (df : DataFrame) :
  forall groups,
    let result :=
      fold_left
        (fun gs r => add_to_group (date_of (timestamp r)) (rows r) gs)
        df groups in
    sum_Z (map loads result)
    = sum_Z (map loads groups) + Z.of_nat (length df)
    /\ sum_Z (map rows_of_day result)
       = sum_Z (map rows_of_day groups) + sum_Z (map rows df)
    /\ (NoDup (map date groups) -> NoDup (map date result))
    /\ (Forall (fun g => 1 <= loads g) groups ->
        Forall (fun g => 1 <= loads g) result)
    /\ forall d, In d (map date result)
                 <-> In d (map date groups)
                     \/ exists r, In r df /\ date_of (timestamp r) = d.
Proof.
  induction df as [|r df IH]; intros groups; cbn [fold_left].
  - cbn [length map]. change (sum_Z []) with 0.
    repeat split; try (intros; assumption || lia).
    + intros H. now left.
    + intros [H|[r [[] _]]]. exact H.
  - destruct (IH (add_to_group (date_of (timestamp r)) (rows r) groups))
      as [Hl [Hr [Hn [Hp Hd]]]].
    cbv zeta in *. rewrite Hl, Hr, add_to_group_loads, add_to_group_rows.
    cbn [map length]. rewrite sum_Z_cons, Nat2Z.inj_succ.
    split; [lia|]. split; [lia|].
    split; [intros H; now apply Hn, add_to_group_nodup|].
    split; [intros H; now apply Hp, add_to_group_positive|].
    intros d. rewrite Hd, add_to_group_dates. split.
    + intros [[->|H]|[r' [Hin Hdate]]].
      * right. exists r. split; [now left|reflexivity].
      * now left.
      * right. exists r'. split; [now right|exact Hdate].
    + intros [H|[r' [[<-|Hin] Hdate]]].
      * left. now right.
      * left. left. now symmetry.
      * right. now exists r'.
Qed.

End DailyFacts.

(** X14.  The grouping by day loses and invents nothing: the loads of the
    days add up to the number of records, their rows to the sum of the
    rows of the records; every day on which a record falls has exactly one
    row, no other day has one, and every row counts at least one load. *)
Theorem daily_stats_conserves (df : DataFrame) :
  Analysis.sum_Z (map Analysis.loads (Analysis.daily_stats df))
  = Z.of_nat (length df)
  /\ Analysis.sum_Z (map Analysis.rows_of_day (Analysis.daily_stats df))
     = Analysis.sum_Z (map rows df)
  /\ NoDup (map Analysis.date (Analysis.daily_stats df))
  /\ Forall (fun g => 1 <= Analysis.loads g) (Analysis.daily_stats df)
  /\ forall d, In d (map Analysis.date (Analysis.daily_stats df))
               <-> exists r, In r df
                             /\ Analysis.date_of (timestamp r) = d.
Proof.
  destruct (DailyFacts.group_by_invariants df []) as [Hl [Hr [Hn [Hp Hd]]]].
  unfold Analysis.daily_stats. cbv zeta in *.
  split; [exact Hl|]. split; [exact Hr|].
  split; [apply Hn; constructor|]. split; [apply Hp; constructor|].
  intros d. rewrite Hd. split; [intros [[]|H]; exact H | now right].
Qed.


(** ** What the statistics always show *)

Module CountFacts.
Import Analysis.

Lemma non_null_column (f : daily -> Z) (ds : list daily) :
  non_null (column f ds) = map f ds.
Proof.
  unfold non_null, column.
  induction ds as [|g ds IH]; [reflexivity|]. cbn. now rewrite <- IH.
Qed.

Lemma column_no_nulls (f : daily -> Z) (ds : list daily) :
  Forall (fun x : option Z => x <> None) (column f ds).
Proof.
  unfold column. apply Forall_forall. intros x Hx.
  apply in_map_iff in Hx as [g [<- _]]. discriminate.
Qed.

Lemma length_le_sum (xs : list Z) :
  Forall (fun x => 1 <= x) xs -> Z.of_nat (length xs) <= sum_Z xs.
Proof.
  induction 1 as [|x xs Hx _ IH]; [reflexivity|].
  rewrite DailyFacts.sum_Z_cons. cbn [length]. lia.
Qed.

End CountFacts.

(** X15.  In the statistics of both columns no value is missing, and the
    count is the number of days that have a record, which is at most the
    number of records; for a frame with records there is at least one day,
    and the least number of loads on a day is at least one. *)
Theorem favstats_counts_days (df : DataFrame) :
  let loads_stats := fst (Analysis.calculate_favstats df) in
  let rows_stats := snd (Analysis.calculate_favstats df) in
  Analysis.st_missing loads_stats = 0%nat
  /\ Analysis.st_missing rows_stats = 0%nat
  /\ Analysis.st_n loads_stats = length (Analysis.daily_stats df)
  /\ Analysis.st_n rows_stats = length (Analysis.daily_stats df)
  /\ (length (Analysis.daily_stats df) <= length df)%nat
  /\ (df <> [] ->
      (1 <= length (Analysis.daily_stats df))%nat
      /\ exists m, Analysis.st_min loads_stats = Some m /\ 1 <= m).
Proof.
  intros loads_stats rows_stats. subst loads_stats rows_stats.
  unfold Analysis.calculate_favstats, Analysis.get_stats.
  cbn [fst snd Analysis.st_missing Analysis.st_n Analysis.st_min].
  set (ds := Analysis.daily_stats df).
  destruct (DailyFacts.group_by_invariants df []) as [Hl [_ [_ [Hp _]]]].
  cbv zeta in Hl, Hp. fold (Analysis.daily_stats df) in Hl, Hp.
  fold ds in Hl, Hp. specialize (Hp (Forall_nil _)).
  change (Analysis.sum_Z (map Analysis.loads [])) with 0 in Hl.
  assert (Hpos : Forall (fun x => 1 <= x) (map Analysis.loads ds)).
  { apply Forall_forall. intros x Hx.
    apply in_map_iff in Hx as [g [<- Hg]].
    exact (proj1 (Forall_forall _ _) Hp g Hg). }
  pose proof (CountFacts.length_le_sum _ Hpos) as Hlen.
  rewrite length_map in Hlen.
  split; [apply AnalysisFacts.no_nulls, CountFacts.column_no_nulls|].
  split; [apply AnalysisFacts.no_nulls, CountFacts.column_no_nulls|].
  unfold Analysis.column at 1 2. rewrite !length_map.
  split; [reflexivity|]. split; [reflexivity|]. split; [lia|].
  intros Hdf.
  assert (Hsome : (1 <= length ds)%nat).
  { destruct df as [|r df]; [now contradiction Hdf|].
    destruct ds as [|g ds']; [|cbn [length]; lia].
    cbn [length] in Hl. change (Analysis.sum_Z (map Analysis.loads []))
      with 0 in Hl. lia. }
  split; [exact Hsome|].
  unfold Analysis.series_min. rewrite CountFacts.non_null_column.
  destruct (map Analysis.loads ds) as [|x xs] eqn:E.
  - apply (f_equal (@length Z)) in E. rewrite length_map in E.
    cbn [length] in E. lia.
  - eexists. split; [reflexivity|].
    destruct (AnalysisFacts.fold_min_least xs x) as [Hin _].
    exact (proj1 (Forall_forall _ _) Hpos _ Hin).
Qed.

Lemma favstats_counts_days_witness :
  (1 <= length (Analysis.daily_stats Sample.five_days))%nat
  /\ exists m,
       Analysis.st_min (fst (Analysis.calculate_favstats Sample.five_days))
       = Some m /\ 1 <= m.
Proof.
  apply (favstats_counts_days Sample.five_days). discriminate.
Defined.


(** ** The order of the summary *)

Module SummaryFacts.
Import Analysis.

(** Comparisons of rationals with the denominator 100, in integers. *)
Ltac q_scaled :=
  unfold Qeq, Qle, Qdiv, Qplus, Qmult, inject_Z;
  cbn [Qnum Qden Pos.mul Qinv]; try ring; try lia.

Lemma interpolation_scaled (lo f d : Z) :
  Qeq (Qplus (inject_Z lo) (Qmult (Qmake f 100) (inject_Z d)))
      (Qmake (100 * lo + f * d) 100).
Proof. q_scaled. Qed.

Lemma half_scaled (x y : Z) :
  Qeq (Qdiv (inject_Z (x + y)) (inject_Z 2))
      (Qmake (100 * x + 50 * (y - x)) 100).
Proof. q_scaled. Qed.

Lemma whole_scaled (x y : Z) :
  Qeq (inject_Z x) (Qmake (100 * x + 0 * y) 100).
Proof. q_scaled. Qed.

Lemma Qle_scaled (a b : Z) : Qle (Qmake a 100) (Qmake b 100) <-> a <= b.
Proof. q_scaled. Qed.

Lemma Qle_whole_scaled (m b : Z) :
  Qle (inject_Z m) (Qmake b 100) <-> 100 * m <= b.
Proof. q_scaled. Qed.

Lemma Qle_scaled_whole (a m : Z) :
  Qle (Qmake a 100) (inject_Z m) <-> a <= 100 * m.
Proof. q_scaled. Qed.

Lemma length_sort (a : list Z) : length (ZSort.sort a) = length a.
Proof. symmetry. apply Permutation_length, ZSort.Permuted_sort. Qed.

(** [percentile], in integers. *)
Lemma percentile_rank (a : list Z) (q : Z) :
  a <> [] ->
  exists v,
    percentile a q = Some v
    /\ Qeq v (Qmake (rank_value (ZSort.sort a)
                       ((Z.of_nat (length a) - 1) * q)) 100).
Proof.
  intros Ha. destruct a as [|x a]; [now contradiction Ha|].
  unfold percentile. eexists. split; [reflexivity|].
  apply interpolation_scaled.
Qed.

Lemma even_rank (m : nat) :
  (1 <= m)%nat ->
  (Z.of_nat (2 * m) - 1) * 50 / 100 = Z.of_nat m - 1
  /\ ((Z.of_nat (2 * m) - 1) * 50) mod 100 = 50.
Proof.
  intros Hm.
  replace ((Z.of_nat (2 * m) - 1) * 50)
    with (50 + (Z.of_nat m - 1) * 100) by lia.
  rewrite Z.div_add, Z.mod_add by lia. split; [|reflexivity].
  change (50 / 100) with 0. lia.
Qed.

Lemma odd_rank (m : nat) :
  (Z.of_nat (2 * m + 1) - 1) * 50 / 100 = Z.of_nat m
  /\ ((Z.of_nat (2 * m + 1) - 1) * 50) mod 100 = 0.
Proof.
  replace ((Z.of_nat (2 * m + 1) - 1) * 50) with (Z.of_nat m * 100) by lia.
  now rewrite Z.div_mul, Z.mod_mul by lia.
Qed.

(** [median] is the value at the 50th percent. *)
Lemma median_rank (a : list Z) :
  a <> [] ->
  exists v,
    median a = Some v
    /\ Qeq v (Qmake (rank_value (ZSort.sort a)
                       ((Z.of_nat (length a) - 1) * 50)) 100).
Proof.
  intros Ha. destruct a as [|x a]; [now contradiction Ha|].
  unfold median. set (l := x :: a). set (s := ZSort.sort l).
  assert (Hlen : length s = length l) by apply length_sort.
  assert (Hpos : (1 <= length l)%nat) by (subst l; cbn [length]; lia).
  unfold rank_value. fold s.
  destruct (Nat.even (length l)) eqn:E.
  - apply Nat.even_spec in E as [m Hm].
    assert (Hhalf : (length l / 2 = m)%nat)
      by (rewrite Hm, Nat.mul_comm; apply Nat.div_mul; lia).
    rewrite Hhalf, Hm.
    destruct (even_rank m) as [Hq Hr]; [lia|].
    rewrite Hq, Hr.
    eexists. split; [reflexivity|].
    replace (Z.to_nat (Z.of_nat m - 1)) with (m - 1)%nat by lia.
    replace (S (m - 1)) with m by lia.
    rewrite (nth_indep s (nth (m - 1) s 0) 0) by lia.
    apply half_scaled.
  - assert (Hodd : Nat.odd (length l) = true)
      by (now rewrite <- Nat.negb_even, E).
    apply Nat.odd_spec in Hodd as [m Hm].
    assert (Hhalf : (length l / 2 = m)%nat).
    { rewrite Hm. symmetry. apply (Nat.div_unique _ 2 m 1); lia. }
    rewrite Hhalf, Hm.
    destruct (odd_rank m) as [Hq Hr].
    rewrite Hq, Hr, Nat2Z.id.
    eexists. split; [reflexivity|].
    apply whole_scaled.
Qed.

Lemma sorted_nth_le (s : list Z) :
  StronglySorted Z.le s ->
  forall i j, (i <= j < length s)%nat -> nth i s 0 <= nth j s 0.
Proof.
  induction 1 as [|x s _ IH Hx]; intros i j Hij; [cbn in Hij; lia|].
  destruct j as [|j]; [replace i with 0%nat by lia; lia|].
  destruct i as [|i]; cbn [nth].
  - apply (proj1 (Forall_forall _ _) Hx). apply nth_In.
    cbn [length] in Hij. lia.
  - apply IH. cbn [length] in Hij. lia.
Qed.

(** The interpolated value lies between the two ranks around it. *)
Lemma rank_value_between (s : list Z) (k : Z) :
  StronglySorted Z.le s -> 0 <= k <= 100 * (Z.of_nat (length s) - 1) ->
  let i := Z.to_nat (k / 100) in
  (i < length s)%nat
  /\ 100 * nth i s 0 <= rank_value s k
  /\ rank_value s k <= 100 * nth (S i) s (nth i s 0)
  /\ nth i s 0 <= nth (S i) s (nth i s 0)
  /\ In (nth (S i) s (nth i s 0)) s.
Proof.
  intros Hs Hk i.
  assert (Hi : (i < length s)%nat).
  { subst i. assert (k / 100 <= Z.of_nat (length s) - 1)
      by (apply Z.div_le_upper_bound; lia).
    assert (0 <= k / 100) by (apply Z.div_pos; lia). lia. }
  assert (Hhi : nth i s 0 <= nth (S i) s (nth i s 0)
                /\ In (nth (S i) s (nth i s 0)) s).
  { destruct (Nat.lt_ge_cases (S i) (length s)) as [Hin|Hout].
    - rewrite (nth_indep s (nth i s 0) 0 Hin). split.
      + apply sorted_nth_le; [exact Hs|lia].
      + now apply nth_In.
    - rewrite (nth_overflow s (nth i s 0) Hout).
      split; [lia | now apply nth_In]. }
  destruct Hhi as [Hle Hin].
  pose proof (Z.mod_pos_bound k 100 eq_refl) as Hf.
  unfold rank_value. fold i.
  set (lo := nth i s 0) in *. set (hi := nth (S i) s lo) in *.
  repeat split; try assumption; nia.
Qed.

(** The interpolated value ascends with the percent. *)
Lemma rank_value_mono (s : list Z) (k k' : Z) :
  StronglySorted Z.le s ->
  0 <= k -> k <= k' -> k' <= 100 * (Z.of_nat (length s) - 1) ->
  rank_value s k <= rank_value s k'.
Proof.
  intros Hs H0 Hkk Hk'.
  destruct (rank_value_between s k Hs) as [Hi [Hlo [Hhi [Hle Hin]]]];
    [lia|].
  destruct (rank_value_between s k' Hs) as [Hi' [Hlo' [Hhi' [Hle' _]]]];
    [lia|].
  cbv zeta in *.
  pose proof (Z.div_le_mono k k' 100 eq_refl Hkk) as Hq.
  assert (0 <= k / 100) by (apply Z.div_pos; lia).
  destruct (Z.eq_dec (k / 100) (k' / 100)) as [Heq|Hne].
  - unfold rank_value. rewrite <- Heq.
    set (lo := nth (Z.to_nat (k / 100)) s 0) in *.
    set (hi := nth (S (Z.to_nat (k / 100))) s lo) in *.
    assert (k mod 100 <= k' mod 100).
    { rewrite (Z.mod_eq k 100), (Z.mod_eq k' 100) by lia. lia. }
    pose proof (Z.mod_pos_bound k 100 eq_refl).
    nia.
  - assert (Hstep : (S (Z.to_nat (k / 100)) <= Z.to_nat (k' / 100))%nat)
      by lia.
    assert (nth (S (Z.to_nat (k / 100))) s (nth (Z.to_nat (k / 100)) s 0)
            <= nth (Z.to_nat (k' / 100)) s 0).
    { rewrite (nth_indep s (nth (Z.to_nat (k / 100)) s 0) 0) by lia.
      apply sorted_nth_le; [exact Hs|lia]. }
    lia.
Qed.

(** Between the least and the greatest value of the data. *)
Lemma rank_value_bounds (a : list Z) (k mn mx : Z) :
  (forall y, In y a -> mn <= y <= mx) ->
  a <> [] -> 0 <= k <= 100 * (Z.of_nat (length a) - 1) ->
  100 * mn <= rank_value (ZSort.sort a) k <= 100 * mx.
Proof.
  intros Hall Ha Hk.
  pose proof (AnalysisFacts.sort_sorted a) as Hs.
  rewrite <- (length_sort a) in Hk.
  destruct (rank_value_between _ k Hs Hk) as [Hi [Hlo [Hhi [_ Hin]]]].
  cbv zeta in *.
  assert (Hperm : forall y, In y (ZSort.sort a) -> In y a)
    by (intros y; apply Permutation_in, Permutation_sym,
          ZSort.Permuted_sort).
  pose proof (Hall _ (Hperm _ (nth_In _ 0 Hi))).
  pose proof (Hall _ (Hperm _ Hin)).
  lia.
Qed.

Lemma sum_bounds (xs : list Z) (mn mx : Z) :
  (forall y, In y xs -> mn <= y <= mx) ->
  Z.of_nat (length xs) * mn <= sum_Z xs <= Z.of_nat (length xs) * mx.
Proof.
  induction xs as [|x xs IH]; intros Hall; [cbn; lia|].
  rewrite DailyFacts.sum_Z_cons. cbn [length]. rewrite Nat2Z.inj_succ.
  pose proof (Hall x (or_introl eq_refl)).
  assert (forall y, In y xs -> mn <= y <= mx)
    by (intros y Hy; apply Hall; now right).
  specialize (IH H0). lia.
Qed.

Lemma mean_bounds (total n mn mx : Z) :
  0 < n -> n * mn <= total <= n * mx ->
  Qle (inject_Z mn) (Qdiv (inject_Z total) (inject_Z n))
  /\ Qle (Qdiv (inject_Z total) (inject_Z n)) (inject_Z mx).
Proof.
  intros Hn Htotal.
  assert (Hpos : Qlt (inject_Z 0) (inject_Z n))
    by (rewrite <- Zlt_Qlt; exact Hn).
  split.
  - apply Qle_shift_div_l; [exact Hpos|].
    rewrite <- inject_Z_mult, <- Zle_Qle. lia.
  - apply Qle_shift_div_r; [exact Hpos|].
    rewrite <- inject_Z_mult, <- Zle_Qle. lia.
Qed.

(** The summary of a column without nulls that is not empty. *)
Lemma get_stats_ordered (data : Series) :
  data <> [] -> Forall (fun x : option Z => x <> None) data ->
  ordered_summary (get_stats data).
Proof.
  intros Hdata Hsome.
  destruct (AnalysisFacts.no_nulls data Hsome) as [Harray _].
  set (a := non_null data) in *.
  assert (Ha : a <> []).
  { subst a. destruct data as [|[v|] data]; [now contradiction Hdata| |].
    - discriminate.
    - apply Forall_inv in Hsome. now contradiction Hsome. }
  assert (Hn : 1 <= Z.of_nat (length a))
    by (destruct a; [now contradiction Ha | cbn [length]; lia]).
  destruct (percentile_rank a 25 Ha) as [q1 [Hq1 Eq1]].
  destruct (median_rank a Ha) as [md [Hmd Emd]].
  destruct (percentile_rank a 75 Ha) as [q3 [Hq3 Eq3]].
  destruct a as [|x xs] eqn:Ea; [now contradiction Ha|].
  destruct (AnalysisFacts.fold_min_least xs x) as [_ Hmin].
  destruct (AnalysisFacts.fold_max_greatest xs x) as [_ Hmax].
  set (mn := fold_left Z.min xs x) in *.
  set (mx := fold_left Z.max xs x) in *.
  assert (Hall : forall y, In y (x :: xs) -> mn <= y <= mx)
    by (intros y Hy; split; [now apply Hmin | now apply Hmax]).
  pose proof (AnalysisFacts.sort_sorted (x :: xs)) as Hs.
  pose proof (length_sort (x :: xs)) as Hlen.
  exists mn, q1, md, q3, mx,
    (Qdiv (inject_Z (sum_Z (x :: xs)))
          (inject_Z (Z.of_nat (length (x :: xs))))).
  unfold get_stats.
  cbn [st_min st_q1 st_median st_q3 st_max st_mean].
  unfold series_min, series_max, series_mean, np_percentile, np_median.
  fold a. rewrite Harray, Ea, Hq1, Hmd, Hq3.
  repeat (split; [reflexivity|]).
  rewrite Eq1, Emd, Eq3.
  rewrite Qle_whole_scaled, !Qle_scaled, Qle_scaled_whole.
  split; [apply (rank_value_bounds (x :: xs) _ mn mx Hall Ha); lia|].
  split; [apply rank_value_mono; (assumption || rewrite ?Hlen; lia)|].
  split; [apply rank_value_mono; (assumption || rewrite ?Hlen; lia)|].
  split; [apply (rank_value_bounds (x :: xs) _ mn mx Hall Ha); lia|].
  apply mean_bounds; [lia|]. now apply sum_bounds.
Qed.

End SummaryFacts.

Lemma daily_stats_not_empty (df : DataFrame) :
  df <> [] -> Analysis.daily_stats df <> [].
Proof.
  intros Hdf Hnil.
  destruct (DailyFacts.group_by_invariants df []) as [Hl _].
  cbv zeta in Hl. fold (Analysis.daily_stats df) in Hl. rewrite Hnil in Hl.
  change (Analysis.sum_Z (map Analysis.loads [])) with 0 in Hl.
  destruct df as [|r df]; [now contradiction Hdf|].
  cbn [length] in Hl. lia.
Qed.

(** X16.  For a frame with at least one record, the summary of each of the
    two columns has all its numbers, and they are in order: minimum, first
    quartile, median, third quartile and maximum ascend, and the mean lies
    between the minimum and the maximum. *)
Theorem summary_is_ordered (df : DataFrame) :
  df <> [] ->
  ordered_summary (fst (Analysis.calculate_favstats df))
  /\ ordered_summary (snd (Analysis.calculate_favstats df)).
Proof.
  intros Hdf. apply daily_stats_not_empty in Hdf.
  unfold Analysis.calculate_favstats. cbn [fst snd].
  split; apply SummaryFacts.get_stats_ordered;
    try apply CountFacts.column_no_nulls;
    unfold Analysis.column;
    destruct (Analysis.daily_stats df); (discriminate || now contradiction Hdf).
Qed.

Lemma summary_is_ordered_witness :
  ordered_summary (fst (Analysis.calculate_favstats Sample.five_days))
  /\ ordered_summary (snd (Analysis.calculate_favstats Sample.five_days)).
Proof.
  apply (summary_is_ordered Sample.five_days). discriminate.
Defined.


(** ** The summary that [analyze_data] prints *)

Module ReportFacts.
Import Analysis.

Lemma non_null_timestamps (df : DataFrame) :
  non_null (Summary.timestamps df) = map timestamp df.
Proof.
  unfold non_null, Summary.timestamps.
  induction df as [|r df IH]; [reflexivity|]. cbn. now rewrite <- IH.
Qed.

Lemma series_min_value (data : Series) :
  non_null data <> [] ->
  exists m, series_min data = Some m
            /\ In m (non_null data)
            /\ forall y, In y (non_null data) -> m <= y.
Proof.
  unfold series_min. destruct (non_null data) as [|x xs];
    [intros H; now contradiction H|]. intros _.
  exists (fold_left Z.min xs x). split; [reflexivity|].
  apply AnalysisFacts.fold_min_least.
Qed.

Lemma series_max_value (data : Series) :
  non_null data <> [] ->
  exists m, series_max data = Some m
            /\ In m (non_null data)
            /\ forall y, In y (non_null data) -> y <= m.
Proof.
  unfold series_max. destruct (non_null data) as [|x xs];
    [intros H; now contradiction H|]. intros _.
  exists (fold_left Z.max xs x). split; [reflexivity|].
  apply AnalysisFacts.fold_max_greatest.
Qed.

Lemma series_mean_value (data : Series) :
  non_null data <> [] ->
  series_mean data
  = Some (Qdiv (inject_Z (sum_Z (non_null data)))
               (inject_Z (Z.of_nat (length (non_null data))))).
Proof.
  unfold series_mean. destruct (non_null data);
    [intros H; now contradiction H | reflexivity].
Qed.

Lemma date_of_mono (t t' : datetime) : t <= t' -> date_of t <= date_of t'.
Proof. intros H. unfold date_of. now apply Z.div_le_mono. Qed.

Lemma mean_times_count (total n : Z) :
  0 < n ->
  Qeq (Qmult (Qdiv (inject_Z total) (inject_Z n)) (inject_Z n))
      (inject_Z total).
Proof.
  intros Hn. rewrite Qmult_comm. apply Qmult_div_r.
  intros H. unfold Qeq, inject_Z in H. cbn in H. lia.
Qed.

(** The least of the days is the day of the least timestamp, and likewise
    for the greatest. *)
Lemma extreme_days (df : DataFrame) (days : list Z) (lo hi dmin dmax : Z) :
  (forall d, In d days
             <-> exists r, In r df /\ date_of (timestamp r) = d) ->
  In lo (map timestamp df) -> In hi (map timestamp df) ->
  (forall y, In y (map timestamp df) -> lo <= y <= hi) ->
  In dmin days -> In dmax days ->
  (forall d, In d days -> dmin <= d <= dmax) ->
  dmin = date_of lo /\ dmax = date_of hi.
Proof.
  intros Hdays Hlo Hhi Hall Hdmin Hdmax Hdall.
  apply in_map_iff in Hlo as [rlo [Elo Hrlo]].
  apply in_map_iff in Hhi as [rhi [Ehi Hrhi]].
  assert (Hin_lo : In (date_of lo) days)
    by (apply Hdays; exists rlo; now rewrite Elo).
  assert (Hin_hi : In (date_of hi) days)
    by (apply Hdays; exists rhi; now rewrite Ehi).
  apply Hdays in Hdmin as [r1 [Hr1 E1]].
  apply Hdays in Hdmax as [r2 [Hr2 E2]].
  pose proof (Hall _ (in_map timestamp _ _ Hr1)) as B1.
  pose proof (Hall _ (in_map timestamp _ _ Hr2)) as B2.
  pose proof (date_of_mono _ _ (proj1 B1)).
  pose proof (date_of_mono _ _ (proj2 B2)).
  pose proof (Hdall _ Hin_lo). pose proof (Hdall _ Hin_hi).
  lia.
Qed.

End ReportFacts.

(** X17.  [analyze_data] prints nothing for [None].  For a frame with
    records it prints the least and the greatest timestamp, the number of
    records, the two averages, and as first and last notification the days
    of the least and of the greatest timestamp; the average of the daily
    loads times the number of days is the number of records, and the
    average of the daily rows times the number of days is the sum of the
    rows.  For a frame without records it stops with a type error at the
    first average, after the lines of the head. *)
Theorem analyze_data_reports (df : option DataFrame) :
  match df with
  | None => Summary.analyze_data None = ([], Summary.Finished)
  | Some [] =>
      Summary.analyze_data (Some [])
      = ([Summary.DataSummary; Summary.DateRange None None;
          Summary.TotalRecordsOf 0; Summary.DailyStatistics],
         Summary.TypeError)
  | Some (r :: rs) =>
      let frame := r :: rs in
      let days := Z.of_nat (length (Analysis.daily_stats frame)) in
      exists lo hi loads_mean rows_mean,
        Summary.analyze_data (Some frame)
        = ([Summary.DataSummary;
            Summary.DateRange (Some lo) (Some hi);
            Summary.TotalRecordsOf (length frame);
            Summary.DailyStatistics;
            Summary.AverageDailyLoads loads_mean;
            Summary.AverageRowsPerDay rows_mean;
            Summary.FirstNotification (Some (Analysis.date_of lo));
            Summary.LastNotification (Some (Analysis.date_of hi))],
           Summary.Finished)
        /\ (forall r', In r' frame -> lo <= timestamp r' <= hi)
        /\ (exists r', In r' frame /\ timestamp r' = lo)
        /\ (exists r', In r' frame /\ timestamp r' = hi)
        /\ Qeq (Qmult loads_mean (inject_Z days))
               (inject_Z (Z.of_nat (length frame)))
        /\ Qeq (Qmult rows_mean (inject_Z days))
               (inject_Z (Analysis.sum_Z (map rows frame)))
  end.
Proof.
  destruct df as [[|r rs]|]; [reflexivity| |reflexivity].
  intros frame days.
  assert (Hframe : frame <> []) by discriminate.
  set (ds := Analysis.daily_stats frame) in *.
  set (sorted := DailySort.sort ds).
  assert (Hperm : Permutation sorted ds)
    by apply Permutation_sym, DailySort.Permuted_sort.
  destruct (DailyFacts.group_by_invariants frame []) as [Hl [Hr [_ [_ Hd]]]].
  cbv zeta in Hl, Hr, Hd. fold (Analysis.daily_stats frame) in Hl, Hr, Hd.
  fold ds in Hl, Hr, Hd.
  change (Analysis.sum_Z (map Analysis.loads [])) with 0 in Hl.
  change (Analysis.sum_Z (map Analysis.rows_of_day [])) with 0 in Hr.
  assert (Hds : ds <> []) by now apply daily_stats_not_empty.
  assert (Hdays : 0 < days)
    by (subst days; destruct ds; [now contradiction Hds|cbn [length]; lia]).
  assert (Hcol : forall f, Analysis.non_null (Analysis.column f sorted)
                           = map f sorted)
    by (intros f; apply CountFacts.non_null_column).
  assert (Hne : forall f : Analysis.daily -> Z, map f sorted <> []).
  { intros f H. apply (f_equal (@length Z)) in H.
    rewrite length_map, (Permutation_length Hperm) in H.
    destruct ds; [now contradiction Hds|discriminate H]. }
  assert (Hsum : forall f, Analysis.sum_Z (map f sorted)
                           = Analysis.sum_Z (map f ds))
    by (intros f; now apply AnalysisFacts.sum_Z_perm, Permutation_map).
  assert (Hcount : forall f : Analysis.daily -> Z,
            Z.of_nat (length (map f sorted)) = days)
    by (intros f; now rewrite length_map, (Permutation_length Hperm)).
  assert (Hts : Analysis.non_null (Summary.timestamps frame) <> [])
    by (rewrite ReportFacts.non_null_timestamps; discriminate).
  destruct (ReportFacts.series_min_value _ Hts) as [lo [Elo [Hlo Hlo_le]]].
  destruct (ReportFacts.series_max_value _ Hts) as [hi [Ehi [Hhi Hhi_ge]]].
  rewrite ReportFacts.non_null_timestamps in Hlo, Hlo_le, Hhi, Hhi_ge.
  assert (Hdates : Analysis.non_null (Analysis.column Analysis.date sorted)
                   <> []) by (rewrite Hcol; apply Hne).
  destruct (ReportFacts.series_min_value _ Hdates)
    as [dmin [Edmin [Hdmin Hdmin_le]]].
  destruct (ReportFacts.series_max_value _ Hdates)
    as [dmax [Edmax [Hdmax Hdmax_ge]]].
  rewrite Hcol in Hdmin, Hdmin_le, Hdmax, Hdmax_ge.
  destruct (ReportFacts.extreme_days frame (map Analysis.date sorted)
              lo hi dmin dmax) as [-> ->]; try assumption.
  { intros d. split.
    - intros H.
      apply (Permutation_in d (Permutation_map Analysis.date Hperm)) in H.
      apply Hd in H as [[]|H]. exact H.
    - intros H.
      apply (Permutation_in d (Permutation_map Analysis.date
                                 (Permutation_sym Hperm))).
      apply Hd. now right. }
  { intros y Hy. split; [now apply Hlo_le | now apply Hhi_ge]. }
  { intros d Hd'. split; [now apply Hdmin_le | now apply Hdmax_ge]. }
  exists lo, hi,
    (Qdiv (inject_Z (Z.of_nat (length frame))) (inject_Z days)),
    (Qdiv (inject_Z (Analysis.sum_Z (map rows frame))) (inject_Z days)).
  split.
  - unfold Summary.analyze_data. fold ds. fold sorted.
    rewrite Elo, Ehi, Edmin, Edmax.
    rewrite !ReportFacts.series_mean_value by (rewrite Hcol; apply Hne).
    rewrite !Hcol, !Hsum, !Hcount, Hl, Hr. reflexivity.
  - split; [intros r' Hr'; split;
              [apply Hlo_le | apply Hhi_ge]; now apply in_map|].
    split; [apply in_map_iff in Hlo as [r' [E Hr']]; now exists r'|].
    split; [apply in_map_iff in Hhi as [r' [E Hr']]; now exists r'|].
    split; now apply ReportFacts.mean_times_count.
Qed.

(** ** The two scripts, one after the other *)

(** The entry point of the loader is a fetch on files without the cache
    file, with the dates of 2024. *)
Lemma main_runs_fresh
    (fromtimestamp_float : string -> option datetime)
    (to_posix : datetime -> posix + exn) (World : Type)
    (conversations_history :
       World -> string -> posix -> posix -> Z -> option string ->
       (response + exn) * World)
    (fuel : nat) (schedule : nat -> list nat) (now : datetime) (w : World)
    (fs : FS) (w' : World) (fs' : FS) (evs : list event) (ans : answer) :
  main fromtimestamp_float to_posix World conversations_history
    fuel schedule now w fs
  = Some (w', fs', evs, ans) ->
  exists fs1 evs1,
    fs1 "etl_history_2024.parquet" = None
    /\ fetch_etl_history fromtimestamp_float to_posix World
         conversations_history fuel schedule now w fs1
         "etl_history_2024.parquet"
         (Some (mkYmd 2024 1 1)) (Some (mkYmd 2024 12 31))
       = Some (w', fs', evs1, ans).
Proof.
  unfold main. unfold path_exists.
  destruct (fs "etl_history_2024.parquet") as [old|] eqn:Eold.
  - destruct (fetch_etl_history _ _ _ _ _ _ _ _
                (remove fs "etl_history_2024.parquet") _ _ _)
      as [[[[w0 fs0] evs0] a]|] eqn:Erun; [|discriminate].
    intros [= <- <- _ <-].
    exists (remove fs "etl_history_2024.parquet"), evs0.
    split; [|exact Erun]. unfold remove. now rewrite String.eqb_refl.
  - destruct (fetch_etl_history _ _ _ _ _ _ _ _ fs _ _ _)
      as [[[[w0 fs0] evs0] a]|] eqn:Erun; [|discriminate].
    intros [= <- <- _ <-]. exists fs, evs0. now split.
Qed.

(** X18.  After the entry point of the loader has returned a frame, the
    entry point of the analysis script finds the cache file, and its
    statistics are those of that frame, with all numbers there and in
    order; after it has returned [None], the analysis script fails for
    want of the file, also when there was a cache file before the loader
    ran. *)
Theorem analysis_after_loader
    (fromtimestamp_float : string -> option datetime)
    (to_posix : datetime -> posix + exn) (World : Type)
    (conversations_history :
       World -> string -> posix -> posix -> Z -> option string ->
       (response + exn) * World)
    (fuel : nat) (schedule : nat -> list nat) (now : datetime) (w : World)
    (fs : FS) (w' : World) (fs' : FS) (evs : list event) (ans : answer) :
  main fromtimestamp_float to_posix World conversations_history
    fuel schedule now w fs
  = Some (w', fs', evs, ans) ->
  (forall df, ans = Returns (Some df) ->
     analysis_main fs' = Some (Analysis.calculate_favstats df)
     /\ ordered_summary (fst (Analysis.calculate_favstats df))
     /\ ordered_summary (snd (Analysis.calculate_favstats df)))
  /\ (ans = Returns None -> analysis_main fs' = None).
Proof.
  intros Hmain.
  destruct (main_runs_fresh _ _ _ _ _ _ _ _ _ _ _ _ _ Hmain)
    as [fs1 [evs1 [Hfs1 Hrun]]].
  destruct (fetch_etl_history_fresh_outcome _ _ _ _ _ _ _ _ _ _ _ _ _ _ _ _
              Hfs1 Hrun)
    as [_ [[e [-> _]]|[[-> ->]|[df [-> [-> [Hdf _]]]]]]].
  - split; [intros df H|intros H]; discriminate H.
  - split; [intros df H; discriminate H|].
    intros _. unfold analysis_main. now rewrite Hfs1.
  - split; [|intros H; discriminate H].
    intros df' [= <-]. split.
    + unfold analysis_main. now rewrite write_then_read.
    + destruct df as [|r df]; [now contradiction Hdf|].
      split; apply SummaryFacts.get_stats_ordered;
        try apply CountFacts.column_no_nulls;
        unfold Analysis.column;
        (destruct (Analysis.daily_stats (r :: df)) eqn:E;
         [exfalso; revert E; apply daily_stats_not_empty; discriminate
         |discriminate]).
Qed.

Lemma analysis_after_loader_witness :
  let stale : FS :=
    write_parquet Sample.no_files "etl_history_2024.parquet"
      Sample.five_days in
  exists fs' evs,
    main Sample.clock Sample.utc unit Sample.silent_api
      1 Sample.backwards 0 tt stale
    = Some (tt, fs', evs, Returns None)
    /\ analysis_main stale
       = Some (Analysis.calculate_favstats Sample.five_days)
    /\ analysis_main fs' = None.
Proof.
  intros stale. eexists _, _.
  assert (Hrun : main Sample.clock Sample.utc unit Sample.silent_api
                   1 Sample.backwards 0 tt stale
                 = Some (tt, _, _, Returns None))
    by (vm_compute; reflexivity).
  split; [exact Hrun|]. split; [reflexivity|].
  exact (proj2 (analysis_after_loader _ _ _ _ _ _ _ _ _ _ _ _ _ Hrun)
           eq_refl).
Defined.

(** ** The order of the records *)

Module OrderFacts.
Import Analysis.

(** With one group for each day, the groups may be listed in any order
    before a record is added. *)
Lemma add_to_group_perm (d r : Z) (gs gs' : list daily) :
  Permutation gs gs' -> NoDup (map date gs) ->
  Permutation (add_to_group d r gs) (add_to_group d r gs').
Proof.
  induction 1 as [|x l l' Hperm IH|x y l|l l' l'' H1 IH1 H2 IH2];
    intros Hnd.
  - apply Permutation_refl.
  - cbn [add_to_group map] in *. apply NoDup_cons_iff in Hnd as [_ Hnd].
    destruct (Z.eqb (date x) d); constructor; [exact Hperm|now apply IH].
  - cbn [add_to_group map] in *.
    apply NoDup_cons_iff in Hnd as [Hxy _].
    destruct (Z.eqb_spec (date y) d) as [Hy|Hy];
      destruct (Z.eqb_spec (date x) d) as [Hx|Hx];
      try apply perm_swap.
    exfalso. apply Hxy. left. congruence.
  - transitivity (add_to_group d r l'); [now apply IH1|].
    apply IH2.
    apply (Permutation_NoDup (Permutation_map date H1) Hnd).
Qed.

(** Two records may be added in either order. *)
Lemma add_to_group_swap (d1 r1 d2 r2 : Z) (gs : list daily) :
  Permutation (add_to_group d1 r1 (add_to_group d2 r2 gs))
              (add_to_group d2 r2 (add_to_group d1 r1 gs)).
Proof.
  induction gs as [|g gs IH]; cbn [add_to_group date].
  - destruct (Z.eqb_spec d2 d1) as [H21|H21];
      destruct (Z.eqb_spec d1 d2) as [H12|H12]; try congruence.
    + subst d2. cbn [loads rows_of_day].
      replace (r2 + r1) with (r1 + r2) by lia. apply Permutation_refl.
    + apply perm_swap.
  - destruct (Z.eqb_spec (date g) d2) as [H2|H2];
      destruct (Z.eqb_spec (date g) d1) as [H1|H1];
      cbn [add_to_group date loads rows_of_day].
    + destruct (Z.eqb_spec d2 d1) as [H21|H21]; [|congruence].
      destruct (Z.eqb_spec d1 d2) as [_|H12]; [|congruence].
      rewrite H21.
      replace (rows_of_day g + r2 + r1) with (rows_of_day g + r1 + r2)
        by lia.
      apply Permutation_refl.
    + destruct (Z.eqb_spec d2 d1) as [H21|H21]; [congruence|].
      destruct (Z.eqb_spec (date g) d2) as [_|H2']; [|contradiction].
      apply Permutation_refl.
    + destruct (Z.eqb_spec (date g) d1) as [_|H1']; [|contradiction].
      destruct (Z.eqb_spec d1 d2) as [H12|H12]; [congruence|].
      apply Permutation_refl.
    + destruct (Z.eqb_spec (date g) d1) as [H1'|_]; [contradiction|].
      destruct (Z.eqb_spec (date g) d2) as [H2'|_]; [contradiction|].
      constructor. exact IH.
Qed.

Lemma group_by_perm_groups (df : DataFrame) :
  forall gs gs',
    Permutation gs gs' -> NoDup (map date gs) ->
    Permutation
      (fold_left
         (fun groups r =>
            add_to_group (date_of (timestamp r)) (rows r) groups) df gs)
      (fold_left
         (fun groups r =>
            add_to_group (date_of (timestamp r)) (rows r) groups) df gs').
Proof.
  induction df as [|r df IH]; intros gs gs' Hperm Hnd; cbn [fold_left].
  - exact Hperm.
  - apply IH; [now apply add_to_group_perm|].
    now apply DailyFacts.add_to_group_nodup.
Qed.

Lemma group_by_perm (df df' : DataFrame) :
  Permutation df df' ->
  forall gs,
    NoDup (map date gs) ->
    Permutation
      (fold_left
         (fun groups r =>
            add_to_group (date_of (timestamp r)) (rows r) groups) df gs)
      (fold_left
         (fun groups r =>
            add_to_group (date_of (timestamp r)) (rows r) groups) df' gs).
Proof.
  induction 1 as [|x l l' Hperm IH|x y l|l l' l'' H1 IH1 H2 IH2];
    intros gs Hnd; cbn [fold_left].
  - apply Permutation_refl.
  - apply IH. now apply DailyFacts.add_to_group_nodup.
  - apply group_by_perm_groups; [apply add_to_group_swap|].
    now do 2 apply DailyFacts.add_to_group_nodup.
  - transitivity
      (fold_left
         (fun groups r =>
            add_to_group (date_of (timestamp r)) (rows r) groups) l' gs);
      [now apply IH1 | now apply IH2].
Qed.

Lemma daily_stats_perm (df df' : DataFrame) :
  Permutation df df' -> Permutation (daily_stats df) (daily_stats df').
Proof.
  intros Hperm. unfold daily_stats. apply group_by_perm; [exact Hperm|].
  constructor.
Qed.

(** Fractions are added without being reduced, so that the sum of a list
    of them is the same fraction in whatever order they are added. *)
Lemma Qplus_comm_eq (x y : Q) : Qplus x y = Qplus y x.
Proof.
  destruct x as [a b], y as [c d]. unfold Qplus. cbn [Qnum Qden].
  f_equal; [lia | apply Pos.mul_comm].
Qed.

Lemma Qplus_assoc_eq (x y z : Q) :
  Qplus x (Qplus y z) = Qplus (Qplus x y) z.
Proof.
  destruct x as [a b], y as [c d], z as [e f]. unfold Qplus.
  cbn [Qnum Qden]. f_equal; [|apply Pos.mul_assoc].
  rewrite !Pos2Z.inj_mul. ring.
Qed.

Lemma sum_Q_perm (xs ys : list Q) :
  Permutation xs ys -> sum_Q xs = sum_Q ys.
Proof.
  unfold sum_Q.
  rewrite !(fold_symmetric Qplus Qplus_assoc_eq (inject_Z 0)
              (Qplus_comm_eq (inject_Z 0))).
  induction 1 as [|x l l' _ IH|x y l|l l' l'' _ IH1 _ IH2];
    cbn [fold_right].
  - reflexivity.
  - now rewrite IH.
  - rewrite !Qplus_assoc_eq. f_equal. apply Qplus_comm_eq.
  - now rewrite IH1.
Qed.

Lemma fold_min_perm (x : Z) (xs : list Z) (y : Z) (ys : list Z) :
  Permutation (x :: xs) (y :: ys) ->
  fold_left Z.min xs x = fold_left Z.min ys y.
Proof.
  intros Hperm.
  destruct (AnalysisFacts.fold_min_least xs x) as [Hin Hle].
  destruct (AnalysisFacts.fold_min_least ys y) as [Hin' Hle'].
  apply Z.le_antisymm.
  - apply Hle. exact (Permutation_in _ (Permutation_sym Hperm) Hin').
  - apply Hle'. exact (Permutation_in _ Hperm Hin).
Qed.

Lemma fold_max_perm (x : Z) (xs : list Z) (y : Z) (ys : list Z) :
  Permutation (x :: xs) (y :: ys) ->
  fold_left Z.max xs x = fold_left Z.max ys y.
Proof.
  intros Hperm.
  destruct (AnalysisFacts.fold_max_greatest xs x) as [Hin Hge].
  destruct (AnalysisFacts.fold_max_greatest ys y) as [Hin' Hge'].
  apply Z.le_antisymm.
  - apply Hge'. exact (Permutation_in _ Hperm Hin).
  - apply Hge. exact (Permutation_in _ (Permutation_sym Hperm) Hin').
Qed.

Lemma sort_perm (a a' : list Z) :
  Permutation a a' -> ZSort.sort a = ZSort.sort a'.
Proof.
  intros Hperm. apply AnalysisFacts.sort_of_perm.
  - apply AnalysisFacts.sort_sorted.
  - transitivity a'; [exact Hperm|apply ZSort.Permuted_sort].
Qed.

Lemma percentile_perm (a a' : list Z) (q : Z) :
  Permutation a a' -> percentile a q = percentile a' q.
Proof.
  intros Hperm. unfold percentile.
  pose proof (Permutation_length Hperm) as Hlen.
  pose proof (sort_perm _ _ Hperm) as Hsort.
  destruct a as [|x xs], a' as [|y ys]; try discriminate Hlen;
    [reflexivity|].
  now rewrite Hsort, Hlen.
Qed.

Lemma median_perm (a a' : list Z) :
  Permutation a a' -> median a = median a'.
Proof.
  intros Hperm. unfold median.
  pose proof (Permutation_length Hperm) as Hlen.
  pose proof (sort_perm _ _ Hperm) as Hsort.
  destruct a as [|x xs], a' as [|y ys]; try discriminate Hlen;
    [reflexivity|].
  now rewrite Hsort, Hlen.
Qed.

Lemma series_mean_perm (data data' : Series) :
  Permutation data data' -> series_mean data = series_mean data'.
Proof.
  intros Hperm. unfold series_mean.
  pose proof (AnalysisFacts.non_null_perm _ _ Hperm) as Hvalues.
  pose proof (Permutation_length Hvalues) as Hlen.
  pose proof (AnalysisFacts.sum_Z_perm _ _ Hvalues) as Hsum.
  destruct (non_null data) as [|x xs], (non_null data') as [|y ys];
    try discriminate Hlen; [reflexivity|].
  now rewrite Hsum, Hlen.
Qed.

(** The statistics of a column without nulls are those of any
    rearrangement of it. *)
Lemma get_stats_perm (data data' : Series) :
  Forall (fun x => x <> None) data ->
  Permutation data data' -> get_stats data = get_stats data'.
Proof.
  intros Hsome Hperm.
  assert (Hsome' : Forall (fun x : option Z => x <> None) data')
    by exact (Permutation_Forall Hperm Hsome).
  destruct (AnalysisFacts.no_nulls data Hsome) as [Harray Hnulls].
  destruct (AnalysisFacts.no_nulls data' Hsome') as [Harray' Hnulls'].
  pose proof (AnalysisFacts.non_null_perm _ _ Hperm) as Hvalues.
  unfold get_stats, np_percentile, np_median.
  rewrite Harray, Harray', Hnulls, Hnulls'.
  rewrite (percentile_perm _ _ 25 Hvalues),
    (percentile_perm _ _ 75 Hvalues), (median_perm _ _ Hvalues),
    (series_mean_perm _ _ Hperm), (Permutation_length Hperm).
  assert (Hmin : series_min data = series_min data').
  { unfold series_min.
    pose proof (Permutation_length Hvalues) as Hlen.
    destruct (non_null data) as [|x xs], (non_null data') as [|y ys];
      try discriminate Hlen; [reflexivity|].
    f_equal. now apply fold_min_perm. }
  assert (Hmax : series_max data = series_max data').
  { unfold series_max.
    pose proof (Permutation_length Hvalues) as Hlen.
    destruct (non_null data) as [|x xs], (non_null data') as [|y ys];
      try discriminate Hlen; [reflexivity|].
    f_equal. now apply fold_max_perm. }
  assert (Hvar : series_var data = series_var data').
  { unfold series_var. rewrite (series_mean_perm _ _ Hperm).
    destruct (series_mean data') as [m|]; [|reflexivity].
    rewrite (Permutation_length Hvalues).
    destruct (Nat.leb (length (non_null data')) 1); [reflexivity|].
    f_equal. f_equal. apply sum_Q_perm. now apply Permutation_map. }
  now rewrite Hmin, Hmax, Hvar.
Qed.

End OrderFacts.

(** X19.  The statistics do not depend on the order of the records in the
    frame: two frames with the same records, each as often in one as in
    the other, have the same statistics for both columns, down to the
    unreduced fractions of the mean and of the squared deviation. *)
Theorem statistics_ignore_record_order (df df' : DataFrame) :
  Permutation df df' ->
  Analysis.calculate_favstats df = Analysis.calculate_favstats df'.
Proof.
  intros Hperm. unfold Analysis.calculate_favstats.
  pose proof (OrderFacts.daily_stats_perm _ _ Hperm) as Hdays.
  f_equal; apply OrderFacts.get_stats_perm;
    try apply CountFacts.column_no_nulls;
    unfold Analysis.column; now apply Permutation_map.
Qed.

Lemma statistics_ignore_record_order_witness :
  Permutation Sample.five_days (rev Sample.five_days)
  /\ Sample.five_days <> rev Sample.five_days
  /\ Analysis.daily_stats Sample.five_days
     <> Analysis.daily_stats (rev Sample.five_days)
  /\ Analysis.calculate_favstats Sample.five_days
     = Analysis.calculate_favstats (rev Sample.five_days).
Proof.
  split; [apply Permutation_rev|].
  split; [vm_compute; discriminate|].
  split; [vm_compute; discriminate|].
  apply (statistics_ignore_record_order _ _ (Permutation_rev _)).
Defined.


(** ** An API without a last page *)

(** X20.  The loop over the pages has no exit of its own: for an API that
    answers every request for a chunk with a page that is processed
    without an exception and that announces a further page, under a
    cursor that is not empty, [fetch_slack_chunk] does not return, however
    many requests it is given. *)
Theorem fetch_never_leaves_an_endless_chunk
    (fromtimestamp_float : string -> option datetime) (World : Type)
    (conversations_history :
       World -> string -> posix -> posix -> Z -> option string ->
       (response + exn) * World)
    (chan : string) (oldest latest : posix) :
  (forall w cursor, exists r w',
     conversations_history w chan oldest latest 1000 cursor = (inl r, w')
     /\ snd (process_messages fromtimestamp_float (messages r) []) = Normal
     /\ (truthy (next_cursor r) && has_more r)%bool = true) ->
  forall fuel w,
    fetch_slack_chunk fromtimestamp_float World conversations_history
      fuel w chan oldest latest
    = None.
Proof.
  intros Hmore fuel w. unfold fetch_slack_chunk.
  assert (Hloop : forall cursor all_rows,
            pagination fromtimestamp_float World conversations_history
              fuel w chan oldest latest cursor all_rows = None).
  { revert w. induction fuel as [|fuel IH]; intros w cursor all_rows;
      cbn [pagination]; [reflexivity|].
    destruct (Hmore w cursor) as [r [w' [-> [Hnormal Hnext]]]].
    rewrite (process_messages_appends fromtimestamp_float (messages r)
               all_rows).
    rewrite Hnormal, Hnext. now rewrite IH. }
  now rewrite Hloop.
Qed.

Lemma fetch_never_leaves_an_endless_chunk_witness :
  (forall (w : nat) cursor, exists r w',
     endless_api w channel 0 604800000000 1000 cursor = (inl r, w')
     /\ snd (process_messages Sample.clock (messages r) []) = Normal
     /\ (truthy (next_cursor r) && has_more r)%bool = true)
  /\ fetch_slack_chunk Sample.clock nat endless_api
       1000 0%nat channel 0 604800000000
     = None.
Proof.
  assert (Hmore : forall (w : nat) cursor, exists r w',
            endless_api w channel 0 604800000000 1000 cursor = (inl r, w')
            /\ snd (process_messages Sample.clock (messages r) []) = Normal
            /\ (truthy (next_cursor r) && has_more r)%bool = true).
  { intros w cursor. exists endless_page, (S w).
    split; [reflexivity|]. split; reflexivity. }
  split; [exact Hmore|].
  exact (fetch_never_leaves_an_endless_chunk Sample.clock nat endless_api
           channel 0 604800000000 Hmore 1000%nat 0%nat).
Defined.
